(** * Digital Arkshift: emergency-response USSD service

    A shallow embedding of the session state machine
    ([app/ussd/routes.py]), the matching service
    ([app/services/matching_service.py]), the duplicate guard
    ([app/security.py]) and the database models ([app/models.py]),
    followed by the properties established about them.

    Conventions of the embedding.
    - Python [int] is [Z]; Python [float] is idealised as a real number
      ([R]): arithmetic is exact and there is no NaN.  [float('inf')]
      appears only as the result of [calculate_distance] and has its own
      constructor.
    - [str] is [string], read as a sequence of ASCII characters.
    - [datetime] values are microseconds since the epoch ([Z]); every call
      of [datetime.utcnow()] is a separate reading of the clock.
    - A table is the list of its rows in the order a query without
      [ORDER BY] returns them; the sessions table, which is only ever
      addressed through its unique [session_id], is a finite map.
    - [db.session.commit()] is assumed to succeed. *)

From Stdlib Require Import ZArith List String Ascii Bool Lia Reals Lra.
From Stdlib Require Import Permutation Sorted DecimalString.
From stdpp Require Import base option gmap strings.

Import ListNotations.
Open Scope Z_scope.

(* ===================================================================== *)
(** * Python primitives used by the program *)
(* ===================================================================== *)

Module Py.

(** [bool(x)] for an optional float: [None] and [0.0] are falsy. *)
Definition truthy (x : option R) : bool :=
  match x with
  | None => false
  | Some v => if Req_dec_T v 0%R then false else true
  end.

(** [all([...])] *)
Definition all (xs : list (option R)) : bool := forallb truthy xs.

(** [a <= b] and [a < b] on floats, as booleans. *)
Definition fle (a b : R) : bool := if Rle_dec a b then true else false.
Definition flt (a b : R) : bool := if Rlt_dec a b then true else false.
Definition feq (a b : R) : bool := if Req_dec_T a b then true else false.

(** ** Strings *)

Definition code (c : ascii) : N := N_of_ascii c.

Definition is_upper (c : ascii) : bool := (65 <=? code c)%N && (code c <=? 90)%N.
Definition is_lower (c : ascii) : bool := (97 <=? code c)%N && (code c <=? 122)%N.
Definition is_alpha (c : ascii) : bool := is_upper c || is_lower c.
Definition is_digit (c : ascii) : bool := (48 <=? code c)%N && (code c <=? 57)%N.

(** Characters removed by [str.strip()] in the ASCII range. *)
Definition is_space (c : ascii) : bool :=
  ((9 <=? code c)%N && (code c <=? 13)%N)
  || ((28 <=? code c)%N && (code c <=? 32)%N).

Definition lower_char (c : ascii) : ascii :=
  if is_upper c then ascii_of_N (code c + 32) else c.
Definition upper_char (c : ascii) : ascii :=
  if is_lower c then ascii_of_N (code c - 32) else c.

Definition chars (s : string) : list ascii := list_ascii_of_string s.
Definition str (l : list ascii) : string := string_of_list_ascii l.

(** [s.lower()], [s.upper()] *)
Definition lower (s : string) : string := str (map lower_char (chars s)).
Definition upper (s : string) : string := str (map upper_char (chars s)).

(** [s.title()] *)
Fixpoint title_chars (prev_cased : bool) (l : list ascii) : list ascii :=
  match l with
  | [] => []
  | c :: l' =>
      (if is_alpha c
       then (if prev_cased then lower_char c else upper_char c)
       else c) :: title_chars (is_alpha c) l'
  end.
Definition title (s : string) : string := str (title_chars false (chars s)).

(** [s.strip()] *)
Fixpoint lstrip_chars (l : list ascii) : list ascii :=
  match l with
  | c :: l' => if is_space c then lstrip_chars l' else l
  | [] => []
  end.
Definition strip_chars (l : list ascii) : list ascii :=
  rev (lstrip_chars (rev (lstrip_chars l))).
Definition strip (s : string) : string := str (strip_chars (chars s)).

(** [len(s)] *)
Definition len (s : string) : Z := Z.of_nat (String.length s).

(** [s.split('*')[-1]]: the text after the last star. *)
Definition last_field (s : string) : string :=
  str (fold_left
         (fun acc c => if Ascii.eqb c "*"%char then [] else acc ++ [c])
         (chars s) []).

(** [int(s)]: surrounding blanks, an optional sign, decimal digits which
    single underscores may separate.  [None] stands for [ValueError]. *)
Definition digit_val (c : ascii) : Z := Z.of_N (code c - 48).

Fixpoint int_digits (l : list ascii) (acc : Z) (after_digit : bool)
  : option Z :=
  match l with
  | [] => if after_digit then Some acc else None
  | c :: l' =>
      if is_digit c then int_digits l' (10 * acc + digit_val c) true
      else if Ascii.eqb c "_"%char && after_digit then int_digits l' acc false
      else None
  end.

Definition int (s : string) : option Z :=
  match strip_chars (chars s) with
  | c :: ds =>
      if Ascii.eqb c "-"%char then Z.opp <$> int_digits ds 0 false
      else if Ascii.eqb c "+"%char then int_digits ds 0 false
      else int_digits (c :: ds) 0 false
  | [] => None
  end.

(** [str(n)] for an integer. *)
Definition str_int (n : Z) : string := NilZero.string_of_int (Z.to_int n).

(** [t in s] for strings. *)
Fixpoint starts_with (t s : list ascii) : bool :=
  match t, s with
  | [], _ => true
  | a :: t', b :: s' => Ascii.eqb a b && starts_with t' s'
  | _ :: _, [] => false
  end.
Fixpoint contains (t s : list ascii) : bool :=
  starts_with t s
  || match s with
     | [] => false
     | _ :: s' => contains t s'
     end.

(** ** [list.sort]

    The sort is stable and compares with [<] only.  [sort lt l] is
    [l.sort()] for elements compared by [lt]; [l.sort(key=k)] is
    [sort (fun a b => lt (k a) (k b)) l] and [reverse=True] swaps the
    arguments of the comparison, which keeps equal elements in their
    original order as Python does. *)
Section Sort.
Context {A : Type} (lt : A -> A -> bool).

Fixpoint insert (x : A) (l : list A) : list A :=
  match l with
  | [] => [x]
  | y :: l' => if lt y x then y :: insert x l' else x :: l
  end.

Fixpoint sort (l : list A) : list A :=
  match l with
  | [] => []
  | x :: l' => insert x (sort l')
  end.

(** In a sorted list no element is strictly greater than a later one:
    [not_after x y] lets [x] stand before [y]. *)
Definition not_after (x y : A) : Prop := lt y x = false.
End Sort.

Definition sort_reverse {A : Type} (lt : A -> A -> bool) : list A -> list A :=
  sort (fun a b => lt b a).

(** ** [round]

    [round(x)] on an exact real: the nearest integer, a tie going to
    the even one. *)
Definition round_half_even (x : R) : Z :=
  let below := Int_part x in
  let rest := frac_part x in
  if Rlt_dec rest (1 / 2) then below
  else if Rlt_dec (1 / 2) rest then below + 1
  else if Z.even below then below else below + 1.

(** [round(x, 2)] *)
Definition round2 (x : R) : R := (IZR (round_half_even (x * 100)) / 100)%R.

End Py.

(* ===================================================================== *)
(** * Regular expressions of [app/security.py] *)
(* ===================================================================== *)

Module Re.

Definition newline : ascii := ascii_of_N 10.

(** A bracket expression that lists its characters, as [[789]]. *)
Definition one_of (listed : string) (c : ascii) : bool :=
  existsb (Ascii.eqb c) (Py.chars listed).

(** The characters of a literal, each as a class of its own. *)
Definition literal (text : string) : list (ascii -> bool) :=
  map (fun c d => Ascii.eqb c d) (Py.chars text).

(** [re.match('^' + p + '$', s)] for a pattern [p] that is a sequence
    of character classes, one character each.  [$] matches at the end
    of the string and also just before a newline that ends it. *)
Fixpoint match_classes (p : list (ascii -> bool)) (s : list ascii) : bool :=
  match p with
  | [] =>
      match s with
      | [] => true
      | c :: s' => Ascii.eqb c newline && match s' with [] => true | _ => false end
      end
  | k :: p' =>
      match s with
      | [] => false
      | c :: s' => k c && match_classes p' s'
      end
  end.

(** [re.match('^[...]+$', s)] for one character class [cls]; [seen]
    tells whether a character of the class has been read. *)
Fixpoint match_plus (cls : ascii -> bool) (seen : bool) (s : list ascii)
  : bool :=
  match s with
  | [] => seen
  | c :: s' =>
      if cls c then match_plus cls true s'
      else seen && Ascii.eqb c newline
           && match s' with [] => true | _ => false end
  end.

End Re.

(* ===================================================================== *)
(** * SQL [LIKE] as SQLite evaluates it *)
(* ===================================================================== *)

Module Sql.

(** [s LIKE p]: [%] matches any run of characters, [_] exactly one; no
    escape character is in force. *)
Fixpoint like (p : list ascii) : list ascii -> bool :=
  match p with
  | [] => fun s => match s with [] => true | _ => false end
  | c :: p' =>
      if Ascii.eqb c "%"%char then
        fix any (s : list ascii) : bool :=
          like p' s || match s with [] => false | _ :: s' => any s' end
      else if Ascii.eqb c "_"%char then
        fun s => match s with [] => false | _ :: s' => like p' s' end
      else
        fun s => match s with
                 | [] => false
                 | d :: s' => Ascii.eqb c d && like p' s'
                 end
  end.

(** [column.ilike(pattern)], rendered [lower(column) LIKE lower(pattern)]. *)
Definition ilike (column pattern : string) : bool :=
  like (map Py.lower_char (Py.chars pattern))
       (map Py.lower_char (Py.chars column)).

(** The two characters that have a special meaning in a pattern. *)
Definition is_wildcard (c : ascii) : bool :=
  Ascii.eqb c "%"%char || Ascii.eqb c "_"%char.

(** A text in which no character is a wildcard. *)
Definition plain (text : string) : bool :=
  forallb (fun c => negb (is_wildcard c)) (Py.chars text).

End Sql.

(* ===================================================================== *)
(** * Dates: [datetime], [timedelta], [strftime], [secrets.token_hex] *)
(* ===================================================================== *)

Module Clock.

(** [timedelta(minutes=n)], [timedelta(hours=n)] in microseconds. *)
Definition minutes (n : Z) : Z := n * 60000000.
Definition hours (n : Z) : Z := n * 3600000000.
(** [timedelta(days=n)] *)
Definition days (n : Z) : Z := n * 86400000000.

(** Days since 1970-01-01 of an instant. *)
Definition day_number (t : Z) : Z := t / 86400000000.

(** Day of the 400-year era, year of the era, day of the year (counted
    from 1 March) and the resulting Gregorian date. *)
Definition year_of_era (doe : Z) : Z :=
  (doe - doe / 1460 + doe / 36524 - doe / 146096) / 365.
Definition day_of_year (doe : Z) : Z :=
  let yoe := year_of_era doe in
  doe - (365 * yoe + yoe / 4 - yoe / 100).
Definition month_index (doy : Z) : Z := (5 * doy + 2) / 153.

Definition civil_from_days (z : Z) : Z * Z * Z :=
  let z := z + 719468 in
  let era := z / 146097 in
  let doe := z mod 146097 in
  let yoe := year_of_era doe in
  let doy := day_of_year doe in
  let mp := month_index doy in
  let d := doy - (153 * mp + 2) / 5 + 1 in
  let m := if mp <? 10 then mp + 3 else mp - 9 in
  let y := yoe + era * 400 + (if m <=? 2 then 1 else 0) in
  (y, m, d).

Definition digit_char (d : Z) : ascii := ascii_of_N (48 + Z.to_N d).

(** A number below one hundred printed on two columns, as [%y], [%m]
    and [%d] require. *)
Definition two_digits (n : Z) : string :=
  String (digit_char (n / 10)) (String (digit_char (n mod 10)) "").

(** [t.strftime("%y%m%d")] *)
Definition strftime_ymd (t : Z) : string :=
  let '(y, m, d) := civil_from_days (day_number t) in
  two_digits (y mod 100) +:+ two_digits m +:+ two_digits d.

(** Lower-case hexadecimal digits of one byte, as [bytes.hex()] prints. *)
Definition hex_char (n : N) : ascii :=
  if (n <? 10)%N then ascii_of_N (48 + n) else ascii_of_N (87 + n).
Definition hex_byte (b : Byte.byte) : string :=
  let n := Byte.to_N b in
  String (hex_char (n / 16)) (String (hex_char (n mod 16)) "").

(** [secrets.token_hex(3)] on the three bytes drawn. *)
Definition token_hex3 (b0 b1 b2 : Byte.byte) : string :=
  hex_byte b0 +:+ hex_byte b1 +:+ hex_byte b2.

(** A hexadecimal digit, in either case. *)
Definition is_hex (c : ascii) : bool :=
  Py.is_digit c
  || ((65 <=? Py.code c)%N && (Py.code c <=? 70)%N)
  || ((97 <=? Py.code c)%N && (Py.code c <=? 102)%N).

(** Seconds elapsed since midnight. *)
Definition second_of_day (t : Z) : Z := (t mod 86400000000) / 1000000.

(** [t.strftime("%y%m%d%H%M%S")] *)
Definition strftime_ymdHMS (t : Z) : string :=
  let s := second_of_day t in
  strftime_ymd t +:+ two_digits (s / 3600)
  +:+ two_digits ((s mod 3600) / 60) +:+ two_digits (s mod 60).

(** [secrets.token_hex(4)] on the four bytes drawn. *)
Definition token_hex4 (b0 b1 b2 b3 : Byte.byte) : string :=
  hex_byte b0 +:+ hex_byte b1 +:+ hex_byte b2 +:+ hex_byte b3.

End Clock.

(* ===================================================================== *)
(** * Models ([app/models.py]) *)
(* ===================================================================== *)

Module ResourceType.
Inductive t := SHELTER | FOOD | TRANSPORT.

#[global] Instance resource_type_eq_dec : EqDecision t.
Proof. solve_decision. Defined.

Definition value (x : t) : string :=
  match x with
  | SHELTER => "shelter"
  | FOOD => "food"
  | TRANSPORT => "transport"
  end.

(** [ResourceType(v)]; [None] stands for [ValueError]. *)
Definition of_value (v : string) : option t :=
  if String.eqb v "shelter" then Some SHELTER
  else if String.eqb v "food" then Some FOOD
  else if String.eqb v "transport" then Some TRANSPORT
  else None.
End ResourceType.

Module RequestStatus.
Inductive t := PENDING | MATCHED | CONFIRMED | COMPLETED | CANCELLED.

#[global] Instance request_status_eq_dec : EqDecision t.
Proof. solve_decision. Defined.
End RequestStatus.

Module User.
Record t := { id : Z; phone_hash : string }.
End User.

Module AuditLog.
(** [details] is the JSON object stored in the column, when there is one. *)
Record t := {
  user_id : option Z;
  action : string;
  timestamp : Z;
  details : option (gmap string string)
}.
End AuditLog.

Module Resource.
(** [distance] is not a column: it is the attribute that
    [find_nearby_resources] attaches to the objects it returns, absent
    ([None]) on an object that never went through the distance search.
    [updated_at], which nothing reads, is left out. *)
Record t := {
  id : Z;
  name : string;
  resource_type : ResourceType.t;
  location : string;
  latitude : option R;
  longitude : option R;
  total_capacity : Z;
  available_capacity : Z;
  contact_phone : option string;
  price_per_unit : R;
  is_active : bool;
  distance : option R
}.

Definition set_available_capacity (v : Z) (r : t) : t :=
  {| id := id r; name := name r; resource_type := resource_type r;
     location := location r; latitude := latitude r;
     longitude := longitude r; total_capacity := total_capacity r;
     available_capacity := v; contact_phone := contact_phone r;
     price_per_unit := price_per_unit r; is_active := is_active r;
     distance := distance r |}.

Definition set_distance (d : R) (r : t) : t :=
  {| id := id r; name := name r; resource_type := resource_type r;
     location := location r; latitude := latitude r;
     longitude := longitude r; total_capacity := total_capacity r;
     available_capacity := available_capacity r;
     contact_phone := contact_phone r;
     price_per_unit := price_per_unit r; is_active := is_active r;
     distance := Some d |}.

(** [update_capacity(self, used_capacity)]: the returned flag and the
    object afterwards. *)
Definition update_capacity (self : t) (used_capacity : Z) : bool * t :=
  if available_capacity self >=? used_capacity
  then (true,
        set_available_capacity (available_capacity self - used_capacity) self)
  else (false, self).
End Resource.

Module EmergencyRequest.
Record t := {
  id : Z;
  reference_number : string;
  user_id : Z;
  resource_id : option Z;
  resource_type : ResourceType.t;
  location : string;
  latitude : option R;
  longitude : option R;
  quantity_needed : option Z;
  status : RequestStatus.t;
  created_at : Z;
  matched_at : option Z;
  priority_level : Z;
  total_cost : R
}.

(** [generate_reference_number()] on the clock reading and the three
    random bytes it consumes. *)
Definition generate_reference_number (now : Z) (b0 b1 b2 : Byte.byte)
  : string :=
  let prefix := "ER" in
  let timestamp := Clock.strftime_ymd now in
  let random_part := Py.upper (Clock.token_hex3 b0 b1 b2) in
  prefix +:+ timestamp +:+ random_part.


(** The assignments the auto-matcher makes on a matched request. *)
Definition set_matched (rid : Z) (now : Z) (cost : R) (q : t) : t :=
  {| id := id q; reference_number := reference_number q;
     user_id := user_id q; resource_id := Some rid;
     resource_type := resource_type q; location := location q;
     latitude := latitude q; longitude := longitude q;
     quantity_needed := quantity_needed q;
     status := RequestStatus.MATCHED; created_at := created_at q;
     matched_at := Some now; priority_level := priority_level q;
     total_cost := cost |}.
End EmergencyRequest.

Module SessionData.
(** The dictionary kept as JSON in [USSDSession.session_data]; a key
    that is absent is [None]. *)
Record t := {
  resource_type : option string;
  location : option string;
  resources : option (list Z);
  selected_resource_id : option Z
}.

Definition empty : t :=
  {| resource_type := None; location := None; resources := None;
     selected_resource_id := None |}.
End SessionData.

Module USSDSession.
Record t := {
  session_id : string;
  user_id : Z;
  current_step : string;
  session_data : SessionData.t;
  created_at : Z;
  last_activity : Z;
  expires_at : Z
}.

(** [USSDSession(session_id, user_id)] once inserted: [t_init] is the
    clock reading of [__init__]; [t_created] and [t_activity] are the
    readings of the two column defaults evaluated by the insert. *)
Definition new (sid : string) (uid : Z) (t_init t_created t_activity : Z)
  : t :=
  {| session_id := sid; user_id := uid; current_step := "start";
     session_data := SessionData.empty;
     created_at := t_created; last_activity := t_activity;
     expires_at := t_init + Clock.minutes 10 |}.

(** [is_expired(self)] at clock reading [now]. *)
Definition is_expired (now : Z) (self : t) : bool := now >? expires_at self.

(** [extend_session(self, minutes=10)]: [t1] and [t2] are its two clock
    readings, in program order. *)
Definition extend_session (t1 t2 : Z) (self : t) : t :=
  {| session_id := session_id self; user_id := user_id self;
     current_step := current_step self;
     session_data := session_data self;
     created_at := created_at self;
     last_activity := t2;
     expires_at := t1 + Clock.minutes 10 |}.

Definition set_current_step (step : string) (self : t) : t :=
  {| session_id := session_id self; user_id := user_id self;
     current_step := step; session_data := session_data self;
     created_at := created_at self; last_activity := last_activity self;
     expires_at := expires_at self |}.

(** [set_session_data(self, data)] *)
Definition set_session_data (data : SessionData.t) (self : t) : t :=
  {| session_id := session_id self; user_id := user_id self;
     current_step := current_step self; session_data := data;
     created_at := created_at self; last_activity := last_activity self;
     expires_at := expires_at self |}.

(** [get_session_data(self)] *)
Definition get_session_data (self : t) : SessionData.t := session_data self.
End USSDSession.

Module Payment.
(** [generate_transaction_id()] on the clock reading and the four
    random bytes it consumes. *)
Definition generate_transaction_id (now : Z) (b0 b1 b2 b3 : Byte.byte)
  : string :=
  let prefix := "TXN" in
  let timestamp := Clock.strftime_ymdHMS now in
  let random_part := Py.upper (Clock.token_hex4 b0 b1 b2 b3) in
  prefix +:+ timestamp +:+ random_part.

(** The shape of a transaction identifier: [TXN], twelve decimal
    digits, eight hexadecimal characters none of which is a lower-case
    letter. *)
Definition is_transaction_id (s : string) : bool :=
  String.prefix "TXN" s
  && (String.length s =? 23)%nat
  && forallb Py.is_digit (Py.chars (String.substring 3 12 s))
  && forallb (fun c => Clock.is_hex c && negb (Py.is_lower c))
       (Py.chars (String.substring 15 8 s)).
End Payment.

(* ===================================================================== *)
(** * The world the program runs in *)
(* ===================================================================== *)

(** What the interpreter process and the operating system supply.
    [utcnow_at n] is the n-th reading of [datetime.utcnow()] that the
    modelled code takes and [urandom_at n] the n-th byte that [secrets]
    draws; [hash_str] is the built-in [hash] on strings, which CPython
    salts per process; [sha256_hex] is [hashlib.sha256(..).hexdigest()]
    and [format_float] the text of a float inside an f-string. *)
Class Runtime := {
  utcnow_at : nat -> Z;
  urandom_at : nat -> Byte.byte;
  hash_str : string -> Z;
  sha256_hex : string -> string;
  format_float : R -> string
}.

(** The database and the two cursors into the clock and the random source. *)
Record world := {
  users : list User.t;
  sessions : gmap string USSDSession.t;
  resources : list Resource.t;
  requests : list EmergencyRequest.t;
  audit_logs : list AuditLog.t;
  clock_reads : nat;
  random_reads : nat
}.

Definition with_users (v : list User.t) (w : world) : world :=
  {| users := v; sessions := sessions w; resources := resources w;
     requests := requests w; audit_logs := audit_logs w;
     clock_reads := clock_reads w; random_reads := random_reads w |}.
Definition with_sessions (v : gmap string USSDSession.t) (w : world) : world :=
  {| users := users w; sessions := v; resources := resources w;
     requests := requests w; audit_logs := audit_logs w;
     clock_reads := clock_reads w; random_reads := random_reads w |}.
Definition with_resources (v : list Resource.t) (w : world) : world :=
  {| users := users w; sessions := sessions w; resources := v;
     requests := requests w; audit_logs := audit_logs w;
     clock_reads := clock_reads w; random_reads := random_reads w |}.
Definition with_requests (v : list EmergencyRequest.t) (w : world) : world :=
  {| users := users w; sessions := sessions w; resources := resources w;
     requests := v; audit_logs := audit_logs w;
     clock_reads := clock_reads w; random_reads := random_reads w |}.
Definition with_audit_logs (v : list AuditLog.t) (w : world) : world :=
  {| users := users w; sessions := sessions w; resources := resources w;
     requests := requests w; audit_logs := v;
     clock_reads := clock_reads w; random_reads := random_reads w |}.
Definition with_clock_reads (v : nat) (w : world) : world :=
  {| users := users w; sessions := sessions w; resources := resources w;
     requests := requests w; audit_logs := audit_logs w;
     clock_reads := v; random_reads := random_reads w |}.
Definition with_random_reads (v : nat) (w : world) : world :=
  {| users := users w; sessions := sessions w; resources := resources w;
     requests := requests w; audit_logs := audit_logs w;
     clock_reads := clock_reads w; random_reads := v |}.

(** Python exceptions that the modelled code can raise. *)
Inductive exn := KeyError | ValueError | TypeError.

Inductive outcome (A : Type) :=
| Ok (a : A)
| Raise (e : exn).
Arguments Ok {A} a.
Arguments Raise {A} e.

(** Computations over the world that return or raise. *)
Definition M (A : Type) : Type := world -> outcome A * world.

Definition ret {A} (a : A) : M A := fun w => (Ok a, w).
Definition raise {A} (e : exn) : M A := fun w => (Raise e, w).
Definition bind {A B} (m : M A) (k : A -> M B) : M B :=
  fun w =>
    match m w with
    | (Ok a, w') => k a w'
    | (Raise e, w') => (Raise e, w')
    end.
Definition get : M world := fun w => (Ok w, w).
Definition modify (f : world -> world) : M unit := fun w => (Ok tt, f w).

Notation "x <- c ;; k" := (bind c (fun x => k))
  (at level 100, c at next level, k at level 200, right associativity).
Notation "c ;; k" := (bind c (fun _ => k))
  (at level 100, k at level 200, right associativity).

(** [try: m except Exception: h] when nothing is rolled back. *)
Definition try_except {A} (m : M A) (h : M A) : M A :=
  fun w =>
    match m w with
    | (Ok a, w') => (Ok a, w')
    | (Raise _, w') => h w'
    end.

(** [db.session.rollback()]: the tables go back to what was last
    committed; readings already taken from the clock and from the random
    source stay taken. *)
Definition rollback (committed : world) : M unit :=
  modify (fun w =>
            with_random_reads (random_reads w)
              (with_clock_reads (clock_reads w) committed)).

(** [e[key]] on a dictionary entry: [KeyError] when the key is absent. *)
Definition item {A} (e : option A) : M A :=
  match e with
  | Some a => ret a
  | None => raise KeyError
  end.

(** [wp m Q w]: the run of [m] from the world [w] ends with an outcome and
    in a world that satisfy [Q]. *)
Definition wp {A : Type} (m : M A) (Q : outcome A -> world -> Prop)
    (w : world) : Prop :=
  Q (fst (m w)) (snd (m w)).

(** Primary-key access to the tables. *)
Definition Resource_get (rid : Z) (table : list Resource.t)
  : option Resource.t :=
  find (fun r => Resource.id r =? rid) table.

Definition Resource_flush (r : Resource.t) (table : list Resource.t)
  : list Resource.t :=
  map (fun x => if Resource.id x =? Resource.id r then r else x) table.

Definition EmergencyRequest_flush (q : EmergencyRequest.t)
    (table : list EmergencyRequest.t) : list EmergencyRequest.t :=
  map (fun x => if EmergencyRequest.id x =? EmergencyRequest.id q
                then q else x) table.

(** The next value of an integer primary key. *)
Definition next_id (ids : list Z) : Z := 1 + fold_right Z.max 0 ids.

(** The runtime in which somebody else has taken the clock reading
    number [k]: the program sees the readings before [k] and those after
    it. *)
Definition skip_reading (k : nat) (rt : Runtime) : Runtime :=
  {| utcnow_at := fun n => @utcnow_at rt (if (n <? k)%nat then n else S n);
     urandom_at := @urandom_at rt;
     hash_str := @hash_str rt;
     sha256_hex := @sha256_hex rt;
     format_float := @format_float rt |}.

(** Two worlds with the same tables, the sessions table apart, and the
    same position in the random source. *)
Definition same_tables (w1 w2 : world) : Prop :=
  users w1 = users w2
  /\ resources w1 = resources w2
  /\ requests w1 = requests w2
  /\ audit_logs w1 = audit_logs w2
  /\ random_reads w1 = random_reads w2.

Section Program.

Context `{Runtime}.

(** [datetime.utcnow()] *)
Definition utcnow : M Z :=
  fun w => (Ok (utcnow_at (clock_reads w)),
            with_clock_reads (S (clock_reads w)) w).

(** One byte of [secrets]. *)
Definition random_byte : M Byte.byte :=
  fun w => (Ok (urandom_at (random_reads w)),
            with_random_reads (S (random_reads w)) w).

(** [models.hash_phone_number] *)
Definition hash_phone_number (phone_number : string) : string :=
  let salt := "emergency_response_salt" in
  sha256_hex (phone_number +:+ salt).

End Program.

(* ===================================================================== *)
(** * Matching service ([app/services/matching_service.py]) *)
(* ===================================================================== *)

Module MatchingService.

(** The float that [calculate_distance] returns. *)
Inductive km :=
| Finite (d : R)
| Infinity.

(** [distance <= radius_km] *)
Definition km_le (distance : km) (radius_km : R) : bool :=
  match distance with
  | Finite d => Py.fle d radius_km
  | Infinity => false
  end.

(** [math.radians] *)
Definition radians (x : R) : R := (x * (PI / 180))%R.

Definition calculate_distance (lat1 lon1 lat2 lon2 : option R) : km :=
  if negb (Py.all [lat1; lon1; lat2; lon2]) then Infinity
  else
    match lat1, lon1, lat2, lon2 with
    | Some lat1, Some lon1, Some lat2, Some lon2 =>
        let lat1 := radians lat1 in
        let lon1 := radians lon1 in
        let lat2 := radians lat2 in
        let lon2 := radians lon2 in
        let dlat := (lat2 - lat1)%R in
        let dlon := (lon2 - lon1)%R in
        let a := (sin (dlat / 2) ^ 2
                  + cos lat1 * cos lat2 * sin (dlon / 2) ^ 2)%R in
        let c := (2 * asin (sqrt a))%R in
        let r := 6371%R in
        Finite (c * r)
    | _, _, _, _ => Infinity (* not reached: a [None] fails the test above *)
    end.

(** The filter of the base query. *)
Definition base_query (resource_type : ResourceType.t) (r : Resource.t)
  : bool :=
  bool_decide (Resource.resource_type r = resource_type)
  && Resource.is_active r
  && (Resource.available_capacity r >? 0).

(** The body of the loop that keeps the resources within the radius and
    attaches their distance. *)
Fixpoint within_radius (radius_km : R) (user_lat user_lon : option R)
    (rows : list Resource.t) : list Resource.t :=
  match rows with
  | [] => []
  | resource :: rest =>
      let tail := within_radius radius_km user_lat user_lon rest in
      if Py.truthy (Resource.latitude resource)
         && Py.truthy (Resource.longitude resource)
      then
        let distance :=
          calculate_distance user_lat user_lon
            (Resource.latitude resource) (Resource.longitude resource) in
        match distance with
        | Finite d =>
            if km_le distance radius_km
            then Resource.set_distance d resource :: tail
            else tail
        | Infinity => tail
        end
      else tail
  end.

(** The value of [r.distance] on an object that carries the attribute. *)
Definition distance_of (r : Resource.t) : R :=
  match Resource.distance r with
  | Some d => d
  | None => 0%R (* not reached where this is used *)
  end.

(** [(r.distance, -r.available_capacity) < (s.distance, -s.available_capacity)] *)
Definition nearer (r s : Resource.t) : bool :=
  if Py.feq (distance_of r) (distance_of s)
  then - Resource.available_capacity r <? - Resource.available_capacity s
  else Py.flt (distance_of r) (distance_of s).

(** [-r.available_capacity < -s.available_capacity] *)
Definition roomier (r s : Resource.t) : bool :=
  - Resource.available_capacity r <? - Resource.available_capacity s.

(** [table] is the resources table; the remaining arguments are those
    of the method, in its order.  Nothing in the body raises on the
    values of the embedding, so the [except] branch, which returns
    the empty list, is never taken. *)
Definition find_nearby_resources (table : list Resource.t)
    (resource_type : ResourceType.t) (location : string) (radius_km : R)
    (user_lat user_lon : option R) : list Resource.t :=
  let query := List.filter (base_query resource_type) table in
  if Py.truthy user_lat && Py.truthy user_lon then
    let resources := query in
    let nearby_resources :=
      within_radius radius_km user_lat user_lon resources in
    Py.sort nearer nearby_resources
  else
    let location_lower := Py.lower location in
    let resources :=
      List.filter (fun r =>
                Sql.ilike (Resource.location r) ("%" +:+ location +:+ "%")
                || Sql.ilike (Resource.location r)
                     ("%" +:+ location_lower +:+ "%"))
             query in
    Py.sort roomier resources.

(** The order of the distance search in words: nearer first, and among
    equally distant resources the one with more free capacity first. *)
Definition ranked_by_distance (r s : Resource.t) : Prop :=
  (distance_of r < distance_of s)%R
  \/ (distance_of r = distance_of s
      /\ Resource.available_capacity r >= Resource.available_capacity s).

(** The order of the text search in words: more free capacity first. *)
Definition ranked_by_capacity (r s : Resource.t) : Prop :=
  Resource.available_capacity r >= Resource.available_capacity s.

Section WithRuntime.
Context `{Runtime}.

(** The score that the loop of [_apply_matching_algorithm] gives to
    one resource. *)
Definition score_of (emergency_request : EmergencyRequest.t)
    (resource : Resource.t) : R :=
  let score := 0%R in
  let score :=
    match Resource.distance resource with
    | Some distance =>
        let distance_score := Rmax 0 (100 - distance * 2) in
        (score + distance_score)%R
    | None => (score + 50)%R
    end in
  let capacity_ratio :=
    (IZR (Resource.available_capacity resource)
     / IZR (Z.max (Resource.total_capacity resource) 1))%R in
  let capacity_score := (capacity_ratio * 50)%R in
  let score := (score + capacity_score)%R in
  let score :=
    if EmergencyRequest.priority_level emergency_request >=? 4 then
      if bool_decide (Resource.resource_type resource
                      = ResourceType.TRANSPORT)
      then (score + 30)%R
      else if bool_decide (Resource.resource_type resource
                           = ResourceType.SHELTER)
      then (score + 20)%R
      else score
    else score in
  let score :=
    if Py.feq (Resource.price_per_unit resource) 0
    then (score + 25)%R else score in
  (score + IZR (hash_str (Resource.name resource) mod 10))%R.

(** The score in the words of the specification: a proximity term, a
    capacity-headroom term, an urgency bonus, a free-service bonus and
    a tie-break taken from the resource. *)
Definition proximity_term (resource : Resource.t) : R :=
  match Resource.distance resource with
  | Some distance_km => Rmax 0 (100 - 2 * distance_km)
  | None => 50%R
  end.

Definition headroom_term (resource : Resource.t) : R :=
  (IZR (Resource.available_capacity resource)
   / IZR (Resource.total_capacity resource) * 50)%R.

Definition urgency_bonus (emergency_request : EmergencyRequest.t)
    (resource : Resource.t) : R :=
  if EmergencyRequest.priority_level emergency_request >=? 4 then
    match Resource.resource_type resource with
    | ResourceType.TRANSPORT => 30%R
    | ResourceType.SHELTER => 20%R
    | ResourceType.FOOD => 0%R
    end
  else 0%R.

Definition free_bonus (resource : Resource.t) : R :=
  if Req_dec_T (Resource.price_per_unit resource) 0 then 25%R else 0%R.

Definition tie_break (resource : Resource.t) : R :=
  IZR (hash_str (Resource.name resource) mod 10).

Definition score_by_spec (emergency_request : EmergencyRequest.t)
    (resource : Resource.t) : R :=
  (proximity_term resource + headroom_term resource
   + urgency_bonus emergency_request resource
   + free_bonus resource + tie_break resource)%R.

Definition _apply_matching_algorithm
    (emergency_request : EmergencyRequest.t)
    (resources : list Resource.t) : option Resource.t :=
  match resources with
  | [] => None
  | _ =>
      let scored_resources :=
        map (fun resource => (resource, score_of emergency_request resource))
            resources in
      let scored_resources :=
        Py.sort_reverse (fun x y => Py.flt (snd x) (snd y))
          scored_resources in
      fst <$> head scored_resources
  end.

(** [max_radius] is [current_app.config.get('MAX_LOCATION_RADIUS_KM', 50)].
    As before the [except] branch, which returns [None], is never
    taken. *)
Definition match_request_to_resource (max_radius : R)
    (table : list Resource.t) (emergency_request : EmergencyRequest.t)
  : option Resource.t :=
  let resources :=
    find_nearby_resources table
      (EmergencyRequest.resource_type emergency_request)
      (EmergencyRequest.location emergency_request)
      max_radius
      (EmergencyRequest.latitude emergency_request)
      (EmergencyRequest.longitude emergency_request) in
  match resources with
  | [] => None
  | _ => _apply_matching_algorithm emergency_request resources
  end.

(** The rows selected by the query of [auto_match_pending_requests]. *)
Definition is_backlog (five_minutes_ago : Z) (q : EmergencyRequest.t)
  : bool :=
  bool_decide (EmergencyRequest.status q = RequestStatus.PENDING)
  && (EmergencyRequest.created_at q <=? five_minutes_ago).

(** [ORDER BY priority_level DESC, created_at]: does [q] come strictly
    before [p]? *)
Definition precedes (q p : EmergencyRequest.t) : bool :=
  (EmergencyRequest.priority_level q >? EmergencyRequest.priority_level p)
  || ((EmergencyRequest.priority_level q
       =? EmergencyRequest.priority_level p)
      && (EmergencyRequest.created_at q <? EmergencyRequest.created_at p)).


Definition pending_requests (five_minutes_ago : Z)
    (table : list EmergencyRequest.t) : list EmergencyRequest.t :=
  Py.sort precedes (List.filter (is_backlog five_minutes_ago) table).

(** [x or 1] on the nullable integer column. *)
Definition or_1 (x : option Z) : Z :=
  match x with
  | Some v => if v =? 0 then 1 else v
  | None => 1
  end.

Record summary := {
  total_processed : Z;
  matched : Z;
  failed : Z;
  timestamp : Z
}.

(** The body of [for request in pending_requests], with the two
    counters it updates.  The flag that [update_capacity] returns is
    dropped, as in the source.  The request and the resource are
    the objects of the session, so what is written back is what was
    assigned.  Sending the notifications, whose failures the code
    ignores, changes nothing here. *)
Definition match_one (max_radius : R) (request : EmergencyRequest.t)
    (counts : Z * Z) : M (Z * Z) :=
  let '(matched_count, failed_count) := counts in
  w <- get ;;
  match match_request_to_resource max_radius (resources w) request with
  | Some resource =>
      now <- utcnow ;;
      let request :=
        EmergencyRequest.set_matched (Resource.id resource) now
          (Resource.price_per_unit resource) request in
      let '(_, resource) :=
        Resource.update_capacity resource
          (or_1 (EmergencyRequest.quantity_needed request)) in
      modify (fun w =>
                with_requests
                  (EmergencyRequest_flush request (requests w))
                  (with_resources
                     (Resource_flush resource (resources w)) w)) ;;
      ret (matched_count + 1, failed_count)
  | None => ret (matched_count, failed_count + 1)
  end.

Fixpoint match_all (max_radius : R) (pending : list EmergencyRequest.t)
    (counts : Z * Z) : M (Z * Z) :=
  match pending with
  | [] => ret counts
  | request :: rest =>
      counts <- match_one max_radius request counts ;;
      match_all max_radius rest counts
  end.

Definition auto_match_pending_requests (max_radius : R) : M summary :=
  now <- utcnow ;;
  let five_minutes_ago := now - Clock.minutes 5 in
  w <- get ;;
  let pending_requests := pending_requests five_minutes_ago (requests w) in
  let matched_count := 0 in
  let failed_count := 0 in
  counts <- match_all max_radius pending_requests
              (matched_count, failed_count) ;;
  stamp <- utcnow ;;
  ret {| total_processed := Z.of_nat (length pending_requests);
         matched := fst counts;
         failed := snd counts;
         timestamp := stamp |}.

End WithRuntime.

(** One entry of the dictionary that [get_resource_utilization_stats]
    returns. *)
Record utilization := {
  total_resources : Z;
  total_capacity : Z;
  available_capacity : Z;
  utilized_capacity : Z;
  utilization_rate : R
}.

(** The body of [for resource_type in ResourceType] for one type. *)
Definition utilization_of (table : list Resource.t)
    (resource_type : ResourceType.t) : utilization :=
  let resources :=
    List.filter (fun r =>
                   bool_decide (Resource.resource_type r = resource_type)
                   && Resource.is_active r) table in
  match resources with
  | _ :: _ =>
      let total_capacity :=
        fold_left Z.add (Resource.total_capacity <$> resources) 0 in
      let available_capacity :=
        fold_left Z.add (Resource.available_capacity <$> resources) 0 in
      let utilized_capacity := total_capacity - available_capacity in
      let utilization_rate :=
        if total_capacity >? 0
        then (IZR utilized_capacity / IZR total_capacity * 100)%R
        else 0%R in
      {| total_resources := Z.of_nat (length resources);
         total_capacity := total_capacity;
         available_capacity := available_capacity;
         utilized_capacity := utilized_capacity;
         utilization_rate := Py.round2 utilization_rate |}
  | [] =>
      {| total_resources := 0; total_capacity := 0;
         available_capacity := 0; utilized_capacity := 0;
         utilization_rate := 0 |}
  end.

(** [get_resource_utilization_stats()] on the resources table: the
    dictionary keyed by the value of each resource type.  Nothing in
    the body raises, so the [except] branch is never taken. *)
Definition get_resource_utilization_stats (table : list Resource.t)
  : gmap string utilization :=
  fold_left
    (fun stats resource_type =>
       <[ResourceType.value resource_type :=
           utilization_of table resource_type]> stats)
    [ResourceType.SHELTER; ResourceType.FOOD; ResourceType.TRANSPORT] ∅.

End MatchingService.

(* ===================================================================== *)
(** * Security services ([app/security.py], [User.is_rate_limited]) *)
(* ===================================================================== *)

Section UserMethods.

Context `{Runtime}.

(** [User.is_rate_limited(self, action_type, limit_per_hour)] *)
Definition is_rate_limited (self : User.t) (action_type : string)
    (limit_per_hour : Z) : M bool :=
  now <- utcnow ;;
  let one_hour_ago := now - Clock.hours 1 in
  w <- get ;;
  let recent_actions :=
    Z.of_nat
      (length
         (List.filter (fun l =>
                    bool_decide (AuditLog.user_id l = Some (User.id self))
                    && String.eqb (AuditLog.action l) action_type
                    && (AuditLog.timestamp l >? one_hour_ago))
                 (audit_logs w))) in
  ret (recent_actions >=? limit_per_hour).

End UserMethods.

Module SecurityService.

(** The national number [[789][01]\d{8}] and the three patterns of
    [validate_phone_number], in the order of the source. *)
Definition national : list (ascii -> bool) :=
  [Re.one_of "789"; Re.one_of "01"] ++ repeat Py.is_digit 8.

Definition patterns : list (list (ascii -> bool)) :=
  [ Re.literal "234" ++ national;
    Re.literal "0" ++ national;
    national ].

(** [validate_phone_number(phone_number)] *)
Definition validate_phone_number (phone_number : string) : bool :=
  if String.eqb phone_number "" then false
  else
    let clean_phone :=
      Py.str (List.filter Py.is_digit (Py.chars phone_number)) in
    existsb (fun pattern => Re.match_classes pattern (Py.chars clean_phone))
      patterns.

(** [normalize_phone_number(phone_number)] *)
Definition normalize_phone_number (phone_number : string) : option string :=
  if String.eqb phone_number "" then None
  else
    let clean_phone := Py.str (List.filter Py.is_digit (Py.chars phone_number)) in
    if String.prefix "234" clean_phone then Some ("+" +:+ clean_phone)
    else if String.prefix "0" clean_phone
    then Some ("+234" +:+ String.substring 1 (String.length clean_phone - 1)
                            clean_phone)
    else if Py.len clean_phone =? 10 then Some ("+234" +:+ clean_phone)
    else Some phone_number.

(** The class [[a-zA-Z0-9_-]]. *)
Definition session_id_char (c : ascii) : bool :=
  Py.is_lower c || Py.is_upper c || Py.is_digit c
  || Ascii.eqb c "_"%char || Ascii.eqb c "-"%char.

(** [validate_ussd_request(data)] on the fields of the request, all of
    them strings: the flag and the message.  [data[key]] is read only
    after [key] has been found in [data]. *)
Definition validate_ussd_request (data : gmap string string)
  : bool * string :=
  let required_fields := ["sessionId"; "phoneNumber"; "text"] in
  match find (fun field => bool_decide (data !! field = None))
             required_fields with
  | Some field => (false, "Missing required field: " +:+ field)
  | None =>
      if negb (validate_phone_number (default "" (data !! "phoneNumber")))
      then (false, "Invalid phone number format")
      else if negb (Re.match_plus session_id_char false
                      (Py.chars (default "" (data !! "sessionId"))))
      then (false, "Invalid session ID format")
      else (true, "Valid request")
  end.

Section WithRuntime.
Context `{Runtime}.

(** [detect_suspicious_activity(user_id, action_type, details)] *)
Definition detect_suspicious_activity (user_id : Z) (action_type : string)
    (details : option (gmap string string)) : M bool :=
  if user_id =? 0 then ret false
  else
    now <- utcnow ;;
    let five_minutes_ago := now - Clock.minutes 5 in
    w <- get ;;
    let recent_actions :=
      Z.of_nat
        (length
           (List.filter (fun l =>
                      bool_decide (AuditLog.user_id l = Some user_id)
                      && String.eqb (AuditLog.action l) action_type
                      && (AuditLog.timestamp l >? five_minutes_ago))
                   (audit_logs w))) in
    if recent_actions >? 5 then ret true
    else
      match details with
      | Some d =>
          if bool_decide (d ≠ ∅) && bool_decide (is_Some (d !! "location"))
          then
            now <- utcnow ;;
            let one_hour_ago := now - Clock.hours 1 in
            let recent_locations :=
              List.filter (fun l =>
                        bool_decide (AuditLog.user_id l = Some user_id)
                        && (AuditLog.timestamp l >? one_hour_ago)
                        && bool_decide (is_Some (AuditLog.details l)))
                     (audit_logs w) in
            let unique_locations : gset string :=
              list_to_set
                (omap (fun l => AuditLog.details l ≫= (.!! "location"))
                      recent_locations) in
            if Z.of_nat (size unique_locations) >? 3 then ret true
            else ret false
          else ret false
      | None => ret false
      end.

End WithRuntime.

End SecurityService.

Module FraudDetection.

(** The guard in words: some request of the table that is not
    cancelled has the same caller, resource type and location text and
    was created after [time_threshold]. *)
Definition has_duplicate (table : list EmergencyRequest.t) (user_id : Z)
    (resource_type : ResourceType.t) (location : string)
    (time_threshold : Z) : Prop :=
  exists q,
    In q table
    /\ EmergencyRequest.user_id q = user_id
    /\ EmergencyRequest.resource_type q = resource_type
    /\ EmergencyRequest.location q = location
    /\ EmergencyRequest.created_at q > time_threshold
    /\ EmergencyRequest.status q <> RequestStatus.CANCELLED.

Section WithRuntime.
Context `{Runtime}.

(** [check_duplicate_requests(user_id, resource_type, location,
    time_window_minutes=30)] *)
Definition check_duplicate_requests (user_id : Z)
    (resource_type : ResourceType.t) (location : string)
    (time_window_minutes : Z) : M bool :=
  now <- utcnow ;;
  let time_threshold := now - Clock.minutes time_window_minutes in
  w <- get ;;
  let duplicate :=
    find (fun q =>
            (EmergencyRequest.user_id q =? user_id)
            && bool_decide (EmergencyRequest.resource_type q = resource_type)
            && String.eqb (EmergencyRequest.location q) location
            && (EmergencyRequest.created_at q >? time_threshold)
            && negb (bool_decide (EmergencyRequest.status q
                                  = RequestStatus.CANCELLED)))
         (requests w) in
  ret (bool_decide (is_Some duplicate)).

End WithRuntime.

(** [check_provider_capacity_fraud(resource_id, requested_quantity)] on
    the resources table. *)
Definition check_provider_capacity_fraud (table : list Resource.t)
    (resource_id requested_quantity : Z) : bool :=
  match Resource_get resource_id table with
  | None => true
  | Some resource =>
      if requested_quantity >? Resource.available_capacity resource
      then true
      else false
  end.






End FraudDetection.

Section Maintenance.

Context `{Runtime}.

(** [security.cleanup_expired_sessions()]: a row of the sessions table
    is addressed by its key. *)
Definition cleanup_expired_sessions : M Z :=
  now <- utcnow ;;
  w <- get ;;
  let expired_sessions :=
    List.filter (fun row => USSDSession.expires_at (snd row) <? now)
      (map_to_list (sessions w)) in
  modify (fun w =>
            with_sessions
              (fold_left (fun table row => delete (fst row) table)
                 expired_sessions (sessions w)) w) ;;
  ret (Z.of_nat (length expired_sessions)).

(** [security.cleanup_old_audit_logs(retention_days=90)]: the loop
    deletes the rows that the query selected and leaves the others in
    place. *)
Definition cleanup_old_audit_logs (retention_days : Z) : M Z :=
  now <- utcnow ;;
  let cutoff_date := now - Clock.days retention_days in
  w <- get ;;
  let old_logs :=
    List.filter (fun l => AuditLog.timestamp l <? cutoff_date)
      (audit_logs w) in
  modify (fun w =>
            with_audit_logs
              (List.filter
                 (fun l => negb (AuditLog.timestamp l <? cutoff_date))
                 (audit_logs w)) w) ;;
  ret (Z.of_nat (length old_logs)).

(** [security.audit_log(action, details=details)(f)]: the decorated
    function.  [current_user_id] is what
    [getattr(g, 'current_user_id', None)] gives; the row takes its
    timestamp from the column default when it is inserted, and a
    failure to write it is logged and otherwise ignored. *)
Definition audit_log {A : Type} (current_user_id : option Z)
    (action : string) (details : option (gmap string string)) (f : M A)
  : M A :=
  result <- f ;;
  try_except
    (timestamp <- utcnow ;;
     let log_entry :=
       {| AuditLog.user_id := current_user_id;
          AuditLog.action := action;
          AuditLog.timestamp := timestamp;
          AuditLog.details :=
            match details with
            | Some d => if bool_decide (d = ∅) then None else Some d
            | None => None
            end |} in
     modify (fun w => with_audit_logs (audit_logs w ++ [log_entry]) w))
    (ret tt) ;;
  ret result.

End Maintenance.

(* ===================================================================== *)
(** * USSD menu handler ([app/ussd/routes.py]) *)
(* ===================================================================== *)

Module USSDMenuHandler.

(** The handler object.  [session] tells whether [self.session] has
    been assigned; the row itself lives in the sessions table under
    [session_id]. *)
Record t := {
  session_id : string;
  phone_number : option string;
  text : string;
  user : option User.t;
  session : bool
}.

Definition set_user (u : User.t) (self : t) : t :=
  {| session_id := session_id self; phone_number := phone_number self;
     text := text self; user := Some u; session := session self |}.
Definition set_session (self : t) : t :=
  {| session_id := session_id self; phone_number := phone_number self;
     text := text self; user := user self; session := true |}.

Definition crlf : string := String (ascii_of_N 13) (String (ascii_of_N 10) "").
(** The naira sign and the cross mark, in UTF-8. *)
Definition naira : string :=
  Py.str [ascii_of_N 226; ascii_of_N 130; ascii_of_N 166].
Definition cross_mark : string :=
  Py.str [ascii_of_N 226; ascii_of_N 157; ascii_of_N 140].

(** What deleting [self.session], when it is assigned, does to the
    world. *)
Definition ended (self : t) (w : world) : world :=
  if session self
  then with_sessions (delete (session_id self) (sessions w)) w
  else w.

Section WithRuntime.
Context `{Runtime}.

(** [USSDMenuHandler(session_id, phone_number, text)] *)
Definition init (session_id phone_number text : string) : t :=
  {| session_id := session_id;
     phone_number := SecurityService.normalize_phone_number phone_number;
     text := text; user := None; session := false |}.

(** [self.user.id] *)
Definition user_id (self : t) : M Z :=
  match user self with
  | Some u => ret (User.id u)
  | None => raise TypeError
  end.

(** An assignment to an attribute of [self.session]. *)
Definition update_session (self : t) (f : USSDSession.t -> USSDSession.t)
  : M unit :=
  modify (fun w =>
            match sessions w !! session_id self with
            | Some s =>
                with_sessions (<[session_id self := f s]> (sessions w)) w
            | None => w
            end).

Definition _continue_session (self : t) (message : string) : M string :=
  ret ("CON " +:+ message).

Definition _end_session (self : t) (message : string) : M string :=
  (if session self
   then modify (fun w => with_sessions
                           (delete (session_id self) (sessions w)) w)
   else ret tt) ;;
  ret ("END " +:+ message).

Definition _get_or_create_user (self : t) : M User.t :=
  phone <- match phone_number self with
           | Some p => ret p
           | None => raise TypeError
           end ;;
  let phone_hash := hash_phone_number phone in
  w <- get ;;
  match find (fun u => String.eqb (User.phone_hash u) phone_hash)
             (users w) with
  | Some user => ret user
  | None =>
      let user := {| User.id := next_id (User.id <$> users w);
                     User.phone_hash := phone_hash |} in
      modify (fun w => with_users (users w ++ [user]) w) ;;
      ret user
  end.

Definition _get_or_create_session (self : t) (user : User.t) : M unit :=
  w <- get ;;
  let session := sessions w !! session_id self in
  expired <- match session with
             | None => ret true
             | Some s => now <- utcnow ;; ret (USSDSession.is_expired now s)
             end ;;
  if expired then
    (match session with
     | Some _ => modify (fun w => with_sessions
                                    (delete (session_id self) (sessions w))
                                    w)
     | None => ret tt
     end) ;;
    t_init <- utcnow ;;
    t_created <- utcnow ;;
    t_activity <- utcnow ;;
    let session :=
      USSDSession.new (session_id self) (User.id user)
        t_init t_created t_activity in
    modify (fun w => with_sessions
                       (<[session_id self := session]> (sessions w)) w)
  else
    t1 <- utcnow ;;
    t2 <- utcnow ;;
    update_session self (USSDSession.extend_session t1 t2).

Definition _show_main_menu (self : t) : M string :=
  update_session self (USSDSession.set_current_step "main_menu") ;;
  let menu :=
    "Emergency Response System" +:+ crlf +:+
    "Select service needed:" +:+ crlf +:+
    "1. Shelter" +:+ crlf +:+
    "2. Food" +:+ crlf +:+
    "3. Transport" +:+ crlf +:+
    "0. Exit" in
  _continue_session self menu.

Definition _handle_main_menu_selection (self : t) (selection : string)
  : M string :=
  let resource_types : gmap string ResourceType.t :=
    <["1" := ResourceType.SHELTER]>
      (<["2" := ResourceType.FOOD]>
         (<["3" := ResourceType.TRANSPORT]> ∅)) in
  if String.eqb selection "0" then
    _end_session self "Thank you for using Emergency Response System."
  else
    match resource_types !! selection with
    | None =>
        _continue_session self
          ("Invalid selection. Please choose:" +:+ crlf +:+
           "1. Shelter" +:+ crlf +:+ "2. Food" +:+ crlf +:+
           "3. Transport" +:+ crlf +:+ "0. Exit")
    | Some resource_type =>
        let session_data :=
          {| SessionData.resource_type :=
               Some (ResourceType.value resource_type);
             SessionData.location := None;
             SessionData.resources := None;
             SessionData.selected_resource_id := None |} in
        update_session self (USSDSession.set_session_data session_data) ;;
        update_session self (USSDSession.set_current_step "location_input") ;;
        _continue_session self
          ("You selected: "
           +:+ Py.title (ResourceType.value resource_type) +:+ crlf +:+
           "Please enter your location (e.g., Lokoja, Ganaja):")
    end.

(** The lines that [for i, resource in enumerate(resources[:5], 1)]
    appends to the menu. *)
Fixpoint menu_lines (i : Z) (resources : list Resource.t) : string :=
  match resources with
  | [] => ""
  | resource :: rest =>
      let status :=
        if Resource.available_capacity resource >? 0
        then "Available" else cross_mark +:+ " Full" in
      let price :=
        if Py.flt 0 (Resource.price_per_unit resource)
        then " (" +:+ naira
             +:+ format_float (Resource.price_per_unit resource) +:+ ")"
        else " (Free)" in
      Py.str_int i +:+ ". " +:+ Resource.name resource +:+ " - "
      +:+ status +:+ price +:+ crlf +:+ menu_lines (i + 1) rest
  end.

Definition _handle_location_input (self : t) (location : string)
    (session_data : SessionData.t) : M string :=
  if String.eqb location "" || (Py.len (Py.strip location) <? 2) then
    _continue_session self "Please enter a valid location:"
  else
    let session_data :=
      {| SessionData.resource_type := SessionData.resource_type session_data;
         SessionData.location := Some (Py.strip location);
         SessionData.resources := SessionData.resources session_data;
         SessionData.selected_resource_id :=
           SessionData.selected_resource_id session_data |} in
    update_session self (USSDSession.set_session_data session_data) ;;
    value <- item (SessionData.resource_type session_data) ;;
    resource_type <- match ResourceType.of_value value with
                     | Some ty => ret ty
                     | None => raise ValueError
                     end ;;
    w <- get ;;
    let resources :=
      MatchingService.find_nearby_resources (resources w)
        resource_type location 50 None None in
    match resources with
    | [] =>
        _end_session self
          ("Sorry, no " +:+ ResourceType.value resource_type
           +:+ " available near " +:+ location +:+ ". "
           +:+ "Please try again later or contact emergency services.")
    | _ =>
        let menu :=
          "Available " +:+ ResourceType.value resource_type
          +:+ " near " +:+ location +:+ ":" +:+ crlf in
        let menu := menu +:+ menu_lines 1 (take 5 resources) in
        let menu := menu +:+ "0. Back to main menu" in
        let session_data :=
          {| SessionData.resource_type :=
               SessionData.resource_type session_data;
             SessionData.location := SessionData.location session_data;
             SessionData.resources :=
               Some (Resource.id <$> take 5 resources);
             SessionData.selected_resource_id :=
               SessionData.selected_resource_id session_data |} in
        update_session self (USSDSession.set_session_data session_data) ;;
        update_session self
          (USSDSession.set_current_step "resource_selection") ;;
        _continue_session self menu
    end.

Definition _handle_resource_selection (self : t) (selection : string)
    (session_data : SessionData.t) : M string :=
  if String.eqb selection "0" then _show_main_menu self
  else
    let invalid :=
      _continue_session self
        "Invalid selection. Please choose a number from the list:" in
    match Py.int selection with
    | None => invalid
    | Some n =>
        let selection_idx := n - 1 in
        let listed := default [] (SessionData.resources session_data) in
        if (selection_idx <? 0)
           || (selection_idx >=? Z.of_nat (length listed))
        then invalid
        else
          match listed !! Z.to_nat selection_idx with
          | None => invalid
          | Some resource_id =>
              w <- get ;;
              match Resource_get resource_id (resources w) with
              | Some resource =>
                  if Resource.available_capacity resource <=? 0 then
                    _continue_session self
                      ("Selected resource is no longer available. "
                       +:+ "Please choose another:" +:+ crlf
                       +:+ "Or press 0 to go back to main menu.")
                  else
                    let session_data :=
                      {| SessionData.resource_type :=
                           SessionData.resource_type session_data;
                         SessionData.location :=
                           SessionData.location session_data;
                         SessionData.resources :=
                           SessionData.resources session_data;
                         SessionData.selected_resource_id :=
                           Some resource_id |} in
                    update_session self
                      (USSDSession.set_session_data session_data) ;;
                    update_session self
                      (USSDSession.set_current_step "confirmation") ;;
                    let cost_info :=
                      if Py.flt 0 (Resource.price_per_unit resource)
                      then "Cost: " +:+ naira
                           +:+ format_float
                                 (Resource.price_per_unit resource)
                      else "Cost: Free" in
                    service <- item (SessionData.resource_type
                                       session_data) ;;
                    let confirmation_msg :=
                      "Confirm your request:" +:+ crlf
                      +:+ "Service: " +:+ Py.title service +:+ crlf
                      +:+ "Provider: " +:+ Resource.name resource +:+ crlf
                      +:+ "Location: " +:+ Resource.location resource
                      +:+ crlf
                      +:+ cost_info +:+ crlf +:+ crlf
                      +:+ "1. Confirm" +:+ crlf
                      +:+ "2. Cancel" in
                    _continue_session self confirmation_msg
              | None =>
                  _continue_session self
                    ("Selected resource is no longer available. "
                     +:+ "Please choose another:" +:+ crlf
                     +:+ "Or press 0 to go back to main menu.")
              end
          end
    end.

(** [try: m except Exception: db.session.rollback(); h], entered with
    nothing uncommitted. *)
Definition try_rollback {A} (m : M A) (h : M A) : M A :=
  fun committed =>
    match m committed with
    | (Ok a, w') => (Ok a, w')
    | (Raise _, w') => (rollback committed ;; h) w'
    end.

(** The row that [_handle_confirmation] commits: the object built by
    [EmergencyRequest(user_id=.., resource_type=.., location=..,
    resource_id=.., total_cost=..)], with the status and the match
    time assigned afterwards; [id], [created_at], [quantity_needed]
    and [priority_level] take their column defaults at the insert. *)
Definition matched_request (id : Z) (reference_number : string)
    (user_id : Z) (resource_type : ResourceType.t) (location : string)
    (resource_id : Z) (total_cost : R) (t_matched t_created : Z)
  : EmergencyRequest.t :=
  {| EmergencyRequest.id := id;
     EmergencyRequest.reference_number := reference_number;
     EmergencyRequest.user_id := user_id;
     EmergencyRequest.resource_id := Some resource_id;
     EmergencyRequest.resource_type := resource_type;
     EmergencyRequest.location := location;
     EmergencyRequest.latitude := None;
     EmergencyRequest.longitude := None;
     EmergencyRequest.quantity_needed := Some 1;
     EmergencyRequest.status := RequestStatus.MATCHED;
     EmergencyRequest.created_at := t_created;
     EmergencyRequest.matched_at := Some t_matched;
     EmergencyRequest.priority_level := 1;
     EmergencyRequest.total_cost := total_cost |}.

Definition _handle_confirmation (self : t) (selection : string)
    (session_data : SessionData.t) : M string :=
  if String.eqb selection "2" then
    _end_session self "Request cancelled. Stay safe!"
  else if negb (String.eqb selection "1") then
    _continue_session self
      ("Please choose:" +:+ crlf +:+ "1. Confirm" +:+ crlf +:+ "2. Cancel")
  else
    try_rollback
      (resource_id <- item (SessionData.selected_resource_id session_data) ;;
       w <- get ;;
       match Resource_get resource_id (resources w) with
       | None =>
           _end_session self
             "Resource no longer available. Please try again."
       | Some resource =>
           if Resource.available_capacity resource <=? 0 then
             _end_session self
               "Resource no longer available. Please try again."
           else
             uid <- user_id self ;;
             value <- item (SessionData.resource_type session_data) ;;
             resource_type <- match ResourceType.of_value value with
                              | Some ty => ret ty
                              | None => raise ValueError
                              end ;;
             location <- item (SessionData.location session_data) ;;
             duplicate <- FraudDetection.check_duplicate_requests uid resource_type
                            location 30 ;;
             if duplicate then
               _end_session self
                 ("You have a similar pending request. "
                  +:+ "Please wait for it to be processed.")
             else
               (* emergency_request = EmergencyRequest(...) *)
               t_ref <- utcnow ;;
               b0 <- random_byte ;;
               b1 <- random_byte ;;
               b2 <- random_byte ;;
               let reference_number :=
                 EmergencyRequest.generate_reference_number
                   t_ref b0 b1 b2 in
               let total_cost := Resource.price_per_unit resource in
               (* resource.update_capacity(1) *)
               let '(_, resource) := Resource.update_capacity resource 1 in
               (* emergency_request.matched_at = datetime.utcnow() *)
               t_matched <- utcnow ;;
               (* db.session.commit() *)
               t_created <- utcnow ;;
               w <- get ;;
               let emergency_request :=
                 matched_request
                   (next_id (EmergencyRequest.id <$> requests w))
                   reference_number uid resource_type location
                   resource_id total_cost t_matched t_created in
               modify (fun w =>
                         with_requests
                           (requests w ++ [emergency_request])
                           (with_resources
                              (Resource_flush resource (resources w)) w)) ;;
               _end_session self
                 ("Request confirmed!" +:+ crlf
                  +:+ "Reference: "
                  +:+ EmergencyRequest.reference_number emergency_request
                  +:+ crlf
                  +:+ "Provider: " +:+ Resource.name resource +:+ crlf
                  +:+ "Contact: "
                  +:+ default "None" (Resource.contact_phone resource)
                  +:+ crlf
                  +:+ "You will receive SMS confirmation shortly.")
       end)
      (_end_session self "Failed to process request. Please try again.").

Definition _handle_user_input (self : t) : M string :=
  let current_input := Py.last_field (text self) in
  w <- get ;;
  match sessions w !! session_id self with
  | None => raise TypeError
  | Some session =>
      let session_data := USSDSession.get_session_data session in
      let step := USSDSession.current_step session in
      if String.eqb step "main_menu" then
        _handle_main_menu_selection self current_input
      else if String.eqb step "location_input" then
        _handle_location_input self current_input session_data
      else if String.eqb step "resource_selection" then
        _handle_resource_selection self current_input session_data
      else if String.eqb step "confirmation" then
        _handle_confirmation self current_input session_data
      else _show_main_menu self
  end.

(** The single [try] of the source is written as two nested ones: an
    exception raised before [self.session] is assigned ends the call
    without touching the sessions table, one raised afterwards
    deletes the session row. *)
Definition process_request (self : t) : M string :=
  let unavailable :=
    "Service temporarily unavailable. Please try again." in
  try_except
    (user <- _get_or_create_user self ;;
     let self := set_user user self in
     limited <- is_rate_limited user "ussd" 3 ;;
     if limited then
       _end_session self "Too many requests. Please try again later."
     else
       _get_or_create_session self user ;;
       let self := set_session self in
       try_except
         (suspicious <-
            SecurityService.detect_suspicious_activity (User.id user) "ussd_request"
              (Some {["location" := text self]}) ;;
          if suspicious then
            _end_session self "Request blocked for security reasons."
          else if String.eqb (text self) "" then _show_main_menu self
          else _handle_user_input self)
         (_end_session self unavailable))
    (_end_session self unavailable).

End WithRuntime.

End USSDMenuHandler.

Section Routes.

Context `{Runtime}.


End Routes.

(* ===================================================================== *)
(** * Sample data for the examples *)
(* ===================================================================== *)

(** A shelter with five free places out of five, used in the examples. *)
Definition full_house : Resource.t :=
  {| Resource.id := 1; Resource.name := "Lokoja Camp";
     Resource.resource_type := ResourceType.SHELTER;
     Resource.location := "Lokoja"; Resource.latitude := None;
     Resource.longitude := None; Resource.total_capacity := 5;
     Resource.available_capacity := 5; Resource.contact_phone := None;
     Resource.price_per_unit := 0%R; Resource.is_active := true;
     Resource.distance := None |}.


(** A second shelter, equal to the first in everything the score reads
    except its name. *)
Definition second_house : Resource.t :=
  {| Resource.id := 2; Resource.name := "Ganaja Camp";
     Resource.resource_type := ResourceType.SHELTER;
     Resource.location := "Lokoja"; Resource.latitude := None;
     Resource.longitude := None; Resource.total_capacity := 5;
     Resource.available_capacity := 5; Resource.contact_phone := None;
     Resource.price_per_unit := 0%R; Resource.is_active := true;
     Resource.distance := None |}.

(** A shelter with coordinates, twenty free places out of forty. *)
Definition hill_camp : Resource.t :=
  {| Resource.id := 3; Resource.name := "Hill Camp";
     Resource.resource_type := ResourceType.SHELTER;
     Resource.location := "Lokoja"; Resource.latitude := Some 7%R;
     Resource.longitude := Some 6%R; Resource.total_capacity := 40;
     Resource.available_capacity := 20; Resource.contact_phone := None;
     Resource.price_per_unit := 0%R; Resource.is_active := true;
     Resource.distance := None |}.

(** A pending request for shelter in Lokoja asking for [q] places,
    created at time zero. *)
Definition shelter_request (q : option Z) : EmergencyRequest.t :=
  {| EmergencyRequest.id := 1;
     EmergencyRequest.reference_number := "ER250101ABCDEF";
     EmergencyRequest.user_id := 1;
     EmergencyRequest.resource_id := None;
     EmergencyRequest.resource_type := ResourceType.SHELTER;
     EmergencyRequest.location := "Lokoja";
     EmergencyRequest.latitude := None;
     EmergencyRequest.longitude := None;
     EmergencyRequest.quantity_needed := q;
     EmergencyRequest.status := RequestStatus.PENDING;
     EmergencyRequest.created_at := 0;
     EmergencyRequest.matched_at := None;
     EmergencyRequest.priority_level := 1;
     EmergencyRequest.total_cost := 0%R |}.

(** Two interpreter processes that differ only in the salt of [hash]:
    the first gives every string the hash 0 except "Ganaja Camp", the
    second every string the hash 0 except "Lokoja Camp".  The clock
    advances one second per reading, starting one hour after the epoch. *)
Definition first_process : Runtime :=
  {| utcnow_at := fun n => 3600000000 + 1000000 * Z.of_nat n;
     urandom_at := fun _ => Byte.xa7;
     hash_str := fun s => if String.eqb s "Ganaja Camp" then 7 else 0;
     sha256_hex := fun s => s;
     format_float := fun _ => "0.0" |}.


(** A shelter with two free places left out of five. *)
Definition last_places : Resource.t :=
  {| Resource.id := 1; Resource.name := "Lokoja Camp";
     Resource.resource_type := ResourceType.SHELTER;
     Resource.location := "Lokoja"; Resource.latitude := None;
     Resource.longitude := None; Resource.total_capacity := 5;
     Resource.available_capacity := 2; Resource.contact_phone := None;
     Resource.price_per_unit := 0%R; Resource.is_active := true;
     Resource.distance := None |}.

(** The caller of the examples, as [_get_or_create_user] stores her when
    [sha256_hex] is the identity. *)
Definition caller : User.t :=
  {| User.id := 1;
     User.phone_hash := "+2348012345678emergency_response_salt" |}.

(** A database with one caller, the given resources and requests, no
    session and no audit log; nothing has been read from the clock or
    from the random source yet. *)
Definition database (rs : list Resource.t) (qs : list EmergencyRequest.t)
  : world :=
  {| users := [caller];
     sessions := ∅;
     resources := rs;
     requests := qs;
     audit_logs := [];
     clock_reads := 0;
     random_reads := 0 |}.

(** A request for shelter in Lokoja by caller 1, matched fifty minutes
    after the epoch. *)
Definition recent_request : EmergencyRequest.t :=
  {| EmergencyRequest.id := 1;
     EmergencyRequest.reference_number := "ER700101A7A7A7";
     EmergencyRequest.user_id := 1;
     EmergencyRequest.resource_id := Some 1;
     EmergencyRequest.resource_type := ResourceType.SHELTER;
     EmergencyRequest.location := "Lokoja";
     EmergencyRequest.latitude := None;
     EmergencyRequest.longitude := None;
     EmergencyRequest.quantity_needed := Some 1;
     EmergencyRequest.status := RequestStatus.MATCHED;
     EmergencyRequest.created_at := 3000000000;
     EmergencyRequest.matched_at := Some 3000000000;
     EmergencyRequest.priority_level := 1;
     EmergencyRequest.total_cost := 0%R |}.

(** The handler of caller 1 at the confirmation step, and the session
    data gathered by the earlier steps. *)
Definition confirming : USSDMenuHandler.t :=
  {| USSDMenuHandler.session_id := "ATUid_1";
     USSDMenuHandler.phone_number := Some "+2348012345678";
     USSDMenuHandler.text := "1*Lokoja*1*1";
     USSDMenuHandler.user := Some caller;
     USSDMenuHandler.session := true |}.

Definition gathered : SessionData.t :=
  {| SessionData.resource_type := Some "shelter";
     SessionData.location := Some "Lokoja";
     SessionData.resources := Some [1];
     SessionData.selected_resource_id := Some 1 |}.

(** The handler as [USSDMenuHandler(session_id, phone_number, text)]
    leaves it, for a caller who has typed [1*Lokoja]. *)
Definition incoming : USSDMenuHandler.t :=
  {| USSDMenuHandler.session_id := "ATUid_1";
     USSDMenuHandler.phone_number := Some "+2348012345678";
     USSDMenuHandler.text := "1*Lokoja";
     USSDMenuHandler.user := None;
     USSDMenuHandler.session := false |}.

(** A session of caller 1 that waits for a location and expired twenty
    minutes after the epoch. *)
Definition stale_session : USSDSession.t :=
  {| USSDSession.session_id := "ATUid_1";
     USSDSession.user_id := 1;
     USSDSession.current_step := "location_input";
     USSDSession.session_data :=
       {| SessionData.resource_type := Some "shelter";
          SessionData.location := None;
          SessionData.resources := None;
          SessionData.selected_resource_id := None |};
     USSDSession.created_at := 600000000;
     USSDSession.last_activity := 600000000;
     USSDSession.expires_at := 1200000000 |}.

(** The sample database with that session in its sessions table. *)
Definition database_with_stale_session : world :=
  with_sessions {["ATUid_1" := stale_session]} (database [full_house] []).

(** One call of the gateway for the session [ATUid_1] of the caller, in
    the first process, and the worlds that the first four calls of a
    session leave one after the other. *)
Definition session_call (text : string) (w : world) : outcome string * world :=
  @USSDMenuHandler.process_request first_process
    (USSDMenuHandler.init "ATUid_1" "+2348012345678" text) w.

Definition after_first_call : world :=
  snd (session_call "" (database [full_house] [])).
Definition after_second_call : world :=
  snd (session_call "1" after_first_call).
Definition after_third_call : world :=
  snd (session_call "1*Lokoja" after_second_call).
Definition after_fourth_call : world :=
  snd (session_call "1*Lokoja*1" after_third_call).

(* ===================================================================== *)
(** * Predicates used in the statements *)
(* ===================================================================== *)

(** A reply of the USSD protocol: [CON] or [END], a blank and a message. *)
Definition is_reply (response : string) : Prop :=
  exists message,
    response = "CON " +:+ message \/ response = "END " +:+ message.

(** A resource whose free capacity is within its bounds. *)
Definition within_capacity (r : Resource.t) : Prop :=
  0 <= Resource.available_capacity r <= Resource.total_capacity r.

(** What a handler may end with: a reply, or an exception that its
    caller catches. *)
Definition replies_or_raises (o : outcome string) : Prop :=
  match o with
  | Ok response => is_reply response
  | Raise _ => True
  end.





(** What one turn of the loop of [auto_match_pending_requests] on the
    request [req] keeps when it takes the world [w] to [w1]: the keys of
    the resources and requests tables, free capacities that are not
    negative, the other tables, and every request other than [req]. *)
Definition turn_keeps (req : EmergencyRequest.t) (w w1 : world) : Prop :=
  map Resource.id (resources w1) = map Resource.id (resources w)
  /\ map EmergencyRequest.id (requests w1)
     = map EmergencyRequest.id (requests w)
  /\ (Forall (fun r => 0 <= Resource.available_capacity r) (resources w) ->
      Forall (fun r => 0 <= Resource.available_capacity r) (resources w1))
  /\ users w1 = users w /\ sessions w1 = sessions w
  /\ audit_logs w1 = audit_logs w
  /\ forall p, In p (requests w) ->
               EmergencyRequest.id p <> EmergencyRequest.id req ->
               In p (requests w1).

(** The free capacity of all resources together. *)
Definition free_capacity (table : list Resource.t) : Z :=
  fold_right Z.add 0 (Resource.available_capacity <$> table).

(** The world [w'] is [w] after one booking: one unit of a resource that
    had free capacity is taken, and one matched request for that
    resource is added. *)
Definition books_one (w w' : world) : Prop :=
  exists rid r q,
    Resource_get rid (resources w) = Some r
    /\ 0 < Resource.available_capacity r
    /\ resources w'
       = Resource_flush
           (Resource.set_available_capacity
              (Resource.available_capacity r - 1) r)
           (resources w)
    /\ requests w' = requests w ++ [q]
    /\ EmergencyRequest.resource_id q = Some rid
    /\ EmergencyRequest.status q = RequestStatus.MATCHED.
(* ===================================================================== *)
(** * Properties *)
(* ===================================================================== *)

(** ** Comparisons on floats *)

Lemma fle_spec (a b : R) : Py.fle a b = true <-> (a <= b)%R.
Proof. unfold Py.fle. destruct (Rle_dec a b); split; (congruence || tauto). Qed.

Lemma flt_spec (a b : R) : Py.flt a b = true <-> (a < b)%R.
Proof. unfold Py.flt. destruct (Rlt_dec a b); split; (congruence || tauto). Qed.

Lemma feq_spec (a b : R) : Py.feq a b = true <-> a = b.
Proof. unfold Py.feq. destruct (Req_dec_T a b); split; (congruence || tauto). Qed.

Lemma flt_false (a b : R) : Py.flt a b = false <-> (b <= a)%R.
Proof.
  unfold Py.flt. destruct (Rlt_dec a b); split; try congruence; intros; lra.
Qed.

Lemma feq_false (a b : R) : Py.feq a b = false <-> a <> b.
Proof. unfold Py.feq. destruct (Req_dec_T a b); split; (congruence || tauto). Qed.

Lemma truthy_spec (x : option R) :
  Py.truthy x = true <-> exists v, x = Some v /\ v <> 0%R.
Proof.
  destruct x as [v|]; simpl.
  - destruct (Req_dec_T v 0); split.
    + discriminate.
    + intros (v' & [= <-] & Hv). contradiction.
    + eauto.
    + reflexivity.
  - split; [discriminate | intros (v & Hv & _); discriminate].
Qed.

Lemma truthy_zero : Py.truthy (Some 0%R) = false.
Proof. simpl. destruct (Req_dec_T 0 0); [reflexivity | contradiction]. Qed.

(** ** Capacity reservation *)

Lemma update_capacity_enough (r : Resource.t) (q : Z) :
  Resource.available_capacity r >= q ->
  Resource.update_capacity r q
  = (true, Resource.set_available_capacity (Resource.available_capacity r - q) r).
Proof.
  intros Hq. unfold Resource.update_capacity.
  destruct (Z.geb_spec (Resource.available_capacity r) q); [reflexivity | lia].
Qed.

Lemma update_capacity_short (r : Resource.t) (q : Z) :
  Resource.available_capacity r < q ->
  Resource.update_capacity r q = (false, r).
Proof.
  intros Hq. unfold Resource.update_capacity.
  destruct (Z.geb_spec (Resource.available_capacity r) q); [lia | reflexivity].
Qed.

Lemma update_capacity_total (r : Resource.t) (q : Z) :
  Resource.total_capacity (snd (Resource.update_capacity r q))
  = Resource.total_capacity r.
Proof.
  unfold Resource.update_capacity.
  destruct (Resource.available_capacity r >=? q); reflexivity.
Qed.


(** C2, as stated, fails: a negative quantity passes the test
    [available_capacity >= used_capacity] and pushes the available
    capacity above the total. *)
Lemma update_capacity_negative_quantity :
  ~ (forall (r : Resource.t) (q : Z),
        0 <= Resource.available_capacity r <= Resource.total_capacity r ->
        let r' := snd (Resource.update_capacity r q) in
        0 <= Resource.available_capacity r' <= Resource.total_capacity r').
Proof.
  intros Hall. specialize (Hall full_house (-1)).
  vm_compute in Hall. destruct Hall as [_ Hle]; [split; discriminate |].
  apply Hle. reflexivity.
Qed.

(** C2 (amended): [update_capacity] succeeds and subtracts the quantity
    exactly when the available capacity is at least the quantity;
    otherwise it fails and leaves the resource as it was.  The available
    capacity never becomes negative, and for a non-negative quantity it
    stays within the total capacity. *)
Theorem update_capacity_reserves (r : Resource.t) (q : Z) :
  (Resource.available_capacity r >= q ->
   Resource.update_capacity r q
   = (true, Resource.set_available_capacity
              (Resource.available_capacity r - q) r))
  /\ (Resource.available_capacity r < q ->
      Resource.update_capacity r q = (false, r))
  /\ (fst (Resource.update_capacity r q) = true
      <-> Resource.available_capacity r >= q)
  /\ (0 <= Resource.available_capacity r ->
      0 <= Resource.available_capacity (snd (Resource.update_capacity r q)))
  /\ (0 <= q ->
      Resource.available_capacity r <= Resource.total_capacity r ->
      Resource.available_capacity (snd (Resource.update_capacity r q))
      <= Resource.total_capacity (snd (Resource.update_capacity r q))).
Proof.
  destruct (Z_lt_ge_dec (Resource.available_capacity r) q) as [Hlt | Hge].
  - rewrite (update_capacity_short r q Hlt). simpl.
    repeat split; intros; (lia || discriminate || reflexivity || assumption).
  - rewrite (update_capacity_enough r q Hge). simpl.
    repeat split; intros; (lia || reflexivity).
Qed.

Lemma update_capacity_reserves_witness :
  Resource.update_capacity full_house 2
  = (true, Resource.set_available_capacity 3 full_house)
  /\ Resource.update_capacity full_house 6 = (false, full_house)
  /\ 0 <= Resource.available_capacity
            (snd (Resource.update_capacity full_house 2))
       <= Resource.total_capacity
            (snd (Resource.update_capacity full_house 2)).
Proof.
  destruct (update_capacity_reserves full_house 2) as (H1 & _ & _ & H4 & H5).
  destruct (update_capacity_reserves full_house 6) as (_ & H2 & _).
  split; [apply H1; simpl; lia |].
  split; [apply H2; simpl; lia |].
  split; [apply H4; simpl; lia | apply H5; simpl; lia].
Defined.

(** ** Haversine distance *)

Lemma all_swap (a b c d : option R) :
  Py.all [c; d; a; b] = Py.all [a; b; c; d].
Proof.
  unfold Py.all. simpl.
  destruct (Py.truthy a), (Py.truthy b), (Py.truthy c), (Py.truthy d);
    reflexivity.
Qed.

Lemma all_four (a b c d : option R) :
  Py.all [a; b; c; d] = true ->
  exists va vb vc vd,
    a = Some va /\ b = Some vb /\ c = Some vc /\ d = Some vd
    /\ va <> 0%R /\ vb <> 0%R /\ vc <> 0%R /\ vd <> 0%R.
Proof.
  unfold Py.all. simpl. rewrite !andb_true_iff.
  intros (Ha & Hb & Hc & Hd & _).
  apply truthy_spec in Ha as (va & -> & ?), Hb as (vb & -> & ?).
  apply truthy_spec in Hc as (vc & -> & ?), Hd as (vd & -> & ?).
  exists va, vb, vc, vd. tauto.
Qed.

(** The guard: a coordinate that is [None] or zero gives infinity. *)
Lemma calculate_distance_falsy (lat1 lon1 lat2 lon2 : option R) :
  Py.truthy lat1 = false \/ Py.truthy lon1 = false
  \/ Py.truthy lat2 = false \/ Py.truthy lon2 = false ->
  MatchingService.calculate_distance lat1 lon1 lat2 lon2
  = MatchingService.Infinity.
Proof.
  intros Hf. unfold MatchingService.calculate_distance.
  replace (Py.all [lat1; lon1; lat2; lon2]) with false; [reflexivity |].
  unfold Py.all. simpl.
  destruct Hf as [-> | [-> | [-> | ->]]];
    rewrite ?andb_false_r, ?andb_false_l; reflexivity.
Qed.

Lemma haversine_sym (lat1 lon1 lat2 lon2 : R) :
  (sin ((lat2 - lat1) / 2) ^ 2
   + cos lat1 * cos lat2 * sin ((lon2 - lon1) / 2) ^ 2
   = sin ((lat1 - lat2) / 2) ^ 2
     + cos lat2 * cos lat1 * sin ((lon1 - lon2) / 2) ^ 2)%R.
Proof.
  replace ((lat2 - lat1) / 2)%R with (- ((lat1 - lat2) / 2))%R by lra.
  replace ((lon2 - lon1) / 2)%R with (- ((lon1 - lon2) / 2))%R by lra.
  rewrite !sin_neg. ring.
Qed.

(** The distance does not depend on the order of the two points. *)
Lemma calculate_distance_sym (lat1 lon1 lat2 lon2 : option R) :
  MatchingService.calculate_distance lat1 lon1 lat2 lon2
  = MatchingService.calculate_distance lat2 lon2 lat1 lon1.
Proof.
  unfold MatchingService.calculate_distance.
  rewrite (all_swap lat1 lon1 lat2 lon2).
  destruct (Py.all [lat1; lon1; lat2; lon2]) eqn:Hall; [| reflexivity].
  apply all_four in Hall as (a & b & c & d & -> & -> & -> & -> & _).
  cbn [negb]. cbv beta iota zeta. now rewrite haversine_sym.
Qed.


(** C9: on the equator the code gives infinity, not zero, for the
    distance of a point to itself. *)
Theorem calculate_distance_equator_self :
  MatchingService.calculate_distance (Some 0%R) (Some 10%R)
                                     (Some 0%R) (Some 10%R)
  = MatchingService.Infinity
  /\ MatchingService.calculate_distance (Some 0%R) (Some 10%R)
                                        (Some 0%R) (Some 10%R)
     <> MatchingService.Finite 0.
Proof.
  assert (Hinf : MatchingService.calculate_distance
                   (Some 0%R) (Some 10%R) (Some 0%R) (Some 10%R)
                 = MatchingService.Infinity).
  { apply calculate_distance_falsy. left. apply truthy_zero. }
  split; [exact Hinf | rewrite Hinf; discriminate].
Qed.

(** ** [list.sort] *)

Section SortFacts.
Context {A : Type} (lt : A -> A -> bool).

Lemma insert_perm (x : A) (l : list A) :
  Permutation (Py.insert lt x l) (x :: l).
Proof.
  induction l as [| y l IH]; simpl; [reflexivity |].
  destruct (lt y x); [| reflexivity].
  rewrite IH. apply perm_swap.
Qed.

Lemma sort_perm (l : list A) : Permutation (Py.sort lt l) l.
Proof.
  induction l as [| x l IH]; simpl; [reflexivity |].
  rewrite insert_perm. now constructor.
Qed.

Lemma sort_In (x : A) (l : list A) : In x (Py.sort lt l) <-> In x l.
Proof.
  split; apply Permutation_in; [| symmetry]; apply sort_perm.
Qed.

Lemma sort_length (l : list A) : length (Py.sort lt l) = length l.
Proof. apply Permutation_length, sort_perm. Qed.

Hypothesis lt_asym : forall a b, lt a b = true -> lt b a = false.
Hypothesis not_after_trans :
  forall a b c,
    Py.not_after lt a b -> Py.not_after lt b c -> Py.not_after lt a c.

Lemma insert_sorted (x : A) (l : list A) :
  StronglySorted (Py.not_after lt) l ->
  StronglySorted (Py.not_after lt) (Py.insert lt x l).
Proof using lt_asym not_after_trans.
  induction 1 as [| y l Hl IH Hy]; simpl.
  - repeat constructor.
  - destruct (lt y x) eqn:Hyx.
    + constructor; [exact IH |].
      apply List.Forall_forall. intros z Hz.
      apply (Permutation_in _ (insert_perm x l)) in Hz as [<- | Hz].
      * now apply lt_asym.
      * rewrite List.Forall_forall in Hy. now apply Hy.
    + constructor; [now constructor |].
      constructor; [exact Hyx |].
      eapply List.Forall_impl; [| exact Hy].
      intros z Hz. now apply (not_after_trans x y z).
Qed.

Lemma sort_sorted (l : list A) :
  StronglySorted (Py.not_after lt) (Py.sort lt l).
Proof using lt_asym not_after_trans.
  induction l as [| x l IH]; simpl; [constructor | now apply insert_sorted].
Qed.
End SortFacts.

(** The first element of a sorted, non-empty list is not after any other. *)
Lemma sorted_head {A : Type} (lt : A -> A -> bool) (l : list A) (x : A) :
  StronglySorted (Py.not_after lt) l -> head l = Some x ->
  forall y, In y l -> y = x \/ Py.not_after lt x y.
Proof.
  intros Hs Hh y Hy. destruct l as [| z l]; [discriminate |].
  injection Hh as ->. inversion Hs as [| ? ? _ Hall]; subst.
  destruct Hy as [-> | Hy]; [now left | right].
  rewrite List.Forall_forall in Hall. now apply Hall.
Qed.

(** ** Strings and [LIKE] *)

Lemma chars_str (l : list ascii) : Py.chars (Py.str l) = l.
Proof. apply list_ascii_of_string_of_list_ascii. Qed.

Lemma chars_append (s t : string) :
  Py.chars (s +:+ t) = Py.chars s ++ Py.chars t.
Proof.
  unfold Py.chars. induction s as [| c s IH]; simpl; [reflexivity |].
  now rewrite IH.
Qed.

Lemma chars_lower (s : string) :
  Py.chars (Py.lower s) = map Py.lower_char (Py.chars s).
Proof. apply chars_str. Qed.

Lemma lower_char_idem (c : ascii) :
  Py.lower_char (Py.lower_char c) = Py.lower_char c.
Proof. destruct c as [[] [] [] [] [] [] [] []]; reflexivity. Qed.







(** What [contains] decides. *)
Lemma starts_with_spec (t s : list ascii) :
  Py.starts_with t s = true <-> exists post, s = t ++ post.
Proof.
  revert s. induction t as [| a t IH]; intros s; simpl.
  - split; eauto.
  - destruct s as [| b s].
    + split; [discriminate | intros (post & Hp); discriminate].
    + rewrite andb_true_iff, Ascii.eqb_eq, IH. split.
      * intros (-> & post & ->). eauto.
      * intros (post & [= -> ->]). eauto.
Qed.

Lemma contains_spec (t s : list ascii) :
  Py.contains t s = true <-> exists pre post, s = pre ++ t ++ post.
Proof.
  induction s as [| b s IH].
  - simpl. rewrite orb_false_r, starts_with_spec. split.
    + intros (post & Hp). exists [], post. exact Hp.
    + intros (pre & post & Hp). destruct pre; [| discriminate].
      eauto.
  - change (Py.contains t (b :: s))
      with (Py.starts_with t (b :: s) || Py.contains t s).
    rewrite orb_true_iff, starts_with_spec, IH. split.
    + intros [(post & Hp) | (pre & post & ->)].
      * exists [], post. exact Hp.
      * exists (b :: pre), post. reflexivity.
    + intros (pre & post & Hp). destruct pre as [| c pre].
      * left. eauto.
      * right. injection Hp as _ ->. eauto.
Qed.

(** The two patterns that the text search tries accept the same labels,
    and for a text without wildcard they accept exactly the labels that
    contain the text, letter case apart. *)
Lemma ilike_lower_pattern (label text : string) :
  Sql.ilike label ("%" +:+ Py.lower text +:+ "%")
  = Sql.ilike label ("%" +:+ text +:+ "%").
Proof.
  unfold Sql.ilike. rewrite !chars_append, !map_app, chars_lower.
  now rewrite (map_map Py.lower_char), (map_ext _ _ lower_char_idem).
Qed.


(** ** Candidate search *)

Lemma StronglySorted_impl {A : Type} (P Q : A -> A -> Prop) (l : list A) :
  (forall a b, P a b -> Q a b) -> StronglySorted P l -> StronglySorted Q l.
Proof.
  intros HPQ. induction 1 as [| x l _ IH Hx]; constructor; [exact IH |].
  eapply List.Forall_impl; [| exact Hx]. intros y. apply HPQ.
Qed.


Lemma within_radius_In (radius : R) (ulat ulon : option R)
    (rows : list Resource.t) (r' : Resource.t) :
  In r' (MatchingService.within_radius radius ulat ulon rows)
  <-> exists r d,
        In r rows
        /\ Py.truthy (Resource.latitude r) = true
        /\ Py.truthy (Resource.longitude r) = true
        /\ MatchingService.calculate_distance ulat ulon
             (Resource.latitude r) (Resource.longitude r)
           = MatchingService.Finite d
        /\ (d <= radius)%R
        /\ r' = Resource.set_distance d r.
Proof.
  induction rows as [| x rows IH]; simpl.
  - split; [tauto | intros (r & d & [] & _)].
  - destruct (Py.truthy (Resource.latitude x)) eqn:Hlat;
      [destruct (Py.truthy (Resource.longitude x)) eqn:Hlon |]; simpl.
    + destruct (MatchingService.calculate_distance ulat ulon
                  (Resource.latitude x) (Resource.longitude x))
        as [d |] eqn:Hd; simpl.
      * destruct (Py.fle d radius) eqn:Hle.
        -- simpl. rewrite IH. split.
           ++ intros [<- | (r & d' & Hr & Hrest)].
              ** exists x, d. apply fle_spec in Hle. tauto.
              ** exists r, d'. tauto.
           ++ intros (r & d' & [-> | Hr] & H1 & H2 & H3 & H4 & ->).
              ** left. rewrite Hd in H3. now injection H3 as ->.
              ** right. exists r, d'. tauto.
        -- rewrite IH. split.
           ++ intros (r & d' & Hr & Hrest). exists r, d'. tauto.
           ++ intros (r & d' & [-> | Hr] & H1 & H2 & H3 & H4 & ->).
              ** rewrite Hd in H3. injection H3 as ->.
                 apply fle_spec in H4. congruence.
              ** exists r, d'. tauto.
      * rewrite IH. split.
        -- intros (r & d' & Hr & Hrest). exists r, d'. tauto.
        -- intros (r & d' & [-> | Hr] & H1 & H2 & H3 & H4 & ->).
           ++ congruence.
           ++ exists r, d'. tauto.
    + rewrite IH. split.
      * intros (r & d' & Hr & Hrest). exists r, d'. tauto.
      * intros (r & d' & [-> | Hr] & H1 & H2 & H3 & H4 & ->).
        -- congruence.
        -- exists r, d'. tauto.
    + rewrite IH. split.
      * intros (r & d' & Hr & Hrest). exists r, d'. tauto.
      * intros (r & d' & [-> | Hr] & H1 & H2 & H3 & H4 & ->).
        -- congruence.
        -- exists r, d'. tauto.
Qed.

Lemma nearer_false (r s : Resource.t) :
  MatchingService.nearer s r = false <-> MatchingService.ranked_by_distance r s.
Proof.
  unfold MatchingService.nearer, MatchingService.ranked_by_distance.
  destruct (Py.feq (MatchingService.distance_of s)
                   (MatchingService.distance_of r)) eqn:Heq.
  - apply feq_spec in Heq. rewrite Z.ltb_ge. split.
    + intros Hc. right. split; [congruence | lia].
    + intros [Hlt | [_ Hc]]; [rewrite Heq in Hlt; lra | lia].
  - apply feq_false in Heq. rewrite flt_false. split.
    + intros Hle. left. lra.
    + intros [Hlt | [Hd _]]; [lra | congruence].
Qed.

Lemma nearer_true (r s : Resource.t) :
  MatchingService.nearer r s = true ->
  (MatchingService.distance_of r < MatchingService.distance_of s)%R
  \/ (MatchingService.distance_of r = MatchingService.distance_of s
      /\ Resource.available_capacity r > Resource.available_capacity s).
Proof.
  unfold MatchingService.nearer.
  destruct (Py.feq (MatchingService.distance_of r)
                   (MatchingService.distance_of s)) eqn:Heq.
  - apply feq_spec in Heq. rewrite Z.ltb_lt. intros Hc. right. split; [easy | lia].
  - rewrite flt_spec. tauto.
Qed.

Lemma sort_nearer_sorted (l : list Resource.t) :
  StronglySorted MatchingService.ranked_by_distance
    (Py.sort MatchingService.nearer l).
Proof.
  apply (StronglySorted_impl (Py.not_after MatchingService.nearer)).
  { intros a b. apply nearer_false. }
  apply sort_sorted.
  - intros a b Hab. apply nearer_true in Hab. apply nearer_false.
    unfold MatchingService.ranked_by_distance.
    destruct Hab as [Hlt | [Heq Hc]]; [left; exact Hlt | right; split; [exact Heq | lia]].
  - intros a b c. unfold Py.not_after. rewrite !nearer_false.
    unfold MatchingService.ranked_by_distance.
    intros [H1 | [H1 C1]] [H2 | [H2 C2]];
      [left; lra | left; lra | left; lra | right; split; [congruence | lia]].
Qed.

Lemma sort_roomier_sorted (l : list Resource.t) :
  StronglySorted MatchingService.ranked_by_capacity
    (Py.sort MatchingService.roomier l).
Proof.
  apply (StronglySorted_impl (Py.not_after MatchingService.roomier)).
  { intros a b. unfold Py.not_after, MatchingService.roomier,
      MatchingService.ranked_by_capacity. rewrite Z.ltb_ge. lia. }
  apply sort_sorted.
  - intros a b. unfold MatchingService.roomier. rewrite Z.ltb_lt, Z.ltb_ge. lia.
  - intros a b c. unfold Py.not_after, MatchingService.roomier.
    rewrite !Z.ltb_ge. lia.
Qed.

(** The search without usable caller coordinates is the text search. *)
Lemma find_nearby_text (table : list Resource.t) (ty : ResourceType.t)
    (location : string) (radius : R) (ulat ulon : option R) :
  Py.truthy ulat && Py.truthy ulon = false ->
  MatchingService.find_nearby_resources table ty location radius ulat ulon
  = Py.sort MatchingService.roomier
      (List.filter (fun r => Sql.ilike (Resource.location r)
                          ("%" +:+ location +:+ "%"))
              (List.filter (MatchingService.base_query ty) table)).
Proof.
  intros Hc. unfold MatchingService.find_nearby_resources. rewrite Hc.
  f_equal. apply filter_ext. intros r.
  rewrite ilike_lower_pattern. apply orb_diag.
Qed.

Lemma find_nearby_distance (table : list Resource.t) (ty : ResourceType.t)
    (location : string) (radius : R) (ulat ulon : option R) :
  Py.truthy ulat = true -> Py.truthy ulon = true ->
  MatchingService.find_nearby_resources table ty location radius ulat ulon
  = Py.sort MatchingService.nearer
      (MatchingService.within_radius radius ulat ulon
         (List.filter (MatchingService.base_query ty) table)).
Proof.
  intros H1 H2. unfold MatchingService.find_nearby_resources.
  now rewrite H1, H2.
Qed.



(** A caller coordinate equal to zero sends the search to the text
    branch. *)
Lemma find_nearby_zero_caller (table : list Resource.t) (ty : ResourceType.t)
    (location : string) (radius : R) (ulat ulon : option R) :
  ulat = Some 0%R \/ ulon = Some 0%R ->
  MatchingService.find_nearby_resources table ty location radius ulat ulon
  = MatchingService.find_nearby_resources table ty location radius None None.
Proof.
  intros Hzero.
  rewrite (find_nearby_text table ty location radius ulat ulon).
  - now rewrite (find_nearby_text table ty location radius None None).
  - destruct Hzero as [-> | ->]; rewrite truthy_zero;
      [reflexivity | apply andb_false_r].
Qed.

(** C7: two inputs on which the code departs from the claim.  A caller
    on the equator gives coordinates, and yet gets the text search: a
    resource without coordinates is returned instead of being skipped.
    An underscore in the caller's text acts as a wildcard of the [LIKE]
    pattern: a resource is returned whose label does not contain the
    text. *)
Theorem find_nearby_resources_departures :
  (Resource.latitude full_house = None
   /\ In full_house
        (MatchingService.find_nearby_resources [full_house]
           ResourceType.SHELTER "Lokoja" 50 (Some 0%R) (Some 6%R)))
  /\ (In full_house
        (MatchingService.find_nearby_resources [full_house]
           ResourceType.SHELTER "L_koja" 50 None None)
      /\ Py.contains (Py.chars (Py.lower "L_koja"))
           (Py.chars (Py.lower (Resource.location full_house))) = false).
Proof.
  split; split.
  - reflexivity.
  - rewrite find_nearby_zero_caller by now left.
    vm_compute. left. reflexivity.
  - vm_compute. left. reflexivity.
  - reflexivity.
Qed.



(** ** Scoring *)

Section Scoring.
Context `{Runtime}.

Lemma tie_break_range (r : Resource.t) :
  (0 <= MatchingService.tie_break r < 10)%R.
Proof.
  unfold MatchingService.tie_break.
  pose proof (Z.mod_pos_bound (hash_str (Resource.name r)) 10 eq_refl)
    as [Hlo Hhi].
  split; [now apply (IZR_le 0) | now apply (IZR_lt _ 10)].
Qed.

Lemma score_of_by_spec (req : EmergencyRequest.t) (r : Resource.t) :
  1 <= Resource.total_capacity r ->
  MatchingService.score_of req r = MatchingService.score_by_spec req r.
Proof.
  intros Htotal.
  unfold MatchingService.score_of, MatchingService.score_by_spec,
    MatchingService.proximity_term, MatchingService.headroom_term,
    MatchingService.urgency_bonus, MatchingService.free_bonus,
    MatchingService.tie_break, Py.feq.
  rewrite (Z.max_l _ 1 Htotal).
  destruct (Resource.distance r) as [d |];
    [replace (100 - d * 2)%R with (100 - 2 * d)%R by ring |];
    destruct (EmergencyRequest.priority_level req >=? 4);
    destruct (Resource.resource_type r); simpl;
    destruct (Req_dec_T (Resource.price_per_unit r) 0); ring.
Qed.

Lemma scored_head (req : EmergencyRequest.t) (rs : list Resource.t) :
  rs <> [] ->
  exists best,
    MatchingService._apply_matching_algorithm req rs = Some best
    /\ In best rs
    /\ forall r, In r rs ->
         (MatchingService.score_of req r
          <= MatchingService.score_of req best)%R.
Proof.
  intros Hne. unfold MatchingService._apply_matching_algorithm.
  destruct rs as [| r0 rs0]; [contradiction |].
  set (rs := r0 :: rs0).
  set (scored := map (fun r => (r, MatchingService.score_of req r)) rs).
  set (lt := fun x y : Resource.t * R => Py.flt (snd y) (snd x)).
  change (Py.sort_reverse _ scored) with (Py.sort lt scored).
  assert (Hsorted : StronglySorted (Py.not_after lt) (Py.sort lt scored)).
  { apply sort_sorted.
    - intros a b. unfold lt. rewrite flt_spec, flt_false. lra.
    - intros a b c. unfold Py.not_after, lt. rewrite !flt_false. lra. }
  destruct (Py.sort lt scored) as [| [best sc] rest] eqn:Hsort.
  { apply (f_equal (@length _)) in Hsort.
    rewrite sort_length in Hsort. discriminate. }
  assert (Hbest : In (best, sc) scored).
  { apply (sort_In lt). rewrite Hsort. now left. }
  apply in_map_iff in Hbest as (b & [= -> <-] & Hb).
  exists best. split; [reflexivity | split; [exact Hb |]].
  intros r Hr.
  assert (Hin : In (r, MatchingService.score_of req r) (Py.sort lt scored)).
  { apply sort_In. apply in_map_iff. eauto. }
  rewrite <- Hsort in Hsorted.
  destruct (sorted_head lt _ (best, MatchingService.score_of req best)
              Hsorted (f_equal head Hsort) _ Hin) as [Heq | Hle].
  - injection Heq as -> _. lra.
  - unfold Py.not_after, lt in Hle. simpl in Hle. now apply flt_false in Hle.
Qed.

End Scoring.

(** C8: for a resource whose total capacity is at least one, the score is
    the proximity term ([max(0, 100 - 2 * distance)], or 50 without a
    distance), plus available over total capacity times 50, plus 30
    (transport) or 20 (shelter) when the priority is at least 4, plus 25
    when the price is zero, plus a tie-break in [0, 10) computed from the
    resource's name; and the resource chosen from a non-empty list has a
    score that no other candidate exceeds. *)
Theorem matching_score_and_choice `{Runtime} (req : EmergencyRequest.t) :
  (forall r : Resource.t,
      1 <= Resource.total_capacity r ->
      MatchingService.score_of req r
      = (MatchingService.proximity_term r
         + IZR (Resource.available_capacity r)
           / IZR (Resource.total_capacity r) * 50
         + MatchingService.urgency_bonus req r
         + MatchingService.free_bonus r
         + MatchingService.tie_break r)%R
      /\ (0 <= MatchingService.tie_break r < 10)%R)
  /\ (forall rs : list Resource.t,
         rs <> [] ->
         exists best,
           MatchingService._apply_matching_algorithm req rs = Some best
           /\ In best rs
           /\ forall r, In r rs ->
                (MatchingService.score_of req r
                 <= MatchingService.score_of req best)%R).
Proof.
  split.
  - intros r Htotal. split; [| apply tie_break_range].
    now rewrite score_of_by_spec.
  - intros rs. apply scored_head.
Qed.

Lemma matching_score_and_choice_witness :
  @MatchingService.score_of first_process (shelter_request None) hill_camp
  = (50 + 20 / 40 * 50 + 0 + 25 + 0)%R
  /\ exists best,
       @MatchingService._apply_matching_algorithm first_process
         (shelter_request None) [full_house; second_house] = Some best
       /\ In best [full_house; second_house].
Proof.
  destruct (@matching_score_and_choice first_process (shelter_request None))
    as [Hscore Hbest].
  split.
  - destruct (Hscore hill_camp) as [-> _]; [simpl; lia |].
    unfold MatchingService.proximity_term, MatchingService.urgency_bonus,
      MatchingService.free_bonus, MatchingService.tie_break. simpl.
    destruct (Req_dec_T 0 0); [reflexivity | contradiction].
  - destruct (Hbest [full_house; second_house]) as (best & Hb & Hin & _);
      [discriminate |].
    exists best. split; assumption.
Defined.

(** ** Reproducibility of the matching *)






(** ** Batch matching *)

Section AutoMatch.
Context `{Runtime}.



Lemma pending_requests_In (t : Z) (table : list EmergencyRequest.t)
    (q : EmergencyRequest.t) :
  In q (MatchingService.pending_requests t table)
  <-> In q table
      /\ EmergencyRequest.status q = RequestStatus.PENDING
      /\ EmergencyRequest.created_at q <= t.
Proof.
  unfold MatchingService.pending_requests, MatchingService.is_backlog.
  rewrite sort_In, filter_In, andb_true_iff, bool_decide_eq_true, Z.leb_le.
  tauto.
Qed.

(** The candidates come from the table: same key, same free capacity. *)
Lemma find_nearby_from_table (table : list Resource.t)
    (ty : ResourceType.t) (location : string) (radius : R)
    (ulat ulon : option R) (r : Resource.t) :
  In r (MatchingService.find_nearby_resources table ty location radius
          ulat ulon) ->
  exists r0,
    In r0 table
    /\ Resource.id r0 = Resource.id r
    /\ Resource.available_capacity r0 = Resource.available_capacity r
    /\ Resource.price_per_unit r0 = Resource.price_per_unit r.
Proof.
  destruct (Py.truthy ulat && Py.truthy ulon) eqn:Hc.
  - apply andb_true_iff in Hc as [H1 H2].
    rewrite (find_nearby_distance _ _ _ _ _ _ H1 H2), sort_In,
      within_radius_In.
    intros (r0 & d & Hr0 & _ & _ & _ & _ & ->).
    apply filter_In in Hr0 as [Hr0 _]. exists r0. simpl. tauto.
  - rewrite (find_nearby_text _ _ _ _ _ _ Hc), sort_In, !filter_In.
    intros [[Hr _] _]. exists r. tauto.
Qed.

Lemma match_request_from_table (radius : R) (table : list Resource.t)
    (req : EmergencyRequest.t) (res : Resource.t) :
  MatchingService.match_request_to_resource radius table req = Some res ->
  exists r0,
    In r0 table
    /\ Resource.id r0 = Resource.id res
    /\ Resource.available_capacity r0 = Resource.available_capacity res
    /\ Resource.price_per_unit r0 = Resource.price_per_unit res.
Proof.
  unfold MatchingService.match_request_to_resource.
  set (cands := MatchingService.find_nearby_resources _ _ _ _ _ _).
  intros Hm.
  assert (Hne : cands <> []) by (intros E; rewrite E in Hm; discriminate).
  assert (Hm' : MatchingService._apply_matching_algorithm req cands
                = Some res) by (destruct cands; [contradiction | exact Hm]).
  destruct (scored_head req cands Hne) as (best & Hb & Hin & _).
  rewrite Hm' in Hb. injection Hb as <-.
  now apply find_nearby_from_table in Hin.
Qed.



(** One turn of the loop on a request for which no resource is found. *)
Lemma match_one_none (radius : R) (req : EmergencyRequest.t)
    (counts : Z * Z) (w : world) :
  MatchingService.match_request_to_resource radius (resources w) req = None ->
  MatchingService.match_one radius req counts w
  = (Ok (fst counts, snd counts + 1), w).
Proof.
  intros Hm. destruct counts as [m f].
  unfold MatchingService.match_one, bind, get. now rewrite Hm.
Qed.

(** One turn of the loop on a request for which [res] is chosen. *)
Lemma match_one_some (radius : R) (req : EmergencyRequest.t)
    (counts : Z * Z) (w : world) (res : Resource.t) :
  MatchingService.match_request_to_resource radius (resources w) req
  = Some res ->
  MatchingService.match_one radius req counts w
  = (Ok (fst counts + 1, snd counts),
     with_requests
       (EmergencyRequest_flush
          (EmergencyRequest.set_matched (Resource.id res)
             (utcnow_at (clock_reads w)) (Resource.price_per_unit res) req)
          (requests w))
       (with_resources
          (Resource_flush
             (snd (Resource.update_capacity res
                     (MatchingService.or_1
                        (EmergencyRequest.quantity_needed req))))
             (resources w))
          (with_clock_reads (S (clock_reads w)) w))).
Proof.
  intros Hm. destruct counts as [m f].
  unfold MatchingService.match_one, bind, get. rewrite Hm.
  unfold utcnow, modify, ret. simpl.
  destruct (Resource.update_capacity res _); reflexivity.
Qed.



End AutoMatch.




(** ** Reference numbers *)

Lemma civil_from_days_range (z : Z) :
  let '(y, m, d) := Clock.civil_from_days z in
  1 <= m <= 12 /\ 1 <= d <= 31.
Proof.
  unfold Clock.civil_from_days.
  set (doe := (z + 719468) mod 146097).
  assert (Hdoe : 0 <= doe < 146097) by (apply Z.mod_pos_bound; lia).
  assert (Hdoy : 0 <= Clock.day_of_year doe <= 365).
  { unfold Clock.day_of_year, Clock.year_of_era.
    Z.div_mod_to_equations. lia. }
  set (doy := Clock.day_of_year doe) in *.
  assert (Hmp : 0 <= Clock.month_index doy <= 11
                /\ 1 <= doy - (153 * Clock.month_index doy + 2) / 5 + 1 <= 31).
  { unfold Clock.month_index. Z.div_mod_to_equations. lia. }
  destruct (Z.ltb_spec (Clock.month_index doy) 10); lia.
Qed.

Lemma digit_char_digit (d : Z) :
  0 <= d <= 9 -> Py.is_digit (Clock.digit_char d) = true.
Proof.
  intros Hd.
  assert (Hcases : d = 0 \/ d = 1 \/ d = 2 \/ d = 3 \/ d = 4 \/ d = 5
                   \/ d = 6 \/ d = 7 \/ d = 8 \/ d = 9) by lia.
  repeat (destruct Hcases as [-> | Hcases]; [reflexivity |]).
  now subst.
Qed.

Lemma two_digits_shape (n : Z) :
  0 <= n < 100 ->
  exists a b,
    Clock.two_digits n = String a (String b "")
    /\ Py.is_digit a = true /\ Py.is_digit b = true.
Proof.
  intros Hn. unfold Clock.two_digits. do 2 eexists.
  split; [reflexivity |].
  split; apply digit_char_digit; Z.div_mod_to_equations; lia.
Qed.


Lemma upper_append (s t : string) : Py.upper (s +:+ t) = Py.upper s +:+ Py.upper t.
Proof.
  unfold Py.upper, Py.str. rewrite chars_append, map_app.
  induction (map Py.upper_char (Py.chars s)) as [| c l IH]; simpl;
    [reflexivity | now rewrite IH].
Qed.


Example strftime_new_year_2025 :
  Clock.strftime_ymd (20089 * 86400000000 + 1) = "250101".
Proof. reflexivity. Qed.

Example strftime_leap_day_2024 :
  Clock.strftime_ymd (19782 * 86400000000 + 86399999999) = "240229".
Proof. reflexivity. Qed.

(** ** Duplicate guard *)

Section Guard.
Context `{Runtime}.

Lemma check_duplicate_requests_run (uid : Z) (ty : ResourceType.t)
    (location : string) (window : Z) (w : world) :
  exists found : bool,
    FraudDetection.check_duplicate_requests uid ty location window w
    = (Ok found, with_clock_reads (S (clock_reads w)) w)
    /\ (found = true
        <-> FraudDetection.has_duplicate (requests w) uid ty location
              (utcnow_at (clock_reads w) - Clock.minutes window)).
Proof.
  unfold FraudDetection.check_duplicate_requests, bind, utcnow, get, ret. simpl.
  eexists. split; [reflexivity |].
  rewrite bool_decide_eq_true. unfold FraudDetection.has_duplicate.
  set (p := fun q : EmergencyRequest.t => _ && _ && _ && _ && _).
  assert (Hp : forall q,
             p q = true
             <-> EmergencyRequest.user_id q = uid
                 /\ EmergencyRequest.resource_type q = ty
                 /\ EmergencyRequest.location q = location
                 /\ EmergencyRequest.created_at q
                    > utcnow_at (clock_reads w) - Clock.minutes window
                 /\ EmergencyRequest.status q <> RequestStatus.CANCELLED).
  { intros q. unfold p.
    rewrite !andb_true_iff, negb_true_iff, bool_decide_eq_true,
      bool_decide_eq_false, Z.eqb_eq, String.eqb_eq, Z.gtb_gt.
    tauto. }
  split.
  - intros [q Hq]. apply find_some in Hq as [Hin Hq].
    exists q. split; [exact Hin | now apply Hp].
  - intros (q & Hin & Hq). apply Hp in Hq.
    destruct (find p (requests w)) as [q' |] eqn:Hfind; [eauto |].
    apply (find_none _ _ Hfind) in Hin. congruence.
Qed.
End Guard.

(** ** Confirmation step *)

Section Confirmation.
Context `{Runtime}.

Lemma end_session_run (self : USSDMenuHandler.t) (message : string)
    (w : world) :
  USSDMenuHandler._end_session self message w
  = (Ok ("END " +:+ message), USSDMenuHandler.ended self w).
Proof.
  unfold USSDMenuHandler._end_session, USSDMenuHandler.ended, bind, modify, ret.
  now destruct (USSDMenuHandler.session self).
Qed.

Lemma ended_tables (self : USSDMenuHandler.t) (w : world) :
  requests (USSDMenuHandler.ended self w) = requests w
  /\ resources (USSDMenuHandler.ended self w) = resources w.
Proof. unfold USSDMenuHandler.ended. now destruct (USSDMenuHandler.session self). Qed.

Lemma confirmation_blocked (self : USSDMenuHandler.t)
    (sd : SessionData.t) (w : world) (u : User.t) (rid : Z)
    (value : string) (ty : ResourceType.t) (location : string) :
  USSDMenuHandler.user self = Some u ->
  SessionData.selected_resource_id sd = Some rid ->
  SessionData.resource_type sd = Some value ->
  ResourceType.of_value value = Some ty ->
  SessionData.location sd = Some location ->
  FraudDetection.has_duplicate (requests w) (User.id u) ty location
    (utcnow_at (clock_reads w) - Clock.minutes 30) ->
  exists message w',
    USSDMenuHandler._handle_confirmation self "1" sd w
    = (Ok ("END " +:+ message), w')
    /\ requests w' = requests w
    /\ resources w' = resources w
    /\ sessions w' = sessions (USSDMenuHandler.ended self w)
    /\ (forall r, Resource_get rid (resources w) = Some r ->
                  Resource.available_capacity r > 0 ->
                  message = "You have a similar pending request. "
                            +:+ "Please wait for it to be processed.").
Proof.
  intros Hu Hsel Hval Hty Hloc Hdup.
  unfold USSDMenuHandler._handle_confirmation.
  cbn -[String.append FraudDetection.check_duplicate_requests].
  unfold USSDMenuHandler.try_rollback.
  rewrite Hsel.
  cbn -[String.append FraudDetection.check_duplicate_requests].
  destruct (Resource_get rid (resources w)) as [r |] eqn:Hget.
  - destruct (Z.leb_spec (Resource.available_capacity r) 0) as [Hle | Hgt].
    + rewrite end_session_run. do 2 eexists.
      split; [reflexivity |].
      destruct (ended_tables self w) as [-> ->].
      repeat split. intros r' [= <-] Hpos. lia.
    + unfold USSDMenuHandler.user_id. rewrite Hu, Hval.
      cbn -[String.append FraudDetection.check_duplicate_requests].
      rewrite Hty, Hloc.
      cbn -[String.append FraudDetection.check_duplicate_requests].
      unfold bind at 1.
      destruct (check_duplicate_requests_run (User.id u) ty location 30 w)
        as (found & -> & Hfound).
      apply Hfound in Hdup as ->.
      rewrite end_session_run. do 2 eexists.
      split; [reflexivity |].
      unfold USSDMenuHandler.ended. destruct (USSDMenuHandler.session self); simpl;
        repeat split; reflexivity.
  - rewrite end_session_run. do 2 eexists.
    split; [reflexivity |].
    destruct (ended_tables self w) as [-> ->].
    repeat split. intros r' [=].
Qed.

Lemma Resource_get_some (rid : Z) (table : list Resource.t)
    (r : Resource.t) :
  Resource_get rid table = Some r -> In r table /\ Resource.id r = rid.
Proof.
  intros Hget. apply find_some in Hget as [Hin Hid].
  split; [exact Hin | now apply Z.eqb_eq].
Qed.


End Confirmation.




(** C5: the guard answers true exactly when the table holds a request
    that is not cancelled, has the same caller, resource type and
    location text, and was created after the clock reading minus the
    window; and a confirmation for which such a request exists within
    thirty minutes ends with an [END] answer, adds no request and leaves
    the resources table as it was. *)
Theorem duplicate_guard_blocks_confirmation `{Runtime} :
  (forall uid ty location window w,
      exists found : bool,
        FraudDetection.check_duplicate_requests uid ty location window w
        = (Ok found, with_clock_reads (S (clock_reads w)) w)
        /\ (found = true
            <-> FraudDetection.has_duplicate (requests w) uid ty location
                  (utcnow_at (clock_reads w) - Clock.minutes window)))
  /\ (forall self sd w u rid value ty location,
         USSDMenuHandler.user self = Some u ->
         SessionData.selected_resource_id sd = Some rid ->
         SessionData.resource_type sd = Some value ->
         ResourceType.of_value value = Some ty ->
         SessionData.location sd = Some location ->
         FraudDetection.has_duplicate (requests w) (User.id u) ty location
           (utcnow_at (clock_reads w) - Clock.minutes 30) ->
         exists message w',
           USSDMenuHandler._handle_confirmation self "1" sd w
           = (Ok ("END " +:+ message), w')
           /\ requests w' = requests w
           /\ resources w' = resources w
           /\ sessions w' = sessions (USSDMenuHandler.ended self w)
           /\ (forall r, Resource_get rid (resources w) = Some r ->
                         Resource.available_capacity r > 0 ->
                         message = "You have a similar pending request. "
                                   +:+ "Please wait for it to be processed.")).
Proof.
  split.
  - intros. apply check_duplicate_requests_run.
  - intros. eapply confirmation_blocked; eassumption.
Qed.

Lemma duplicate_guard_blocks_confirmation_witness :
  let w := database [full_house] [recent_request] in
  exists message w',
    @USSDMenuHandler._handle_confirmation first_process confirming "1"
      gathered w
    = (Ok ("END " +:+ message), w')
    /\ requests w' = [recent_request]
    /\ resources w' = [full_house].
Proof.
  intros w.
  destruct (@duplicate_guard_blocks_confirmation first_process) as [_ Hblock].
  destruct (Hblock confirming gathered w
              caller
              1 "shelter" ResourceType.SHELTER "Lokoja")
    as (message & w' & Hrun & Hreq & Hres & _); try reflexivity.
  - exists recent_request. repeat split; try reflexivity.
    + left. reflexivity.
    + discriminate.
  - exists message, w'. repeat split; assumption.
Defined.

(** ** Sessions *)

Section Sessions.
Context `{Runtime}.





End Sessions.

(** ** A call on an expired session *)





Lemma get_or_create_user_skip (rt : Runtime) (k : nat)
    (self : USSDMenuHandler.t) (w : world) :
  @USSDMenuHandler._get_or_create_user (skip_reading k rt) self w
  = @USSDMenuHandler._get_or_create_user rt self w.
Proof. reflexivity. Qed.









(** ** Expiry and last activity *)







(** ** The scenarios of the specification, run on the model *)

(** After five minutes and more, a pending request for one place with one
    matching shelter: the request is matched, the shelter has one place
    less and the summary counts one match and no failure. *)
Example auto_match_scenario :
  let w := database [full_house] [shelter_request (Some 1)] in
  let '(outcome, w') :=
    @MatchingService.auto_match_pending_requests first_process 50 w in
  (exists s, outcome = Ok s
             /\ MatchingService.total_processed s = 1
             /\ MatchingService.matched s = 1
             /\ MatchingService.failed s = 0)
  /\ EmergencyRequest.status <$> requests w' = [RequestStatus.MATCHED]
  /\ Resource.available_capacity <$> resources w' = [4].
Proof.
  vm_compute. split; [eexists; split; [reflexivity |] |]; repeat split.
Qed.

(** The five calls of a session, each on the world that the previous one
    left. *)
Example first_call_shows_menu :
  fst (session_call "" (database [full_house] []))
  = Ok ("CON Emergency Response System" +:+ USSDMenuHandler.crlf
        +:+ "Select service needed:" +:+ USSDMenuHandler.crlf
        +:+ "1. Shelter" +:+ USSDMenuHandler.crlf
        +:+ "2. Food" +:+ USSDMenuHandler.crlf
        +:+ "3. Transport" +:+ USSDMenuHandler.crlf
        +:+ "0. Exit").
Proof. vm_compute. reflexivity. Qed.

Example second_call_asks_location :
  fst (session_call "1" after_first_call)
  = Ok ("CON You selected: Shelter" +:+ USSDMenuHandler.crlf
        +:+ "Please enter your location (e.g., Lokoja, Ganaja):").
Proof. vm_compute. reflexivity. Qed.

Example third_call_lists_resources :
  fst (session_call "1*Lokoja" after_second_call)
  = Ok ("CON Available shelter near Lokoja:" +:+ USSDMenuHandler.crlf
        +:+ "1. Lokoja Camp - Available (Free)" +:+ USSDMenuHandler.crlf
        +:+ "0. Back to main menu").
Proof.
  vm_compute.
  destruct (Rlt_dec R0 R0) as [Hlt | _]; [exfalso; lra | reflexivity].
Qed.

Example fourth_call_asks_confirmation :
  fst (session_call "1*Lokoja*1" after_third_call)
  = Ok ("CON Confirm your request:" +:+ USSDMenuHandler.crlf
        +:+ "Service: Shelter" +:+ USSDMenuHandler.crlf
        +:+ "Provider: Lokoja Camp" +:+ USSDMenuHandler.crlf
        +:+ "Location: Lokoja" +:+ USSDMenuHandler.crlf
        +:+ "Cost: Free" +:+ USSDMenuHandler.crlf +:+ USSDMenuHandler.crlf
        +:+ "1. Confirm" +:+ USSDMenuHandler.crlf
        +:+ "2. Cancel").
Proof.
  vm_compute.
  destruct (Rlt_dec R0 R0) as [Hlt | _]; [exfalso; lra | reflexivity].
Qed.

Example fifth_call_confirms :
  let '(answer, w') := session_call "1*Lokoja*1*1" after_fourth_call in
  answer
  = Ok ("END Request confirmed!" +:+ USSDMenuHandler.crlf
        +:+ "Reference: ER700101A7A7A7" +:+ USSDMenuHandler.crlf
        +:+ "Provider: Lokoja Camp" +:+ USSDMenuHandler.crlf
        +:+ "Contact: None" +:+ USSDMenuHandler.crlf
        +:+ "You will receive SMS confirmation shortly.")
  /\ Resource.available_capacity <$> resources w' = [4]
  /\ EmergencyRequest.status <$> requests w' = [RequestStatus.MATCHED]
  /\ sessions w' = ∅.
Proof. vm_compute. repeat split. Qed.

(* ===================================================================== *)
(** * Further properties of the code *)
(* ===================================================================== *)

(** ** Telephone numbers ([SecurityService]) *)

Lemma str_chars (s : string) : Py.str (Py.chars s) = s.
Proof. apply string_of_list_ascii_of_string. Qed.

Lemma length_str (l : list ascii) : String.length (Py.str l) = length l.
Proof. induction l as [| c l IH]; simpl; [reflexivity | now rewrite IH]. Qed.

Lemma str_app (l k : list ascii) : Py.str (l ++ k) = Py.str l +:+ Py.str k.
Proof. induction l as [| c l IH]; simpl; [reflexivity | now rewrite IH]. Qed.

Lemma substring_all (s : string) : String.substring 0 (String.length s) s = s.
Proof. induction s as [| c s IH]; simpl; [reflexivity | now rewrite IH]. Qed.

Lemma filter_twice {A : Type} (f : A -> bool) (l : list A) :
  List.filter f (List.filter f l) = List.filter f l.
Proof.
  induction l as [| x l IH]; simpl; [reflexivity |].
  destruct (f x) eqn:Hx; simpl; [rewrite Hx; now rewrite IH | exact IH].
Qed.

Lemma filter_all {A : Type} (f : A -> bool) (l : list A) :
  forallb f l = true -> List.filter f l = l.
Proof.
  induction l as [| x l IH]; simpl; [reflexivity |].
  intros [Hx Hl]%andb_true_iff. rewrite Hx. now rewrite IH.
Qed.

Lemma newline_no_digit : Py.is_digit Re.newline = false.
Proof. reflexivity. Qed.

(** On a text without newline a sequence of classes matches exactly the
    texts of its length whose characters are in the classes, in order. *)
Lemma match_classes_spec (p : list (ascii -> bool)) (s : list ascii) :
  forallb Py.is_digit s = true ->
  Re.match_classes p s = true <-> Forall2 (fun k c => k c = true) p s.
Proof.
  revert s. induction p as [| k p IH]; intros s Hs.
  - destruct s as [| c s]; simpl.
    + split; [constructor | reflexivity].
    + simpl in Hs. apply andb_true_iff in Hs as [Hc _].
      split; [| intros Hf; inversion Hf].
      intros [Hn _]%andb_true_iff. apply Ascii.eqb_eq in Hn. subst c.
      rewrite newline_no_digit in Hc. discriminate.
  - destruct s as [| c s]; simpl.
    + split; [discriminate | intros Hf; inversion Hf].
    + simpl in Hs. apply andb_true_iff in Hs as [_ Hs].
      rewrite andb_true_iff, (IH s Hs).
      split; [intros [Hk Hf]; now constructor |].
      intros Hf. inversion Hf; subst. tauto.
Qed.

Lemma literal_spec (text : string) (s : list ascii) :
  Forall2 (fun k c => k c = true) (Re.literal text) s -> s = Py.chars text.
Proof.
  unfold Re.literal. revert s.
  induction (Py.chars text) as [| c l IH]; intros s Hf; simpl in Hf.
  - now inversion Hf.
  - inversion Hf as [| k d ks s' Hk Hrest]; subst.
    apply Ascii.eqb_eq in Hk. subst d. f_equal. now apply IH.
Qed.

Lemma literal_refl (text : string) :
  Forall2 (fun k c => k c = true) (Re.literal text) (Py.chars text).
Proof.
  unfold Re.literal. induction (Py.chars text) as [| c l IH]; simpl;
    constructor; [apply Ascii.eqb_refl | exact IH].
Qed.

(** A national number: ten digits, the first 7, 8 or 9 and the second 0
    or 1. *)
Lemma national_spec (n : list ascii) :
  Forall2 (fun k c => k c = true) SecurityService.national n ->
  length n = 10%nat
  /\ forallb Py.is_digit n = true
  /\ exists c n', n = c :: n' /\ (c = "7" \/ c = "8" \/ c = "9")%char.
Proof.
  intros Hf. split; [| split].
  - apply Forall2_length in Hf. now rewrite <- Hf.
  - unfold SecurityService.national in Hf. simpl in Hf.
    repeat match goal with
           | H : Forall2 _ (_ :: _) _ |- _ =>
               inversion H; subst; clear H
           | H : Forall2 _ [] _ |- _ => inversion H; subst; clear H
           end.
    simpl.
    repeat match goal with
           | H : Re.one_of _ ?c = true |- _ =>
               unfold Re.one_of in H; simpl in H;
               rewrite !orb_true_iff, !Ascii.eqb_eq in H;
               assert (Py.is_digit c = true)
                 by (decompose [or] H; subst; try reflexivity; discriminate);
               clear H
           end.
    repeat match goal with
           | H : Py.is_digit _ = true |- _ => rewrite H; clear H
           end.
    reflexivity.
  - unfold SecurityService.national in Hf. simpl in Hf.
    inversion Hf as [| k c ks n' Hk Hrest]; subst.
    exists c, n'. split; [reflexivity |].
    unfold Re.one_of in Hk. simpl in Hk.
    rewrite !orb_true_iff, !Ascii.eqb_eq in Hk.
    decompose [or] Hk; subst; try tauto; discriminate.
Qed.

Lemma digits_of_digits (l : list ascii) :
  forallb Py.is_digit (List.filter Py.is_digit l) = true.
Proof.
  induction l as [| c l IH]; simpl; [reflexivity |].
  destruct (Py.is_digit c) eqn:Hc; simpl; [now rewrite Hc | exact IH].
Qed.

(** What [validate_phone_number] accepts, on the digits of the number. *)
Lemma validate_phone_number_digits (p : string) :
  SecurityService.validate_phone_number p = true <->
  p <> ""
  /\ exists n,
       Forall2 (fun k c => k c = true) SecurityService.national n
       /\ (List.filter Py.is_digit (Py.chars p) = Py.chars "234" ++ n
           \/ List.filter Py.is_digit (Py.chars p) = Py.chars "0" ++ n
           \/ List.filter Py.is_digit (Py.chars p) = n).
Proof.
  unfold SecurityService.validate_phone_number.
  destruct (String.eqb_spec p "") as [-> | Hp].
  { split; [discriminate | intros [Hne _]; now contradiction Hne]. }
  rewrite chars_str.
  set (d := List.filter Py.is_digit (Py.chars p)).
  assert (Hd : forallb Py.is_digit d = true) by apply digits_of_digits.
  unfold SecurityService.patterns.
  cbn [existsb]. rewrite !orb_true_iff, !match_classes_spec by exact Hd.
  split.
  - intros H. split; [exact Hp |].
    destruct H as [H | [H | [H | H]]]; [| | | discriminate].
    + apply Forall2_app_inv_l in H as (a & n & Ha & Hn & ->).
      apply literal_spec in Ha as ->. exists n. tauto.
    + apply Forall2_app_inv_l in H as (a & n & Ha & Hn & ->).
      apply literal_spec in Ha as ->. exists n. tauto.
    + exists d. tauto.
  - intros (_ & n & Hn & [H | [H | H]]); rewrite H.
    + left. apply Forall2_app; [apply literal_refl | exact Hn].
    + right; left. apply Forall2_app; [apply literal_refl | exact Hn].
    + right; right; left. exact Hn.
Qed.

(** The digits of [+234] followed by digits. *)
Lemma digits_of_international (n : list ascii) :
  forallb Py.is_digit n = true ->
  List.filter Py.is_digit (Py.chars ("+234" +:+ Py.str n))
  = Py.chars "234" ++ n.
Proof.
  intros Hn. rewrite chars_append, chars_str, List.filter_app.
  now rewrite (filter_all _ n Hn).
Qed.

Lemma prefix_empty (s : string) : String.prefix "" s = true.
Proof. now destruct s. Qed.

Lemma prefix_one (a b : ascii) (s : string) :
  String.prefix (String a "") (String b s) = true -> a = b.
Proof.
  cbn -[ascii_dec]. destruct (ascii_dec a b); [auto | discriminate].
Qed.

Lemma normalize_national (p : string) (n : list ascii) :
  p <> "" ->
  Forall2 (fun k c => k c = true) SecurityService.national n ->
  List.filter Py.is_digit (Py.chars p) = Py.chars "234" ++ n
  \/ List.filter Py.is_digit (Py.chars p) = Py.chars "0" ++ n
  \/ List.filter Py.is_digit (Py.chars p) = n ->
  SecurityService.normalize_phone_number p = Some ("+234" +:+ Py.str n).
Proof.
  intros Hp Hn Hd. unfold SecurityService.normalize_phone_number.
  destruct (String.eqb_spec p "") as [-> | _]; [now contradiction Hp |].
  destruct (national_spec n Hn) as (Hlen & _ & c & n' & -> & Hc).
  destruct Hd as [-> | [-> | ->]].
  - reflexivity.
  - cbn -[String.append]. now rewrite substring_all.
  - unfold Py.len. rewrite length_str, Hlen.
    destruct Hc as [-> | [-> | ->]]; reflexivity.
Qed.

(** X1: a number that [validate_phone_number] accepts is brought by
    [normalize_phone_number] to [+234] followed by its national number,
    ten digits of which the first is 7, 8 or 9 and the second 0 or 1,
    whichever of the three spellings was given; and the normalised number
    is accepted again. *)
Theorem validated_number_normalises_to_international (p : string) :
  SecurityService.validate_phone_number p = true ->
  exists n,
    String.length n = 10%nat
    /\ Re.match_classes SecurityService.national (Py.chars n) = true
    /\ SecurityService.normalize_phone_number p = Some ("+234" +:+ n)
    /\ SecurityService.validate_phone_number ("+234" +:+ n) = true.
Proof.
  intros Hv. apply validate_phone_number_digits in Hv as (Hp & n & Hn & Hd).
  destruct (national_spec n Hn) as (Hlen & Hdig & _).
  exists (Py.str n).
  split; [now rewrite length_str |].
  split; [rewrite chars_str; now apply match_classes_spec |].
  split; [now apply normalize_national |].
  apply validate_phone_number_digits. split; [discriminate |].
  exists n. split; [exact Hn |]. left. now apply digits_of_international.
Qed.

Lemma validated_number_normalises_to_international_witness :
  SecurityService.validate_phone_number "0801 234 5678" = true
  /\ exists n,
       String.length n = 10%nat
       /\ Re.match_classes SecurityService.national (Py.chars n) = true
       /\ SecurityService.normalize_phone_number "0801 234 5678"
          = Some ("+234" +:+ n)
       /\ SecurityService.validate_phone_number ("+234" +:+ n) = true.
Proof.
  split; [reflexivity |].
  apply (validated_number_normalises_to_international "0801 234 5678").
  reflexivity.
Defined.

(** X2: [normalize_phone_number] is idempotent: normalising a number it
    has returned gives that number back. *)
Theorem normalize_phone_number_idempotent (p q : string) :
  SecurityService.normalize_phone_number p = Some q ->
  SecurityService.normalize_phone_number q = Some q.
Proof.
  unfold SecurityService.normalize_phone_number at 1.
  destruct (String.eqb_spec p "") as [-> | Hp]; [discriminate |].
  set (d := List.filter Py.is_digit (Py.chars p)).
  assert (Hd : forallb Py.is_digit d = true) by apply digits_of_digits.
  assert (Hplus : forall t : list ascii,
             forallb Py.is_digit t = true ->
             SecurityService.normalize_phone_number ("+234" +:+ Py.str t)
             = Some ("+234" +:+ Py.str t)).
  { intros t Ht. unfold SecurityService.normalize_phone_number.
    rewrite digits_of_international by exact Ht. simpl.
    now rewrite prefix_empty. }
  destruct (String.prefix "234" (Py.str d)) eqn:H234.
  { intros [= <-]. unfold SecurityService.normalize_phone_number.
    cbn -[String.append String.prefix Py.str].
    change (Py.chars ("+" +:+ Py.str d))
      with ("+"%char :: Py.chars (Py.str d)).
    rewrite chars_str. cbn [List.filter]. 
    change (Py.is_digit "+") with false. cbv iota.
    rewrite (filter_all _ d Hd), H234. reflexivity. }
  destruct (String.prefix "0" (Py.str d)) eqn:H0.
  { intros [= <-].
    destruct d as [| c d']; [discriminate |].
    apply prefix_one in H0 as <-.
    cbn -[String.append]. rewrite Nat.sub_0_r, substring_all.
    simpl in Hd. apply Hplus. exact Hd. }
  destruct (Py.len (Py.str d) =? 10) eqn:Hlen.
  { intros [= <-]. now apply Hplus. }
  intros [= <-]. unfold SecurityService.normalize_phone_number.
  destruct (String.eqb_spec p "") as [-> | _]; [now contradiction Hp |].
  fold d. now rewrite H234, H0, Hlen.
Qed.

Lemma normalize_phone_number_idempotent_witness :
  SecurityService.normalize_phone_number "0801-234-5678"
  = Some "+2348012345678"
  /\ SecurityService.normalize_phone_number "+2348012345678"
     = Some "+2348012345678".
Proof.
  split; [reflexivity |].
  apply (normalize_phone_number_idempotent "0801-234-5678"). reflexivity.
Defined.

(** ** Capacity check and request patterns ([FraudDetection]) *)

(** X3: [check_provider_capacity_fraud] lets a quantity through exactly
    when the resource exists and [update_capacity] would accept that
    quantity on it. *)
Theorem capacity_check_agrees_with_update_capacity (table : list Resource.t)
    (resource_id requested_quantity : Z) :
  FraudDetection.check_provider_capacity_fraud table resource_id
    requested_quantity = false
  <-> exists resource,
        Resource_get resource_id table = Some resource
        /\ fst (Resource.update_capacity resource requested_quantity) = true.
Proof.
  unfold FraudDetection.check_provider_capacity_fraud.
  assert (Hup : forall r : Resource.t,
             fst (Resource.update_capacity r requested_quantity) = true
             <-> requested_quantity <= Resource.available_capacity r).
  { intros r. unfold Resource.update_capacity.
    destruct (Z.geb_spec (Resource.available_capacity r) requested_quantity);
      simpl; split; intros; first [reflexivity | discriminate | lia]. }
  destruct (Resource_get resource_id table) as [resource |].
  - destruct (Z.gtb_spec requested_quantity
                (Resource.available_capacity resource)) as [Hgt | Hle].
    + split; [discriminate |]. intros (r & [= <-] & Hok).
      apply Hup in Hok. lia.
    + split; [| reflexivity]. intros _. exists resource.
      split; [reflexivity | apply Hup; lia].
  - split; [discriminate | intros (r & [=] & _)].
Qed.







(** ** Identifiers ([EmergencyRequest], [Payment]) *)

Lemma strftime_ymd_shape (t : Z) :
  exists a b c d e f,
    Clock.strftime_ymd t
    = String a (String b (String c (String d (String e (String f "")))))
    /\ forallb Py.is_digit [a; b; c; d; e; f] = true.
Proof.
  unfold Clock.strftime_ymd.
  pose proof (civil_from_days_range (Clock.day_number t)) as Hrange.
  destruct (Clock.civil_from_days (Clock.day_number t)) as [[y m] d].
  destruct Hrange as [Hm Hd].
  destruct (two_digits_shape (y mod 100)) as (y1 & y2 & -> & Hy1 & Hy2);
    [apply Z.mod_pos_bound; lia |].
  destruct (two_digits_shape m) as (m1 & m2 & -> & Hm1 & Hm2); [lia |].
  destruct (two_digits_shape d) as (d1 & d2 & -> & Hd1 & Hd2); [lia |].
  exists y1, y2, m1, m2, d1, d2. split; [reflexivity |].
  simpl. now rewrite Hy1, Hy2, Hm1, Hm2, Hd1, Hd2.
Qed.

Lemma second_of_day_range (t : Z) : 0 <= Clock.second_of_day t < 86400.
Proof. unfold Clock.second_of_day. Z.div_mod_to_equations. lia. Qed.

Lemma hex_byte_upper_shape (b : Byte.byte) :
  exists c d,
    Py.upper (Clock.hex_byte b) = String c (String d "")
    /\ (Clock.is_hex c && negb (Py.is_lower c)) = true
    /\ (Clock.is_hex d && negb (Py.is_lower d)) = true.
Proof.
  do 2 eexists. split; [reflexivity |].
  split; destruct b; reflexivity.
Qed.

(** X5: a transaction identifier is always [TXN] followed by twelve
    decimal digits and eight upper-case hexadecimal characters, 23
    characters in all. *)
Theorem generate_transaction_id_shape (now : Z) (b0 b1 b2 b3 : Byte.byte) :
  Payment.is_transaction_id
    (Payment.generate_transaction_id now b0 b1 b2 b3) = true.
Proof.
  unfold Payment.generate_transaction_id, Clock.strftime_ymdHMS,
    Clock.token_hex4.
  destruct (strftime_ymd_shape now) as (a & b & c & d & e & f & -> & Hymd).
  pose proof (second_of_day_range now) as Hs.
  set (s := Clock.second_of_day now) in *.
  destruct (two_digits_shape (s / 3600)) as (h1 & h2 & -> & Hh1 & Hh2);
    [Z.div_mod_to_equations; lia |].
  destruct (two_digits_shape ((s mod 3600) / 60))
    as (m1 & m2 & -> & Hm1 & Hm2); [Z.div_mod_to_equations; lia |].
  destruct (two_digits_shape (s mod 60)) as (s1 & s2 & -> & Hs1 & Hs2);
    [Z.div_mod_to_equations; lia |].
  rewrite !upper_append.
  destruct (hex_byte_upper_shape b0) as (x1 & x2 & -> & Hx1 & Hx2).
  destruct (hex_byte_upper_shape b1) as (x3 & x4 & -> & Hx3 & Hx4).
  destruct (hex_byte_upper_shape b2) as (x5 & x6 & -> & Hx5 & Hx6).
  destruct (hex_byte_upper_shape b3) as (x7 & x8 & -> & Hx7 & Hx8).
  unfold Payment.is_transaction_id.
  cbn [forallb] in Hymd. rewrite !andb_true_iff in Hymd.
  destruct Hymd as (Ha & Hb & Hc & Hd & He & Hf & _).
  simpl.
  now rewrite Ha, Hb, Hc, Hd, He, Hf, Hh1, Hh2, Hm1, Hm2, Hs1, Hs2,
    Hx1, Hx2, Hx3, Hx4, Hx5, Hx6, Hx7, Hx8.
Qed.

(** The upper-case hexadecimal text of a byte determines the byte. *)
Lemma hex_byte_upper_inj (b c : Byte.byte) :
  Py.upper (Clock.hex_byte b) = Py.upper (Clock.hex_byte c) -> b = c.
Proof.
  intros Heq.
  set (value := fun ch : ascii =>
                  if (Py.code ch <? 58)%N then (Py.code ch - 48)%N
                  else (Py.code ch - 55)%N).
  set (decode := fun s : string =>
                   match s with
                   | String hi (String lo _) => (16 * value hi + value lo)%N
                   | _ => 0%N
                   end).
  assert (Hdec : forall x, decode (Py.upper (Clock.hex_byte x)) = Byte.to_N x).
  { intros x. destruct x; reflexivity. }
  assert (HN : Byte.to_N b = Byte.to_N c).
  { rewrite <- (Hdec b), <- (Hdec c). now rewrite Heq. }
  apply (f_equal Byte.of_N) in HN. rewrite !Byte.of_to_N in HN.
  now injection HN.
Qed.

(** X6: two reference numbers are equal exactly when they carry the same
    date digits and were built from the same three random bytes; on one
    date the random bytes alone tell reference numbers apart. *)
Theorem reference_numbers_equal_iff (now now' : Z)
    (b0 b1 b2 c0 c1 c2 : Byte.byte) :
  EmergencyRequest.generate_reference_number now b0 b1 b2
  = EmergencyRequest.generate_reference_number now' c0 c1 c2
  <-> Clock.strftime_ymd now = Clock.strftime_ymd now'
      /\ b0 = c0 /\ b1 = c1 /\ b2 = c2.
Proof.
  split.
  - unfold EmergencyRequest.generate_reference_number, Clock.token_hex3.
    destruct (strftime_ymd_shape now) as (a & b & c & d & e & f & -> & _).
    destruct (strftime_ymd_shape now')
      as (a' & b' & c' & d' & e' & f' & -> & _).
    rewrite !upper_append.
    destruct (hex_byte_upper_shape b0) as (x1 & x2 & E0 & _).
    destruct (hex_byte_upper_shape b1) as (x3 & x4 & E1 & _).
    destruct (hex_byte_upper_shape b2) as (x5 & x6 & E2 & _).
    destruct (hex_byte_upper_shape c0) as (y1 & y2 & F0 & _).
    destruct (hex_byte_upper_shape c1) as (y3 & y4 & F1 & _).
    destruct (hex_byte_upper_shape c2) as (y5 & y6 & F2 & _).
    rewrite E0, E1, E2, F0, F1, F2. cbn.
    intros [= -> -> -> -> -> -> -> -> -> -> -> ->].
    split; [reflexivity |].
    split; [apply hex_byte_upper_inj; congruence |].
    split; apply hex_byte_upper_inj; congruence.
  - intros (Hdate & -> & -> & ->).
    unfold EmergencyRequest.generate_reference_number. now rewrite Hdate.
Qed.

(** ** Maintenance ([cleanup_expired_sessions], [cleanup_old_audit_logs]) *)

Lemma fold_delete_lookup {A : Type} (l : list (string * A))
    (m : gmap string A) (k : string) :
  fold_left (fun table row => delete (fst row) table) l m !! k
  = if decide (k ∈ l.*1) then None else m !! k.
Proof.
  revert m. induction l as [| [j x] l IH]; intros m; simpl.
  - destruct (decide (k ∈ [])) as [Hin | _]; [| reflexivity].
    now apply not_elem_of_nil in Hin.
  - rewrite IH.
    destruct (decide (k ∈ l.*1)) as [Hin | Hout].
    + rewrite decide_True by (now right). reflexivity.
    + destruct (decide (k = j)) as [-> | Hne].
      * rewrite decide_True by (now left). apply lookup_delete_eq.
      * rewrite decide_False.
        -- now apply lookup_delete_ne.
        -- intros [? | ?]%elem_of_cons; contradiction.
Qed.

Lemma fold_delete_size {A : Type} (l : list (string * A))
    (m : gmap string A) :
  NoDup (l.*1) ->
  (forall row, row ∈ l -> is_Some (m !! fst row)) ->
  (size (fold_left (fun table row => delete (fst row) table) l m)
   + length l = size m)%nat.
Proof.
  revert m. induction l as [| [j x] l IH]; intros m Hnd Hin; simpl.
  - lia.
  - apply NoDup_cons in Hnd as [Hj Hnd].
    assert (Hrest : forall row, row ∈ l -> is_Some (delete j m !! fst row)).
    { intros [i y] Hrow. simpl. rewrite lookup_delete_ne.
      - apply (Hin (i, y)). now right.
      - intros ->. apply Hj. apply list_elem_of_fmap. now exists (i, y). }
    specialize (IH (delete j m) Hnd Hrest).
    rewrite map_size_delete_Some in IH by (apply (Hin (j, x)); now left).
    assert (size m <> 0)%nat.
    { intros Hz. apply map_size_empty_inv in Hz. subst m.
      destruct (Hin (j, x)) as [? Hl]; [now left |].
      now rewrite lookup_empty in Hl. }
    lia.
Qed.

Lemma filter_fst_NoDup {A : Type} (f : string * A -> bool)
    (l : list (string * A)) :
  NoDup (l.*1) -> NoDup ((List.filter f l).*1).
Proof.
  induction l as [| row l IH]; simpl; [trivial |].
  intros [Hrow Hnd]%NoDup_cons. destruct (f row); [| now apply IH].
  simpl. apply NoDup_cons. split; [| now apply IH].
  intros (row' & Heq & Hin)%list_elem_of_fmap. apply Hrow.
  apply list_elem_of_fmap. exists row'. split; [exact Heq |].
  apply list_elem_of_In. apply list_elem_of_In, filter_In in Hin. tauto.
Qed.

(** X7: [cleanup_expired_sessions] removes exactly the sessions that
    [is_expired] calls expired at the clock reading it takes, leaves
    every other session as it was, returns the number of rows removed and
    touches no other table. *)
Theorem cleanup_expired_sessions_spec `{Runtime} (w : world) :
  let now := utcnow_at (clock_reads w) in
  exists count w',
    cleanup_expired_sessions w = (Ok count, w')
    /\ (forall k s,
           sessions w' !! k = Some s
           <-> sessions w !! k = Some s
               /\ USSDSession.is_expired now s = false)
    /\ count = Z.of_nat (size (sessions w)) - Z.of_nat (size (sessions w'))
    /\ same_tables w w'.
Proof.
  intros now.
  unfold cleanup_expired_sessions, bind, utcnow, get, modify, ret.
  cbn [fst snd sessions clock_reads with_clock_reads with_sessions].
  fold now.
  set (expired := List.filter _ (map_to_list (sessions w))).
  do 2 eexists. split; [reflexivity |].
  cbn [sessions with_sessions with_clock_reads].
  assert (Hexp : forall k s,
             (k, s) ∈ expired
             <-> sessions w !! k = Some s
                 /\ USSDSession.is_expired now s = true).
  { intros k s. unfold expired.
    rewrite list_elem_of_In, filter_In, <- list_elem_of_In,
      elem_of_map_to_list.
    unfold USSDSession.is_expired. simpl. now rewrite Z.gtb_ltb. }
  split; [| split].
  - intros k s. rewrite fold_delete_lookup.
    destruct (decide (k ∈ expired.*1)) as [Hin | Hout].
    + apply list_elem_of_fmap in Hin as ([k' s'] & -> & Hin). simpl.
      apply Hexp in Hin as [Hk Hs'].
      split; [discriminate |]. intros [Hk' Hs]. congruence.
    + split.
      * intros Hk. split; [exact Hk |].
        destruct (USSDSession.is_expired now s) eqn:Hs; [| reflexivity].
        exfalso. apply Hout. apply list_elem_of_fmap. exists (k, s).
        split; [reflexivity |]. now apply Hexp.
      * tauto.
  - pose proof (fold_delete_size expired (sessions w)) as Hsize.
    rewrite <- Hsize.
    + lia.
    + apply filter_fst_NoDup, NoDup_fst_map_to_list.
    + intros [k s] Hrow. apply Hexp in Hrow as [Hk _]. simpl. eauto.
  - repeat split.
Qed.

Lemma filter_filter_implied {A : Type} (f g : A -> bool) (l : list A) :
  (forall x, f x = true -> g x = true) ->
  List.filter f (List.filter g l) = List.filter f l.
Proof.
  intros Himp. induction l as [| x l IH]; simpl; [reflexivity |].
  destruct (g x) eqn:Hg; simpl.
  - now rewrite IH.
  - destruct (f x) eqn:Hf; [| exact IH].
    apply Himp in Hf. congruence.
Qed.

Lemma filter_split_length {A : Type} (f : A -> bool) (l : list A) :
  (length (List.filter f l)
   + length (List.filter (fun x => negb (f x)) l) = length l)%nat.
Proof.
  induction l as [| x l IH]; simpl; [reflexivity |].
  destruct (f x); simpl; lia.
Qed.

(** X8: [cleanup_old_audit_logs] with a retention of at least one day
    deletes the rows older than the retention period, keeps the others
    in their order and returns the number of rows deleted; when the
    clock does not go backwards, the rate limit and the
    suspicious-activity check that run after it answer as they would
    have without the cleanup. *)
Theorem cleanup_old_audit_logs_keeps_recent `{Runtime}
    (retention_days : Z) (w : world) :
  1 <= retention_days ->
  (forall n, utcnow_at n <= utcnow_at (S n)) ->
  let cutoff := utcnow_at (clock_reads w) - Clock.days retention_days in
  let untouched := with_clock_reads (S (clock_reads w)) w in
  exists count w',
    cleanup_old_audit_logs retention_days w = (Ok count, w')
    /\ audit_logs w'
       = List.filter (fun l => negb (AuditLog.timestamp l <? cutoff))
           (audit_logs w)
    /\ count + Z.of_nat (length (audit_logs w'))
       = Z.of_nat (length (audit_logs w))
    /\ (forall user action limit,
           fst (is_rate_limited user action limit w')
           = fst (is_rate_limited user action limit untouched))
    /\ (forall user_id action details,
           fst (SecurityService.detect_suspicious_activity user_id action
                  details w')
           = fst (SecurityService.detect_suspicious_activity user_id action
                    details untouched)).
Proof.
  intros Hdays Hclock cutoff untouched.
  unfold cleanup_old_audit_logs, bind, utcnow, get, modify, ret.
  cbn [fst snd audit_logs clock_reads with_clock_reads with_audit_logs].
  fold cutoff.
  do 2 eexists. split; [reflexivity |].
  cbn [audit_logs with_audit_logs with_clock_reads].
  set (keep := fun l : AuditLog.t => negb (AuditLog.timestamp l <? cutoff)).
  assert (H1 : utcnow_at (clock_reads w) <= utcnow_at (S (clock_reads w)))
    by apply Hclock.
  assert (H2 : utcnow_at (clock_reads w) <= utcnow_at (S (S (clock_reads w)))).
  { specialize (Hclock (S (clock_reads w))). lia. }
  assert (Hkeep : forall (l : AuditLog.t) (t : Z),
             utcnow_at (clock_reads w) <= t ->
             (AuditLog.timestamp l >? t - Clock.hours 1) = true ->
             keep l = true).
  { intros l t Ht Hl. unfold keep. apply negb_true_iff, Z.ltb_ge.
    apply Z.gtb_gt in Hl. unfold cutoff, Clock.days, Clock.hours in *. lia. }
  assert (Hkeep5 : forall (l : AuditLog.t) (t : Z),
             utcnow_at (clock_reads w) <= t ->
             (AuditLog.timestamp l >? t - Clock.minutes 5) = true ->
             keep l = true).
  { intros l t Ht Hl. unfold keep. apply negb_true_iff, Z.ltb_ge.
    apply Z.gtb_gt in Hl. unfold cutoff, Clock.days, Clock.minutes in *. lia. }
  split; [reflexivity |].
  split.
  { pose proof (filter_split_length
                  (fun l => AuditLog.timestamp l <? cutoff) (audit_logs w))
      as Hsplit.
    unfold keep. lia. }
  split.
  - intros user action limit.
    unfold is_rate_limited, bind, utcnow, get, ret, untouched.
    cbn [fst snd audit_logs clock_reads with_clock_reads with_audit_logs].
    rewrite filter_filter_implied; [reflexivity |].
    intros l [_ Hl]%andb_true_iff. now apply (Hkeep l _ H1).
  - intros user_id action details.
    unfold SecurityService.detect_suspicious_activity, bind, utcnow, get,
      ret, untouched.
    cbn [fst snd audit_logs clock_reads with_clock_reads with_audit_logs].
    destruct (user_id =? 0); [reflexivity |].
    cbn [fst snd audit_logs clock_reads with_clock_reads with_audit_logs].
    rewrite filter_filter_implied.
    2:{ intros l [_ Hl]%andb_true_iff. now apply (Hkeep5 l _ H1). }
    destruct (_ >? 5); [reflexivity |].
    destruct details as [d |]; [| reflexivity].
    destruct (bool_decide (d ≠ ∅) && bool_decide (is_Some (d !! "location")));
      [| reflexivity].
    cbn [fst snd audit_logs clock_reads with_clock_reads with_audit_logs].
    rewrite filter_filter_implied.
    2:{ intros l [[_ Hl]%andb_true_iff _]%andb_true_iff.
        now apply (Hkeep l _ H2). }
    destruct (_ >? 3); reflexivity.
Qed.

Lemma cleanup_old_audit_logs_keeps_recent_witness :
  exists count w',
    @cleanup_old_audit_logs first_process 90 (database [] [])
    = (Ok count, w')
    /\ forall user action limit,
         fst (@is_rate_limited first_process user action limit w')
         = fst (@is_rate_limited first_process user action limit
                  (with_clock_reads 1 (database [] []))).
Proof.
  destruct (@cleanup_old_audit_logs_keeps_recent first_process 90
              (database [] []))
    as (count & w' & Hrun & _ & _ & Hrate & _).
  - lia.
  - intros n. simpl. lia.
  - exists count, w'. split; [exact Hrun | exact Hrate].
Defined.

(** ** Utilisation statistics ([get_resource_utilization_stats]) *)

Lemma fold_left_Zadd (l : list Z) (a : Z) :
  fold_left Z.add l a = a + fold_left Z.add l 0.
Proof.
  revert a. induction l as [| x l IH]; intros a; cbn [fold_left]; [lia |].
  rewrite (IH (a + x)), (IH (0 + x)). lia.
Qed.

(** The rows that [utilization_of] counts for a type. *)
Lemma utilization_of_counts (table : list Resource.t) (ty : ResourceType.t) :
  let rows :=
    List.filter (fun r => bool_decide (Resource.resource_type r = ty)
                          && Resource.is_active r) table in
  MatchingService.total_resources (MatchingService.utilization_of table ty)
  = Z.of_nat (length rows)
  /\ MatchingService.total_capacity (MatchingService.utilization_of table ty)
     = fold_left Z.add (Resource.total_capacity <$> rows) 0
  /\ MatchingService.available_capacity
       (MatchingService.utilization_of table ty)
     = fold_left Z.add (Resource.available_capacity <$> rows) 0
  /\ MatchingService.utilized_capacity
       (MatchingService.utilization_of table ty)
     = MatchingService.total_capacity (MatchingService.utilization_of table ty)
       - MatchingService.available_capacity
           (MatchingService.utilization_of table ty).
Proof.
  intros rows. unfold MatchingService.utilization_of. fold rows.
  destruct rows; simpl; repeat split; reflexivity.
Qed.

Lemma stats_lookup (table : list Resource.t) (ty : ResourceType.t) :
  MatchingService.get_resource_utilization_stats table
    !! ResourceType.value ty
  = Some (MatchingService.utilization_of table ty).
Proof.
  unfold MatchingService.get_resource_utilization_stats. cbn [fold_left].
  destruct ty; cbn [ResourceType.value].
  - rewrite lookup_insert_ne by discriminate.
    rewrite lookup_insert_ne by discriminate.
    apply lookup_insert_eq.
  - rewrite lookup_insert_ne by discriminate.
    apply lookup_insert_eq.
  - apply lookup_insert_eq.
Qed.

Lemma active_rows_by_type (f : Resource.t -> Z) (table : list Resource.t) :
  let rows ty :=
    List.filter (fun r => bool_decide (Resource.resource_type r = ty)
                          && Resource.is_active r) table in
  fold_left Z.add (f <$> rows ResourceType.SHELTER) 0
  + fold_left Z.add (f <$> rows ResourceType.FOOD) 0
  + fold_left Z.add (f <$> rows ResourceType.TRANSPORT) 0
  = fold_left Z.add (f <$> List.filter Resource.is_active table) 0.
Proof.
  intros rows. unfold rows. clear rows.
  induction table as [| r table IH]; [reflexivity |].
  cbn [List.filter].
  destruct (Resource.is_active r); [| rewrite !andb_false_r; exact IH].
  rewrite !andb_true_r.
  destruct (Resource.resource_type r) eqn:Hty;
    repeat case_bool_decide; try congruence;
    cbn [fmap list_fmap fold_left];
    rewrite !(fold_left_Zadd _ (0 + f r));
    cbn [fmap list_fmap] in IH; lia.
Qed.

(** X9: the utilisation statistics have an entry for each of the three
    resource types; in every entry the total capacity is the available
    plus the utilised capacity; resources that are not active are left
    out, and every active resource is counted under exactly one type, so
    that the three entries add up to the number, the total capacity and
    the available capacity of the active resources. *)
Theorem utilization_stats_partition (table : list Resource.t) :
  let stats := MatchingService.get_resource_utilization_stats table in
  let active := List.filter Resource.is_active table in
  exists shelter food transport,
    stats !! "shelter" = Some shelter
    /\ stats !! "food" = Some food
    /\ stats !! "transport" = Some transport
    /\ (forall u, u = shelter \/ u = food \/ u = transport ->
                  MatchingService.total_capacity u
                  = MatchingService.available_capacity u
                    + MatchingService.utilized_capacity u)
    /\ MatchingService.total_resources shelter
       + MatchingService.total_resources food
       + MatchingService.total_resources transport
       = Z.of_nat (length active)
    /\ MatchingService.total_capacity shelter
       + MatchingService.total_capacity food
       + MatchingService.total_capacity transport
       = fold_left Z.add (Resource.total_capacity <$> active) 0
    /\ MatchingService.available_capacity shelter
       + MatchingService.available_capacity food
       + MatchingService.available_capacity transport
       = fold_left Z.add (Resource.available_capacity <$> active) 0
    /\ stats
       = MatchingService.get_resource_utilization_stats active.
Proof.
  intros stats active.
  exists (MatchingService.utilization_of table ResourceType.SHELTER),
    (MatchingService.utilization_of table ResourceType.FOOD),
    (MatchingService.utilization_of table ResourceType.TRANSPORT).
  split; [apply (stats_lookup table ResourceType.SHELTER) |].
  split; [apply (stats_lookup table ResourceType.FOOD) |].
  split; [apply (stats_lookup table ResourceType.TRANSPORT) |].
  destruct (utilization_of_counts table ResourceType.SHELTER)
    as (Hs1 & Hs2 & Hs3 & Hs4).
  destruct (utilization_of_counts table ResourceType.FOOD)
    as (Hf1 & Hf2 & Hf3 & Hf4).
  destruct (utilization_of_counts table ResourceType.TRANSPORT)
    as (Ht1 & Ht2 & Ht3 & Ht4).
  split; [intros u [-> | [-> | ->]]; lia |].
  split.
  { rewrite Hs1, Hf1, Ht1.
    pose proof (active_rows_by_type (fun _ => 1) table) as Hone.
    cbv zeta in Hone.
    assert (Hlen : forall l : list Resource.t,
               fold_left Z.add ((fun _ => 1) <$> l) 0 = Z.of_nat (length l)).
    { induction l as [| x l IH]; [reflexivity |].
      cbn [fmap list_fmap fold_left length].
      rewrite fold_left_Zadd, IH. lia. }
    rewrite !Hlen in Hone. exact Hone. }
  split; [rewrite Hs2, Hf2, Ht2; apply active_rows_by_type |].
  split; [rewrite Hs3, Hf3, Ht3; apply active_rows_by_type |].
  assert (Hsame : forall ty,
             MatchingService.utilization_of active ty
             = MatchingService.utilization_of table ty).
  { intros ty. unfold MatchingService.utilization_of, active.
    rewrite filter_filter_implied; [reflexivity |].
    now intros r [_ Hr]%andb_true_iff. }
  unfold stats, MatchingService.get_resource_utilization_stats.
  cbn [fold_left]. now rewrite !Hsame.
Qed.

Lemma round_half_even_bounds (x : R) (n : Z) :
  (0 <= x <= IZR n)%R -> 0 <= Py.round_half_even x <= n.
Proof.
  intros [Hlo Hhi]. unfold Py.round_half_even.
  destruct (base_Int_part x) as [Hle Hgt].
  assert (Hfrac : frac_part x = (x - IZR (Int_part x))%R) by reflexivity.
  assert (Hfloor_lo : 0 <= Int_part x).
  { apply Z.lt_succ_r. apply lt_IZR. rewrite succ_IZR. lra. }
  assert (Hfloor_hi : Int_part x <= n).
  { apply le_IZR. lra. }
  destruct (Z.eq_dec (Int_part x) n) as [Heq | Hne].
  - assert (Hzero : frac_part x = 0%R).
    { rewrite Hfrac, Heq. rewrite Heq in Hle. lra. }
    rewrite Hzero.
    destruct (Rlt_dec 0 (1 / 2)) as [_ | Hno]; [lia | lra].
  - destruct (Rlt_dec (frac_part x) (1 / 2)); [lia |].
    destruct (Rlt_dec (1 / 2) (frac_part x)); [lia |].
    destruct (Z.even (Int_part x)); lia.
Qed.

Lemma capacity_sums (rows : list Resource.t) :
  (forall r, In r rows ->
             0 <= Resource.available_capacity r <= Resource.total_capacity r) ->
  0 <= fold_left Z.add (Resource.available_capacity <$> rows) 0
    <= fold_left Z.add (Resource.total_capacity <$> rows) 0.
Proof.
  induction rows as [| r rows IH]; intros Hrows; [simpl; lia |].
  cbn [fmap list_fmap fold_left].
  rewrite (fold_left_Zadd _ (0 + Resource.available_capacity r)),
    (fold_left_Zadd _ (0 + Resource.total_capacity r)).
  cbn [fmap list_fmap] in IH.
  specialize (IH (fun x Hx => Hrows x (or_intror Hx))).
  specialize (Hrows r (or_introl eq_refl)). lia.
Qed.

(** X10: when every active resource of a type has an available capacity
    between zero and its total capacity, the utilisation rate reported
    for the type lies between 0 and 100; a type without capacity is
    reported at rate 0 and never divides by zero. *)
Theorem utilization_rate_bounds (table : list Resource.t)
    (ty : ResourceType.t) :
  (forall r, In r table -> Resource.is_active r = true ->
             Resource.resource_type r = ty ->
             0 <= Resource.available_capacity r <= Resource.total_capacity r) ->
  let u := MatchingService.utilization_of table ty in
  (0 <= MatchingService.utilization_rate u <= 100)%R
  /\ (MatchingService.total_capacity u = 0 ->
      MatchingService.utilization_rate u = 0%R).
Proof.
  intros Hrows u. unfold u, MatchingService.utilization_of.
  set (rows := List.filter _ table).
  assert (Hsum := capacity_sums rows).
  destruct rows as [| r rows'] eqn:Hrows_eq;
    cbn [MatchingService.utilization_rate MatchingService.total_capacity].
  { split; [lra | reflexivity]. }
  rewrite <- Hrows_eq in *. clear Hrows_eq r rows'.
  set (total := fold_left Z.add (Resource.total_capacity <$> rows) 0) in *.
  set (available :=
         fold_left Z.add (Resource.available_capacity <$> rows) 0) in *.
  assert (Hbounds : 0 <= available <= total).
  { apply Hsum. intros r Hr. unfold rows in Hr.
    apply filter_In in Hr as [Hin [Hty Hact]%andb_true_iff].
    apply bool_decide_eq_true in Hty. now apply Hrows. }
  assert (Hzero : Py.round2 0 = 0%R).
  { unfold Py.round2. rewrite Rmult_0_l.
    assert (Hr : Py.round_half_even 0 = 0).
    { assert (Hb : (0 <= 0 <= IZR 0)%R) by lra.
      apply round_half_even_bounds in Hb. lia. }
    rewrite Hr. lra. }
  destruct (Z.gtb_spec total 0) as [Hpos | Hnone].
  - split; [| lia].
    unfold Py.round2.
    set (rate := (IZR (total - available) / IZR total * 100)%R).
    assert (Htotal : (0 < IZR total)%R) by (apply IZR_lt; lia).
    assert (Hrate : (0 <= rate * 100 <= IZR 10000)%R).
    { unfold rate.
      assert (Hq : (0 <= IZR (total - available) / IZR total <= 1)%R).
      { split.
        - apply Rmult_le_pos; [apply IZR_le; lia |].
          left. now apply Rinv_0_lt_compat.
        - apply (Rmult_le_reg_r (IZR total)); [exact Htotal |].
          unfold Rdiv. rewrite Rmult_assoc, Rinv_l by lra.
          rewrite Rmult_1_r, Rmult_1_l. apply IZR_le. lia. }
      lra. }
    apply round_half_even_bounds in Hrate.
    destruct Hrate as [Hlo Hhi]. apply IZR_le in Hlo, Hhi. lra.
  - rewrite Hzero. split; [lra | reflexivity].
Qed.

Lemma utilization_rate_bounds_witness :
  (0 <= MatchingService.utilization_rate
          (MatchingService.utilization_of [full_house; last_places]
             ResourceType.SHELTER) <= 100)%R.
Proof.
  apply (utilization_rate_bounds [full_house; last_places]
           ResourceType.SHELTER).
  intros r [<- | [<- | []]] _ _; simpl; lia.
Defined.

(** ** Running the handlers

    The rules below compute [wp] along the structure of a computation;
    [wp_run] applies them until the run has reached its end on every
    path. *)

Lemma wp_conseq {A : Type} (m : M A) (Q Q' : outcome A -> world -> Prop)
    (w : world) :
  wp m Q w -> (forall o w', Q o w' -> Q' o w') -> wp m Q' w.
Proof. unfold wp. auto. Qed.

Lemma wp_ret {A : Type} (a : A) (Q : outcome A -> world -> Prop) (w : world) :
  Q (Ok a) w -> wp (ret a) Q w.
Proof. intros HQ. exact HQ. Qed.

Lemma wp_raise {A : Type} (e : exn) (Q : outcome A -> world -> Prop)
    (w : world) :
  Q (Raise e) w -> wp (raise e) Q w.
Proof. intros HQ. exact HQ. Qed.

Lemma wp_get (Q : outcome world -> world -> Prop) (w : world) :
  Q (Ok w) w -> wp get Q w.
Proof. intros HQ. exact HQ. Qed.

Lemma wp_modify (f : world -> world) (Q : outcome unit -> world -> Prop)
    (w : world) :
  Q (Ok tt) (f w) -> wp (modify f) Q w.
Proof. intros HQ. exact HQ. Qed.

Lemma wp_bind {A B : Type} (m : M A) (k : A -> M B)
    (Q : outcome B -> world -> Prop) (w : world) :
  wp m (fun o w' => match o with
                    | Ok a => wp (k a) Q w'
                    | Raise e => Q (Raise e) w'
                    end) w ->
  wp (bind m k) Q w.
Proof. unfold wp, bind. now destruct (m w) as [[a | e] w']. Qed.

Lemma wp_try_except {A : Type} (m h : M A) (Q : outcome A -> world -> Prop)
    (w : world) :
  wp m (fun o w' => match o with
                    | Ok a => Q (Ok a) w'
                    | Raise _ => wp h Q w'
                    end) w ->
  wp (try_except m h) Q w.
Proof. unfold wp, try_except. now destruct (m w) as [[a | e] w']. Qed.

Lemma wp_try_rollback {A : Type} (m h : M A)
    (Q : outcome A -> world -> Prop) (w : world) :
  wp m (fun o w' => match o with
                    | Ok a => Q (Ok a) w'
                    | Raise _ => wp (bind (rollback w) (fun _ => h)) Q w'
                    end) w ->
  wp (USSDMenuHandler.try_rollback m h) Q w.
Proof.
  unfold wp, USSDMenuHandler.try_rollback. now destruct (m w) as [[a | e] w'].
Qed.

Lemma wp_utcnow `{Runtime} (Q : outcome Z -> world -> Prop) (w : world) :
  Q (Ok (utcnow_at (clock_reads w))) (with_clock_reads (S (clock_reads w)) w) ->
  wp utcnow Q w.
Proof. intros HQ. exact HQ. Qed.

Lemma wp_random_byte `{Runtime} (Q : outcome Byte.byte -> world -> Prop)
    (w : world) :
  Q (Ok (urandom_at (random_reads w)))
    (with_random_reads (S (random_reads w)) w) ->
  wp random_byte Q w.
Proof. intros HQ. exact HQ. Qed.

Lemma wp_end_session `{Runtime} (self : USSDMenuHandler.t) (message : string)
    (Q : outcome string -> world -> Prop) (w : world) :
  Q (Ok ("END " +:+ message)) (USSDMenuHandler.ended self w) ->
  wp (USSDMenuHandler._end_session self message) Q w.
Proof. unfold wp. now rewrite end_session_run. Qed.

Lemma wp_continue_session `{Runtime} (self : USSDMenuHandler.t)
    (message : string) (Q : outcome string -> world -> Prop) (w : world) :
  Q (Ok ("CON " +:+ message)) w ->
  wp (USSDMenuHandler._continue_session self message) Q w.
Proof. intros HQ. exact HQ. Qed.

Lemma wp_update_session `{Runtime} (self : USSDMenuHandler.t)
    (f : USSDSession.t -> USSDSession.t)
    (Q : outcome unit -> world -> Prop) (w : world) :
  (forall s, sessions w !! USSDMenuHandler.session_id self = Some s ->
             Q (Ok tt)
               (with_sessions
                  (<[USSDMenuHandler.session_id self := f s]> (sessions w)) w)) ->
  (sessions w !! USSDMenuHandler.session_id self = None -> Q (Ok tt) w) ->
  wp (USSDMenuHandler.update_session self f) Q w.
Proof.
  intros Hsome Hnone. unfold wp, USSDMenuHandler.update_session, modify.
  cbn [fst snd].
  destruct (sessions w !! USSDMenuHandler.session_id self) as [s |];
    [now apply Hsome | now apply Hnone].
Qed.

Ltac wp_head m :=
  lazymatch m with
  | ?f _ => wp_head f
  | _ => m
  end.

(** The fields of a world or of a handler that has been built by the
    run. *)
Ltac wp_fields :=
  cbn [users sessions resources requests audit_logs clock_reads random_reads
       with_users with_sessions with_resources with_requests with_audit_logs
       with_clock_reads with_random_reads
       USSDMenuHandler.session_id USSDMenuHandler.phone_number
       USSDMenuHandler.text USSDMenuHandler.user USSDMenuHandler.session
       USSDMenuHandler.set_user USSDMenuHandler.set_session] in *.

(** What is known of the row of the current session. *)
Ltac wp_row :=
  repeat match goal with
         | H : (<[?k := _]> _) !! ?k = Some _ |- _ =>
             rewrite lookup_insert_eq in H; injection H as <-
         | H : (<[?k := _]> _) !! ?k = None |- _ =>
             rewrite lookup_insert_eq in H; discriminate H
         | H : delete ?k _ !! ?k = Some _ |- _ =>
             rewrite lookup_delete_eq in H; discriminate H
         | H1 : ?m !! ?k = Some _, H2 : ?m !! ?k = None |- _ =>
             rewrite H1 in H2; discriminate H2
         | H1 : ?m !! ?k = Some ?a, H2 : ?m !! ?k = Some ?b |- _ =>
             rewrite H1 in H2; injection H2 as <-
         end.

(** One step of a run. *)
Ltac wp_step :=
  lazymatch goal with
  | |- wp (bind _ _) _ _ => apply wp_bind
  | |- wp (ret _) _ _ => apply wp_ret
  | |- wp (raise _) _ _ => apply wp_raise
  | |- wp get _ _ => apply wp_get
  | |- wp (modify _) _ _ => apply wp_modify
  | |- wp utcnow _ _ => apply wp_utcnow
  | |- wp random_byte _ _ => apply wp_random_byte
  | |- wp (try_except _ _) _ _ => apply wp_try_except
  | |- wp (USSDMenuHandler.try_rollback _ _) _ _ => apply wp_try_rollback
  | |- wp (USSDMenuHandler._end_session _ _) _ _ => apply wp_end_session
  | |- wp (USSDMenuHandler._continue_session _ _) _ _ =>
      apply wp_continue_session
  | |- wp (USSDMenuHandler.update_session _ _) _ _ =>
      apply wp_update_session; [intros ? ? | intros ?]
  | |- wp (match (<[?k := _]> _) !! ?k with _ => _ end) _ _ =>
      rewrite lookup_insert_eq
  | |- wp (if ?c then _ else _) _ _ => destruct c eqn:?
  | |- wp (match ?x with _ => _ end) _ _ => destruct x eqn:?
  | |- wp (let _ := _ in _) _ _ => cbv zeta
  | |- wp ?m _ _ => let h := wp_head m in unfold h
  end;
  cbv beta iota; wp_fields; wp_row.

Ltac wp_run := repeat wp_step.

(** ** The reply *)

Lemma is_reply_con (message : string) : is_reply ("CON " +:+ message).
Proof. exists message. now left. Qed.

Lemma is_reply_end (message : string) : is_reply ("END " +:+ message).
Proof. exists message. now right. Qed.

Lemma handle_user_input_replies `{Runtime} (self : USSDMenuHandler.t)
    (w : world) :
  wp (USSDMenuHandler._handle_user_input self)
    (fun o _ => replies_or_raises o) w.
Proof.
  wp_run; try exact I; try apply is_reply_con; try apply is_reply_end.
Qed.

(** A call ends with a reply, never with an exception. *)
Lemma process_request_replies `{Runtime} (self : USSDMenuHandler.t)
    (w : world) :
  wp (USSDMenuHandler.process_request self)
    (fun o _ => match o with
                | Ok response => is_reply response
                | Raise _ => False
                end) w.
Proof.
  unfold USSDMenuHandler.process_request.
  repeat first
    [ lazymatch goal with
      | |- wp (USSDMenuHandler._handle_user_input _) _ _ =>
          eapply wp_conseq; [apply handle_user_input_replies |];
          cbv beta; intros [response | e] w' Hreply
      end
    | wp_step ];
    try exact Hreply; try apply is_reply_con; try apply is_reply_end.
Qed.

(** X11: [process_request] lets no exception escape and always answers
    with a reply of the protocol, [CON] or [END] followed by a blank and
    a message, whatever the caller sent and whatever the database
    holds. *)
Theorem process_request_always_replies `{Runtime} (self : USSDMenuHandler.t)
    (w : world) :
  exists response w',
    USSDMenuHandler.process_request self w = (Ok response, w')
    /\ is_reply response.
Proof.
  pose proof (process_request_replies self w) as Hwp.
  unfold wp in Hwp.
  destruct (USSDMenuHandler.process_request self w) as [[response | e] w'];
    [| contradiction].
  now exists response, w'.
Qed.

(** ** What a call leaves untouched *)

Lemma ended_fields (self : USSDMenuHandler.t) (w : world) :
  users (USSDMenuHandler.ended self w) = users w
  /\ resources (USSDMenuHandler.ended self w) = resources w
  /\ requests (USSDMenuHandler.ended self w) = requests w
  /\ audit_logs (USSDMenuHandler.ended self w) = audit_logs w.
Proof.
  unfold USSDMenuHandler.ended.
  now destruct (USSDMenuHandler.session self).
Qed.

(** The leaves of a run that has not written to the two tables. *)
Ltac frame_leaf :=
  repeat match goal with
         | |- context [USSDMenuHandler.ended ?self ?w] =>
             let Hu := fresh in
             let Hr := fresh in
             let Hq := fresh in
             let Ha := fresh in
             destruct (ended_fields self w) as (Hu & Hr & Hq & Ha);
             rewrite ?Hu, ?Hr, ?Hq, ?Ha; clear Hu Hr Hq Ha
         end;
  wp_fields; try (split; reflexivity); try reflexivity.

Lemma handle_user_input_frame `{Runtime} (self : USSDMenuHandler.t)
    (w : world) :
  (forall s, sessions w !! USSDMenuHandler.session_id self = Some s ->
             USSDSession.current_step s = "confirmation" ->
             Py.last_field (USSDMenuHandler.text self) <> "1") ->
  wp (USSDMenuHandler._handle_user_input self)
    (fun _ w' => requests w' = requests w /\ resources w' = resources w) w.
Proof.
  intros Hstep.
  unfold USSDMenuHandler._handle_user_input.
  do 3 wp_step; [| now (wp_run; frame_leaf)].
  specialize (Hstep _ eq_refl).
  repeat (wp_step;
          try match goal with
              | |- wp (USSDMenuHandler._handle_confirmation _ _ _) _ _ =>
                  unfold USSDMenuHandler._handle_confirmation;
                  wp_step; [now (wp_run; frame_leaf) |];
                  wp_step; [now (wp_run; frame_leaf) |];
                  exfalso;
                  match goal with
                  | Hc : (USSDSession.current_step _ =? "confirmation")%string
                         = true,
                    H1 : negb (Py.last_field _ =? "1")%string = false |- _ =>
                      apply String.eqb_eq in Hc;
                      apply negb_false_iff, String.eqb_eq in H1;
                      exact (Hstep Hc H1)
                  end
              end);
    frame_leaf.
Qed.

(** X12: a call changes the requests and the resources tables only when
    the session stands at the confirmation step and the caller's last
    input is [1]; every other call, whatever it answers, creates no
    request and reserves no capacity. *)
Theorem browsing_reserves_nothing `{Runtime} (self : USSDMenuHandler.t)
    (w : world) :
  (forall s, sessions w !! USSDMenuHandler.session_id self = Some s ->
             USSDSession.current_step s = "confirmation" ->
             Py.last_field (USSDMenuHandler.text self) <> "1") ->
  requests (snd (USSDMenuHandler.process_request self w)) = requests w
  /\ resources (snd (USSDMenuHandler.process_request self w)) = resources w.
Proof.
  intros Hstep.
  change (wp (USSDMenuHandler.process_request self)
            (fun _ w' => requests w' = requests w
                         /\ resources w' = resources w) w).
  unfold USSDMenuHandler.process_request.
  repeat
    lazymatch goal with
    | |- wp (USSDMenuHandler._handle_user_input _) _ _ =>
        eapply wp_conseq;
        [ apply handle_user_input_frame; wp_fields;
          intros row Hrow Hconf; wp_row
        | cbv beta; wp_fields; intros [response | e] w' [Hq Hr] ]
    | |- wp _ _ _ => wp_step
    end;
    try (frame_leaf; first [reflexivity | split; congruence]);
    try (cbn in Hconf;
         first [ discriminate Hconf
               | match goal with
                 | Hs : forall s, Some ?t = Some s -> _ |- _ =>
                     apply (Hs t eq_refl); congruence
                 end ]).
Qed.

Lemma browsing_reserves_nothing_witness :
  let w' :=
    snd (@USSDMenuHandler.process_request first_process incoming
           database_with_stale_session) in
  requests w' = requests database_with_stale_session
  /\ resources w' = resources database_with_stale_session.
Proof.
  apply (@browsing_reserves_nothing first_process incoming
           database_with_stale_session).
  intros s Hs Hconf. vm_compute in Hs. injection Hs as <-.
  discriminate Hconf.
Defined.

(** ** Invariants of the tables *)

(** A property of the resources and requests tables that the handlers
    keep is kept by a whole call. *)
Lemma process_request_preserves `{Runtime} (I : world -> Prop) :
  (forall w w', resources w' = resources w -> requests w' = requests w ->
                I w -> I w') ->
  (forall self w, I w ->
                  wp (USSDMenuHandler._handle_user_input self)
                    (fun _ w' => I w') w) ->
  forall self w, I w -> I (snd (USSDMenuHandler.process_request self w)).
Proof.
  intros Hframe Hhandler self w HI.
  change (wp (USSDMenuHandler.process_request self) (fun _ w' => I w') w).
  unfold USSDMenuHandler.process_request.
  repeat
    lazymatch goal with
    | |- wp (USSDMenuHandler._handle_user_input _) _ _ =>
        eapply wp_conseq;
        [ apply Hhandler; refine (Hframe w _ _ _ HI); reflexivity
        | cbv beta; wp_fields; intros [response | e] w' HI' ]
    | |- wp _ _ _ => wp_step
    end;
    try assumption;
    match goal with
    | HI' : I ?w0 |- I _ => refine (Hframe w0 _ _ _ HI'); frame_leaf
    end.
Qed.

Lemma Resource_flush_Forall (P : Resource.t -> Prop) (r : Resource.t)
    (table : list Resource.t) :
  Forall P table -> P r -> Forall P (Resource_flush r table).
Proof.
  intros Htable Hr. unfold Resource_flush.
  induction Htable as [| x table Hx _ IH]; simpl; constructor;
    [now destruct (Resource.id x =? Resource.id r) | exact IH].
Qed.

Lemma update_capacity_within (r r' : Resource.t) (q : Z) (b : bool) :
  within_capacity r -> 0 <= q ->
  Resource.update_capacity r q = (b, r') -> within_capacity r'.
Proof.
  unfold within_capacity, Resource.update_capacity. intros Hr Hq.
  destruct (Z.geb_spec (Resource.available_capacity r) q);
    intros [= <- <-]; simpl; lia.
Qed.

Lemma handle_user_input_capacity `{Runtime} (self : USSDMenuHandler.t)
    (w : world) :
  Forall within_capacity (resources w) ->
  wp (USSDMenuHandler._handle_user_input self)
    (fun _ w' => Forall within_capacity (resources w')) w.
Proof.
  intros Hcap.
  wp_run; frame_leaf; try assumption.
  match goal with
  | Hu : Resource.update_capacity ?r 1 = (?b, ?r') |- _ =>
      apply Resource_flush_Forall; [assumption |];
      apply (update_capacity_within r r' 1 b); [| lia | exact Hu]
  end.
  match goal with
  | Hg : Resource_get _ _ = Some ?r |- within_capacity ?r =>
      apply Resource_get_some in Hg as [Hin _]
  end.
  rewrite List.Forall_forall in Hcap. now apply Hcap.
Qed.

(** X13: a call never takes the free capacity of a resource out of its
    bounds: when every resource has a free capacity between zero and its
    total capacity before the call, the same holds after it, whatever the
    call does. *)
Theorem process_request_keeps_capacity_bounds `{Runtime}
    (self : USSDMenuHandler.t) (w : world) :
  Forall within_capacity (resources w) ->
  Forall within_capacity
    (resources (snd (USSDMenuHandler.process_request self w))).
Proof.
  apply (process_request_preserves
           (fun w => Forall within_capacity (resources w))).
  - intros w0 w' Hr _ Hcap. now rewrite Hr.
  - intros self0 w0. apply handle_user_input_capacity.
Qed.

Lemma process_request_keeps_capacity_bounds_witness :
  Forall within_capacity
    (resources (snd (session_call "1*Lokoja*1*1" after_fourth_call))).
Proof.
  apply (@process_request_keeps_capacity_bounds first_process).
  vm_compute. repeat constructor; discriminate.
Defined.

(** ** The users table *)

Lemma handle_user_input_users `{Runtime} (self : USSDMenuHandler.t)
    (w : world) :
  wp (USSDMenuHandler._handle_user_input self)
    (fun _ w' => users w' = users w) w.
Proof. wp_run; frame_leaf. Qed.

Lemma next_id_above (ids : list Z) (i : Z) : In i ids -> i < next_id ids.
Proof.
  unfold next_id. induction ids as [| j ids IH]; [contradiction |].
  simpl. intros [-> | Hin]; [lia |]. specialize (IH Hin). lia.
Qed.

(** What a call does to the users table: nothing, or one row added for
    a telephone number that had none. *)
Lemma process_request_users `{Runtime} (self : USSDMenuHandler.t)
    (w : world) :
  let w' := snd (USSDMenuHandler.process_request self w) in
  users w' = users w
  \/ exists phone,
       USSDMenuHandler.phone_number self = Some phone
       /\ find (fun u => String.eqb (User.phone_hash u)
                           (hash_phone_number phone)) (users w) = None
       /\ users w'
          = users w ++ [{| User.id := next_id (User.id <$> users w);
                           User.phone_hash := hash_phone_number phone |}].
Proof.
  change (wp (USSDMenuHandler.process_request self)
            (fun _ w' =>
               users w' = users w
               \/ exists phone,
                    USSDMenuHandler.phone_number self = Some phone
                    /\ find (fun u => String.eqb (User.phone_hash u)
                                        (hash_phone_number phone))
                         (users w) = None
                    /\ users w'
                       = users w
                         ++ [{| User.id := next_id (User.id <$> users w);
                                User.phone_hash :=
                                  hash_phone_number phone |}]) w).
  unfold USSDMenuHandler.process_request.
  repeat
    lazymatch goal with
    | |- wp (USSDMenuHandler._handle_user_input _) _ _ =>
        eapply wp_conseq;
        [ apply handle_user_input_users
        | cbv beta; wp_fields; intros [response | e] w' Hu ]
    | |- wp _ _ _ => wp_step
    end;
    frame_leaf; rewrite ?Hu;
    first [ now left | right; eexists; repeat split; eassumption ].
Qed.

(** X14: a call never changes or removes a row of the users table and
    adds at most one; it never gives two users the same telephone hash or
    the same identifier, so the unique constraint on the hash holds after
    the call when it held before. *)
Theorem process_request_keeps_users_distinct `{Runtime}
    (self : USSDMenuHandler.t) (w : world) :
  let w' := snd (USSDMenuHandler.process_request self w) in
  (exists added, users w' = users w ++ added /\ (length added <= 1)%nat)
  /\ (NoDup (User.phone_hash <$> users w) ->
      NoDup (User.phone_hash <$> users w'))
  /\ (NoDup (User.id <$> users w) -> NoDup (User.id <$> users w')).
Proof.
  intros w'.
  destruct (process_request_users self w) as [Hsame | (phone & _ & Hfind & Hnew)];
    fold w' in Hsame || fold w' in Hnew.
  - rewrite Hsame. split; [| tauto].
    exists []. split; [now rewrite app_nil_r | simpl; lia].
  - rewrite Hnew. split; [eexists; split; [reflexivity | simpl; lia] |].
    rewrite !fmap_app. cbn [fmap list_fmap User.id User.phone_hash].
    split; intros Hnd; apply NoDup_app;
      (split; [exact Hnd | split; [| apply NoDup_singleton]]).
    + intros h Hh Heq. apply list_elem_of_singleton in Heq. subst h.
      apply list_elem_of_fmap in Hh as (u & Hhash & Hu).
      apply list_elem_of_In in Hu.
      apply (find_none _ _ Hfind) in Hu. cbv beta in Hu.
      rewrite <- Hhash, String.eqb_refl in Hu. discriminate.
    + intros i Hi Heq. apply list_elem_of_singleton in Heq. subst i.
      apply list_elem_of_In, next_id_above in Hi. lia.
Qed.

(** ** The steps of a session *)










(** ** The row of the session and the reply *)












(** ** The gateway's callback *)

Lemma newline_no_session_id_char :
  SecurityService.session_id_char Re.newline = false.
Proof. reflexivity. Qed.

(** [^[cls]+$] on a class that excludes the newline: one or more
    characters of the class, and possibly one newline after them. *)
Lemma match_plus_spec (cls : ascii -> bool) (s : list ascii) :
  cls Re.newline = false ->
  forall seen,
    Re.match_plus cls seen s = true
    <-> (s = [] /\ seen = true)
        \/ (seen = true /\ s = [Re.newline])
        \/ exists body,
             body <> [] /\ forallb cls body = true
             /\ (s = body \/ s = body ++ [Re.newline]).
Proof.
  intros Hnl. induction s as [| c s IH]; intros seen; simpl.
  - split.
    + intros ->. now left.
    + intros [[_ ->] | [[_ E] | (body & Hne & _ & [E | E])]];
        [reflexivity | discriminate E | |].
      * now subst body.
      * now destruct body.
  - destruct (cls c) eqn:Hc.
    + rewrite IH. split.
      * intros [[-> _] | [[_ ->] | (body & Hne & Hall & Hs)]].
        -- right. right. exists [c]. simpl. rewrite Hc. now auto.
        -- right. right. exists [c]. simpl. rewrite Hc. now auto.
        -- right. right. exists (c :: body). simpl. rewrite Hc, Hall.
           split; [discriminate |]. split; [reflexivity |].
           destruct Hs as [-> | ->]; auto.
      * intros [[E _] | [[_ E] | (body & Hne & Hall & Hs)]];
          [discriminate E | injection E as -> _; congruence |].
        destruct body as [| b body]; [contradiction |].
        simpl in Hall. apply andb_true_iff in Hall as [_ Hall].
        assert (Hs' : s = body \/ s = body ++ [Re.newline])
          by (destruct Hs as [E | E]; injection E as _ ->; auto).
        destruct body as [| b' body].
        -- destruct Hs' as [-> | ->]; [left | right; left]; auto.
        -- right. right. exists (b' :: body). now auto.
    + rewrite !andb_true_iff. split.
      * intros [[-> Hn] Hs]. apply Ascii.eqb_eq in Hn as ->.
        destruct s; [| discriminate Hs]. right. left. auto.
      * intros [[E _] | [[-> E] | (body & Hne & Hall & Hs)]];
          [discriminate E | injection E as -> -> |].
        -- now rewrite Ascii.eqb_refl.
        -- destruct body as [| b body]; [contradiction |].
           simpl in Hall. apply andb_true_iff in Hall as [Hb _].
           assert (c = b) by (destruct Hs as [E | E]; now injection E).
           congruence.
Qed.

(** What the loop over the required fields finds. *)
Lemma required_fields_found (data : gmap string string) :
  find (fun field => bool_decide (data !! field = None))
    ["sessionId"; "phoneNumber"; "text"] = None
  <-> is_Some (data !! "sessionId") /\ is_Some (data !! "phoneNumber")
      /\ is_Some (data !! "text").
Proof.
  cbn [find].
  destruct (data !! "sessionId") as [sid |] eqn:E1;
    [| rewrite bool_decide_eq_true_2 by reflexivity; split;
       [discriminate | intros [[? E] _]; discriminate E]].
  destruct (data !! "phoneNumber") as [phone |] eqn:E2;
    [| rewrite bool_decide_eq_false_2 by discriminate;
       rewrite bool_decide_eq_true_2 by reflexivity; split;
       [discriminate | intros (_ & [? E] & _); discriminate E]].
  destruct (data !! "text") as [text |] eqn:E3;
    [| rewrite !bool_decide_eq_false_2 by discriminate;
       rewrite bool_decide_eq_true_2 by reflexivity; split;
       [discriminate | intros (_ & _ & [? E]); discriminate E]].
  rewrite !bool_decide_eq_false_2 by discriminate.
  split; [intros _; repeat split; eexists; reflexivity | reflexivity].
Qed.

Lemma validate_ussd_request_true (data : gmap string string) :
  fst (SecurityService.validate_ussd_request data) = true
  <-> exists sid phone,
        data !! "sessionId" = Some sid
        /\ data !! "phoneNumber" = Some phone
        /\ is_Some (data !! "text")
        /\ SecurityService.validate_phone_number phone = true
        /\ Re.match_plus SecurityService.session_id_char false (Py.chars sid)
           = true.
Proof.
  unfold SecurityService.validate_ussd_request.
  destruct (find _ _) as [field |] eqn:Hfind.
  - split; [discriminate |].
    intros (sid & phone & E1 & E2 & E3 & _).
    assert (Hnone : find (fun field => bool_decide (data !! field = None))
                      ["sessionId"; "phoneNumber"; "text"] = None).
    { apply required_fields_found. rewrite E1, E2. now eauto. }
    rewrite Hnone in Hfind. discriminate Hfind.
  - apply required_fields_found in Hfind
      as ([sid E1] & [phone E2] & Htext).
    rewrite E1, E2.
    change (default "" (Some phone)) with phone.
    change (default "" (Some sid)) with sid.
    destruct (SecurityService.validate_phone_number phone) eqn:Hphone;
      cbn [negb].
    + destruct (Re.match_plus _ _ _) eqn:Hsid; cbn [negb fst].
      * split; [intros _; exists sid, phone; now auto | reflexivity].
      * split; [discriminate |].
        intros (sid' & phone' & E1' & _ & _ & _ & Hm). congruence.
    + cbn [fst]. split; [discriminate |].
      intros (sid' & phone' & _ & E2' & _ & Hp & _). congruence.
Qed.

(** X17: [validate_ussd_request] accepts a request exactly when it has
    the three fields [sessionId], [phoneNumber] and [text], the phone
    number passes [validate_phone_number], and the session id is one or
    more characters among letters, digits, [_] and [-], possibly followed
    by one newline; it then answers [Valid request]. *)
Theorem validate_ussd_request_accepts_iff (data : gmap string string) :
  (fst (SecurityService.validate_ussd_request data) = true
   <-> exists sid phone body,
         data !! "sessionId" = Some sid
         /\ data !! "phoneNumber" = Some phone
         /\ is_Some (data !! "text")
         /\ SecurityService.validate_phone_number phone = true
         /\ body <> []
         /\ forallb SecurityService.session_id_char body = true
         /\ (Py.chars sid = body \/ Py.chars sid = body ++ [Re.newline]))
  /\ (fst (SecurityService.validate_ussd_request data) = true ->
      snd (SecurityService.validate_ussd_request data) = "Valid request").
Proof.
  split.
  - rewrite validate_ussd_request_true. split.
    + intros (sid & phone & E1 & E2 & E3 & Hp & Hm).
      apply (match_plus_spec _ _ newline_no_session_id_char) in Hm
        as [[_ Hf] | [[Hf _] | (body & Hne & Hall & Hs)]];
        [discriminate Hf | discriminate Hf |].
      exists sid, phone, body. now auto 10.
    + intros (sid & phone & body & E1 & E2 & E3 & Hp & Hne & Hall & Hs).
      exists sid, phone. repeat (split; [assumption |]).
      apply (match_plus_spec _ _ newline_no_session_id_char).
      right. right. exists body. now auto.
  - unfold SecurityService.validate_ussd_request.
    destruct (find _ _); [discriminate |].
    destruct (negb (SecurityService.validate_phone_number _));
      [discriminate |].
    destruct (negb (Re.match_plus _ _ _)); [discriminate | reflexivity].
Qed.




(** ** Audit rows and the rate limit *)

(** X19: the decorator [audit_log], applied while no user id is set on
    the request context, returns what the decorated function returns or
    raises, and the row it writes never counts: at any reading of the
    clock, [User.is_rate_limited] and [detect_suspicious_activity] answer
    on the database it leaves as they do on the database the function
    left, for every user, action and limit. *)
Theorem audit_rows_without_user_never_count `{Runtime} {A : Type}
    (f : M A) (action : string) (details : option (gmap string string))
    (w : world) :
  let plain := f w in
  let audited := audit_log None action details f w in
  fst audited = fst plain
  /\ (forall user action_type limit k,
         fst (is_rate_limited user action_type limit
                (with_clock_reads k (snd audited)))
         = fst (is_rate_limited user action_type limit
                  (with_clock_reads k (snd plain))))
  /\ (forall user_id action_type d k,
         fst (SecurityService.detect_suspicious_activity user_id action_type d
                (with_clock_reads k (snd audited)))
         = fst (SecurityService.detect_suspicious_activity user_id
                  action_type d (with_clock_reads k (snd plain)))).
Proof.
  cbv zeta. unfold audit_log, bind, try_except, utcnow, modify, ret.
  destruct (f w) as [[result | e] w1]; cbn [fst snd];
    [| now repeat split].
  split; [reflexivity |].
  assert (Hrows : forall (g : AuditLog.t -> bool) row,
             AuditLog.user_id row = None ->
             (forall l, g l = true -> AuditLog.user_id l <> None) ->
             List.filter g (audit_logs w1 ++ [row])
             = List.filter g (audit_logs w1)).
  { intros g row Hrow Hg. rewrite List.filter_app. cbn [List.filter].
    destruct (g row) eqn:E; [now apply Hg in E | apply app_nil_r]. }
  split.
  - intros user action_type limit k.
    unfold is_rate_limited, bind, utcnow, get, ret.
    cbn [fst snd audit_logs with_audit_logs with_clock_reads clock_reads].
    rewrite Hrows; [reflexivity | reflexivity |].
    intros l Hl. rewrite !andb_true_iff, bool_decide_eq_true in Hl.
    destruct Hl as [[-> _] _]. discriminate.
  - intros user_id action_type d k.
    unfold SecurityService.detect_suspicious_activity, bind, utcnow, get, ret.
    destruct (user_id =? 0); [reflexivity |].
    cbn [fst snd audit_logs with_audit_logs with_clock_reads clock_reads].
    rewrite Hrows; [| reflexivity |].
    + destruct (_ >? 5); [reflexivity |].
      destruct d as [d |]; [| reflexivity].
      destruct (_ && _); [| reflexivity].
      cbn [fst snd audit_logs with_audit_logs with_clock_reads clock_reads].
      rewrite Hrows; [now destruct (_ >? 3) | reflexivity |].
      intros l Hl. rewrite !andb_true_iff, bool_decide_eq_true in Hl.
      destruct Hl as [[-> _] _]. discriminate.
    + intros l Hl. rewrite !andb_true_iff, bool_decide_eq_true in Hl.
      destruct Hl as [[-> _] _]. discriminate.
Qed.

(** ** The batch matcher as a whole *)

Lemma update_capacity_not_negative (r : Resource.t) (q : Z) :
  0 <= Resource.available_capacity r ->
  0 <= Resource.available_capacity (snd (Resource.update_capacity r q)).
Proof.
  unfold Resource.update_capacity. intros Hr.
  destruct (Z.geb_spec (Resource.available_capacity r) q); simpl; lia.
Qed.

Lemma Resource_flush_ids (r : Resource.t) (table : list Resource.t) :
  map Resource.id (Resource_flush r table) = map Resource.id table.
Proof.
  unfold Resource_flush. rewrite map_map. apply map_ext. intros x.
  destruct (Z.eqb_spec (Resource.id x) (Resource.id r)); congruence.
Qed.

Lemma EmergencyRequest_flush_ids (q : EmergencyRequest.t)
    (table : list EmergencyRequest.t) :
  map EmergencyRequest.id (EmergencyRequest_flush q table)
  = map EmergencyRequest.id table.
Proof.
  unfold EmergencyRequest_flush. rewrite map_map. apply map_ext. intros x.
  destruct (Z.eqb_spec (EmergencyRequest.id x) (EmergencyRequest.id q));
    congruence.
Qed.

Lemma EmergencyRequest_flush_other (q p : EmergencyRequest.t)
    (table : list EmergencyRequest.t) :
  In p table -> EmergencyRequest.id p <> EmergencyRequest.id q ->
  In p (EmergencyRequest_flush q table).
Proof.
  intros Hin Hid. unfold EmergencyRequest_flush. apply in_map_iff.
  exists p. apply Z.eqb_neq in Hid. now rewrite Hid.
Qed.

Lemma match_one_keeps `{Runtime} (radius : R) (req : EmergencyRequest.t)
    (counts : Z * Z) (w : world) :
  exists counts' w1,
    MatchingService.match_one radius req counts w = (Ok counts', w1)
    /\ turn_keeps req w w1.
Proof.
  destruct (MatchingService.match_request_to_resource radius (resources w)
              req) as [res |] eqn:Hm.
  - rewrite (match_one_some _ _ _ _ _ Hm). do 2 eexists.
    split; [reflexivity |]. unfold turn_keeps.
    cbn [resources requests users sessions audit_logs with_requests
         with_resources with_clock_reads].
    rewrite Resource_flush_ids, EmergencyRequest_flush_ids.
    repeat (split; [reflexivity |]). split; [| repeat split].
    + intros Hcap. apply Resource_flush_Forall; [exact Hcap |].
      apply update_capacity_not_negative.
      destruct (match_request_from_table _ _ _ _ Hm)
        as (row & Hrow & _ & Hsame & _).
      rewrite List.Forall_forall in Hcap. rewrite <- Hsame.
      now apply Hcap.
    + intros p Hp Hid. now apply EmergencyRequest_flush_other.
  - rewrite (match_one_none _ _ _ _ Hm). do 2 eexists.
    split; [reflexivity |]. unfold turn_keeps. now repeat split.
Qed.

Lemma match_all_keeps `{Runtime} (radius : R)
    (pending : list EmergencyRequest.t) :
  forall (counts : Z * Z) (w : world),
  exists counts' w',
    MatchingService.match_all radius pending counts w = (Ok counts', w')
    /\ map Resource.id (resources w') = map Resource.id (resources w)
    /\ map EmergencyRequest.id (requests w')
       = map EmergencyRequest.id (requests w)
    /\ (Forall (fun r => 0 <= Resource.available_capacity r) (resources w) ->
        Forall (fun r => 0 <= Resource.available_capacity r) (resources w'))
    /\ users w' = users w /\ sessions w' = sessions w
    /\ audit_logs w' = audit_logs w
    /\ forall p, In p (requests w) ->
                 (forall q, In q pending ->
                            EmergencyRequest.id p <> EmergencyRequest.id q) ->
                 In p (requests w').
Proof.
  induction pending as [| req rest IH]; intros counts w.
  - exists counts, w. now repeat split.
  - destruct (match_one_keeps radius req counts w)
      as (c1 & w1 & Hone & Hr1 & Hq1 & Hcap1 & Hu1 & Hs1 & Ha1 & Hother1).
    destruct (IH c1 w1)
      as (c' & w' & Hall & Hr & Hq & Hcap & Hu & Hs & Ha & Hother).
    exists c', w'. split.
    + cbn [MatchingService.match_all]. unfold bind. now rewrite Hone.
    + repeat split; try congruence.
      * intros Hw. now apply Hcap, Hcap1.
      * intros p Hp Hids. apply Hother.
        -- apply Hother1; [exact Hp |]. apply Hids. now left.
        -- intros q Hq'. apply Hids. now right.
Qed.

Lemma same_key_same_row (table : list EmergencyRequest.t)
    (p q : EmergencyRequest.t) :
  NoDup (map EmergencyRequest.id table) -> In p table -> In q table ->
  EmergencyRequest.id p = EmergencyRequest.id q -> p = q.
Proof.
  induction table as [| x table IH]; [contradiction |].
  cbn [map]. rewrite NoDup_cons. intros [Hx Hnd] [-> | Hp] [-> | Hq] Hid.
  - reflexivity.
  - exfalso. apply Hx. rewrite Hid. apply list_elem_of_In.
    now apply in_map.
  - exfalso. apply Hx. rewrite <- Hid. apply list_elem_of_In.
    now apply in_map.
  - now apply IH.
Qed.

(** X20: a run of [auto_match_pending_requests] returns a summary, adds
    and removes no row of the resources and requests tables, leaves the
    users, the sessions and the audit log alone, and drives no free
    capacity below zero.  When the request ids are distinct, every
    request that is not pending, or was created less than five minutes
    before the run, is left exactly as it was. *)
Theorem auto_match_keeps_tables `{Runtime} (radius : R) (w : world) :
  Forall (fun r => 0 <= Resource.available_capacity r) (resources w) ->
  NoDup (map EmergencyRequest.id (requests w)) ->
  exists s w',
    MatchingService.auto_match_pending_requests radius w = (Ok s, w')
    /\ map Resource.id (resources w') = map Resource.id (resources w)
    /\ map EmergencyRequest.id (requests w')
       = map EmergencyRequest.id (requests w)
    /\ Forall (fun r => 0 <= Resource.available_capacity r) (resources w')
    /\ users w' = users w /\ sessions w' = sessions w
    /\ audit_logs w' = audit_logs w
    /\ forall p,
         In p (requests w) ->
         EmergencyRequest.status p <> RequestStatus.PENDING
         \/ EmergencyRequest.created_at p
            > utcnow_at (clock_reads w) - Clock.minutes 5 ->
         In p (requests w').
Proof.
  intros Hcap Hkeys.
  unfold MatchingService.auto_match_pending_requests, bind, utcnow, get.
  cbn [requests clock_reads with_clock_reads].
  set (pending := MatchingService.pending_requests _ _).
  destruct (match_all_keeps radius pending (0, 0)
              (with_clock_reads (S (clock_reads w)) w))
    as (c' & w' & Hall & Hr & Hq & Hcap' & Hu & Hs & Ha & Hother).
  rewrite Hall. cbn [ret]. do 2 eexists. split; [reflexivity |].
  cbn [resources requests users sessions audit_logs with_clock_reads] in *.
  repeat (split; [first [assumption | now apply Hcap'] |]).
  intros p Hp Hnot. apply Hother; [exact Hp |].
  intros q Hq' Hid. unfold pending in Hq'.
  apply pending_requests_In in Hq' as (Hq' & Hst & Hold).
  assert (p = q) by now apply (same_key_same_row (requests w)).
  subst q. destruct Hnot as [Hnot | Hnot]; [contradiction | lia].
Qed.

Lemma auto_match_keeps_tables_witness :
  let w := database [full_house] [shelter_request (Some 3)] in
  exists s w',
    @MatchingService.auto_match_pending_requests first_process 50 w
    = (Ok s, w')
    /\ map Resource.id (resources w') = map Resource.id (resources w)
    /\ map EmergencyRequest.id (requests w')
       = map EmergencyRequest.id (requests w)
    /\ Forall (fun r => 0 <= Resource.available_capacity r) (resources w')
    /\ users w' = users w /\ sessions w' = sessions w
    /\ audit_logs w' = audit_logs w
    /\ forall p,
         In p (requests w) ->
         EmergencyRequest.status p <> RequestStatus.PENDING
         \/ EmergencyRequest.created_at p
            > @utcnow_at first_process (clock_reads w) - Clock.minutes 5 ->
         In p (requests w').
Proof.
  intros w.
  apply (@auto_match_keeps_tables first_process 50 w).
  - repeat constructor. simpl. lia.
  - repeat constructor. simpl. intros Hin. inversion Hin.
Defined.

(** ** The candidate search and the distance *)

(** X21: what [find_nearby_resources] returns, on every input.  When the
    caller's latitude and longitude are both present and non-zero, the
    results are exactly the active rows of the requested type with free
    capacity and present, non-zero coordinates whose distance to the
    caller is within the radius, each with that distance attached,
    nearest first and at equal distance the larger free capacity first.
    In every other case, a caller coordinate of zero included, the
    results are exactly the active rows of the requested type with free
    capacity whose location label matches [%text%] without regard to
    letter case, larger free capacity first. *)
Theorem find_nearby_resources_results (table : list Resource.t)
    (ty : ResourceType.t) (location : string) (radius : R)
    (ulat ulon : option R) :
  let result :=
    MatchingService.find_nearby_resources table ty location radius ulat ulon in
  (Py.truthy ulat = true /\ Py.truthy ulon = true ->
   (forall r', In r' result <->
      exists r d,
        In r table
        /\ MatchingService.base_query ty r = true
        /\ Py.truthy (Resource.latitude r) = true
        /\ Py.truthy (Resource.longitude r) = true
        /\ MatchingService.calculate_distance ulat ulon
             (Resource.latitude r) (Resource.longitude r)
           = MatchingService.Finite d
        /\ (d <= radius)%R
        /\ r' = Resource.set_distance d r)
   /\ StronglySorted MatchingService.ranked_by_distance result)
  /\ (Py.truthy ulat = false \/ Py.truthy ulon = false ->
      (forall r, In r result <->
         In r table
         /\ MatchingService.base_query ty r = true
         /\ Sql.ilike (Resource.location r) ("%" +:+ location +:+ "%") = true)
      /\ StronglySorted MatchingService.ranked_by_capacity result).
Proof.
  intros result. split.
  - intros [H1 H2]. unfold result.
    rewrite (find_nearby_distance _ _ _ _ _ _ H1 H2).
    split; [| apply sort_nearer_sorted].
    intros r'. rewrite sort_In, within_radius_In. split.
    + intros (r & d & Hr & Hrest). apply filter_In in Hr as [Hr Hb].
      exists r, d. tauto.
    + intros (r & d & Hr & Hb & Hrest). exists r, d.
      split; [apply filter_In; tauto | tauto].
  - intros Hfalsy. unfold result.
    assert (Hc : Py.truthy ulat && Py.truthy ulon = false)
      by (destruct Hfalsy as [-> | ->]; [reflexivity | apply andb_false_r]).
    rewrite (find_nearby_text _ _ _ _ _ _ Hc).
    split; [| apply sort_roomier_sorted].
    intros r. rewrite sort_In, !filter_In. tauto.
Qed.

Lemma radians_quarter_turn (x : R) :
  (-90 <= x <= 90)%R ->
  (- (PI / 2) <= MatchingService.radians x <= PI / 2)%R.
Proof.
  unfold MatchingService.radians. pose proof PI_RGT_0 as Hpi. nra.
Qed.

Lemma asin_not_negative (s : R) : (0 <= s <= 1)%R -> (0 <= asin s)%R.
Proof.
  intros Hs. destruct (Rle_or_lt 0 (asin s)) as [Hle | Hlt]; [exact Hle |].
  pose proof (asin_bound s) as Hb. pose proof PI_RGT_0 as Hpi.
  assert (Hsin : (sin (asin s) < 0)%R) by (apply sin_lt_0_var; lra).
  rewrite sin_asin in Hsin by lra. lra.
Qed.

Lemma haversine_term_bounds (x y l : R) :
  (- (PI / 2) <= x <= PI / 2)%R -> (- (PI / 2) <= y <= PI / 2)%R ->
  (0 <= sin ((y - x) / 2) ^ 2 + cos x * cos y * sin (l / 2) ^ 2 <= 1)%R.
Proof.
  intros Hx Hy.
  assert (Hcx : (0 <= cos x)%R) by (apply cos_ge_0; lra).
  assert (Hcy : (0 <= cos y)%R) by (apply cos_ge_0; lra).
  pose proof (sin2_cos2 ((y - x) / 2)) as Hone.
  pose proof (sin2_cos2 (l / 2)) as Hl.
  pose proof (cos_2a_cos ((y - x) / 2)) as Hhalf.
  replace (2 * ((y - x) / 2))%R with (y - x)%R in Hhalf by lra.
  rewrite cos_minus in Hhalf.
  pose proof (COS_bound (x + y)) as [_ Hsum]. rewrite cos_plus in Hsum.
  unfold Rsqr in Hone, Hl.
  set (s := sin ((y - x) / 2)) in *. set (c := cos ((y - x) / 2)) in *.
  set (u := sin (l / 2)) in *. set (v := cos (l / 2)) in *.
  set (cx := cos x) in *. set (cy := cos y) in *.
  set (sx := sin x) in *. set (sy := sin y) in *.
  assert (Hprod : (0 <= cx * cy)%R) by nra.
  assert (Hcap : (cx * cy <= c * c)%R) by nra.
  assert (Hu : (0 <= u * u <= 1)%R) by nra.
  simpl pow. split; nra.
Qed.

(** X22: for two points with non-zero coordinates and latitudes between
    -90 and 90 degrees, [calculate_distance] returns a finite distance
    that is not negative and not more than half the circumference of a
    sphere of radius 6371 km. *)
Theorem calculate_distance_bounds (lat1 lon1 lat2 lon2 : R) :
  lat1 <> 0%R -> lon1 <> 0%R -> lat2 <> 0%R -> lon2 <> 0%R ->
  (-90 <= lat1 <= 90)%R -> (-90 <= lat2 <= 90)%R ->
  exists d,
    MatchingService.calculate_distance (Some lat1) (Some lon1)
      (Some lat2) (Some lon2) = MatchingService.Finite d
    /\ (0 <= d <= 6371 * PI)%R.
Proof.
  intros H1 H2 H3 H4 Hlat1 Hlat2.
  unfold MatchingService.calculate_distance.
  assert (Hall : Py.all [Some lat1; Some lon1; Some lat2; Some lon2] = true).
  { unfold Py.all. cbn [forallb]. rewrite !andb_true_iff.
    repeat split; apply truthy_spec; eexists; split;
      try reflexivity; assumption. }
  rewrite Hall. cbn [negb]. cbv zeta. eexists. split; [reflexivity |].
  pose proof (haversine_term_bounds _ _
                (MatchingService.radians lon2 - MatchingService.radians lon1)
                (radians_quarter_turn _ Hlat1) (radians_quarter_turn _ Hlat2))
    as Ha.
  set (a := (_ + _)%R) in *.
  assert (Hs : (0 <= sqrt a <= 1)%R).
  { split; [apply sqrt_pos |]. rewrite <- sqrt_1.
    apply sqrt_le_1_alt. lra. }
  pose proof (asin_not_negative _ Hs) as Hlow.
  pose proof (asin_bound (sqrt a)) as [_ Hhigh].
  pose proof PI_RGT_0 as Hpi. nra.
Qed.

Lemma calculate_distance_bounds_witness :
  exists d,
    MatchingService.calculate_distance (Some 7%R) (Some 6%R)
      (Some 9%R) (Some 7%R) = MatchingService.Finite d
    /\ (0 <= d <= 6371 * PI)%R.
Proof.
  apply (calculate_distance_bounds 7 6 9 7); lra.
Defined.

(** ** Bookings and reservations *)

Lemma handle_user_input_books `{Runtime} (self : USSDMenuHandler.t)
    (w : world) :
  wp (USSDMenuHandler._handle_user_input self)
    (fun _ w' =>
       (requests w' = requests w /\ resources w' = resources w)
       \/ books_one w w') w.
Proof.
  wp_run; frame_leaf; try (left; split; reflexivity).
  right. unfold books_one. frame_leaf.
  match goal with
  | Hg : Resource_get ?rid _ = Some ?r,
    Hc : (Resource.available_capacity ?r <=? 0) = false,
    Hu : Resource.update_capacity ?r 1 = _ |- _ =>
      apply Z.leb_gt in Hc;
      unfold Resource.update_capacity in Hu;
      destruct (Z.geb_spec (Resource.available_capacity r) 1); [| lia];
      injection Hu as _ <-;
      exists rid, r; eexists;
      split; [exact Hg |]; split; [exact Hc |];
      split; [reflexivity |]; split; [reflexivity |];
      split; reflexivity
  end.
Qed.

Lemma books_one_frame (w0 w1 w' w'' : world) :
  resources w1 = resources w0 -> requests w1 = requests w0 ->
  resources w'' = resources w' -> requests w'' = requests w' ->
  books_one w0 w' -> books_one w1 w''.
Proof.
  unfold books_one. intros -> -> -> ->. exact (fun Hb => Hb).
Qed.

Lemma process_request_books `{Runtime} (self : USSDMenuHandler.t)
    (w : world) :
  wp (USSDMenuHandler.process_request self)
    (fun _ w' =>
       (requests w' = requests w /\ resources w' = resources w)
       \/ books_one w w') w.
Proof.
  unfold USSDMenuHandler.process_request.
  repeat
    lazymatch goal with
    | |- wp (USSDMenuHandler._handle_user_input _) _ _ =>
        eapply wp_conseq;
        [ apply handle_user_input_books
        | cbv beta; wp_fields; intros [response | e] w' Hbooks ]
    | |- wp _ _ _ => wp_step
    end;
    try (frame_leaf; left; split; reflexivity).
  all: destruct Hbooks as [[Hq Hr] | Hb];
    [ left; frame_leaf; split; congruence
    | right; refine (books_one_frame _ _ _ _ _ _ _ _ Hb); frame_leaf ].
Qed.

(** Writing back a row under a key that occurs once changes the free
    capacity by the difference between the two rows. *)
Lemma Resource_flush_free_capacity (r r' : Resource.t)
    (table : list Resource.t) :
  NoDup (Resource.id <$> table) ->
  Resource_get (Resource.id r') table = Some r ->
  free_capacity (Resource_flush r' table)
  = free_capacity table - Resource.available_capacity r
    + Resource.available_capacity r'.
Proof.
  unfold free_capacity, Resource_flush, Resource_get.
  induction table as [| x table IH]; [discriminate |].
  cbn [fmap list_fmap map find fold_right]. rewrite NoDup_cons.
  intros [Hx Hnd].
  destruct (Z.eqb_spec (Resource.id x) (Resource.id r')) as [Heq | Hne].
  - intros [= ->].
    assert (Hrest : map (fun y => if Resource.id y =? Resource.id r'
                                  then r' else y) table = table).
    { rewrite <- (map_id table) at 2. apply map_ext_in. intros y Hy.
      destruct (Z.eqb_spec (Resource.id y) (Resource.id r')) as [E |];
        [| reflexivity].
      exfalso. apply Hx. rewrite Heq, <- E.
      apply list_elem_of_fmap. exists y. split; [reflexivity |].
      now apply list_elem_of_In. }
    change (list_fmap Resource.t Z Resource.available_capacity)
      with (fmap (M := list) Resource.available_capacity).
    rewrite Hrest. lia.
  - intros Hfind. specialize (IH Hnd Hfind).
    change (list_fmap Resource.t Z Resource.available_capacity)
      with (fmap (M := list) Resource.available_capacity) in *.
    lia.
Qed.

(** X23: bookings and reservations go together.  When the resource ids
    are distinct, a call either leaves the requests and the resources as
    they were, or adds exactly one request, with status [matched], and
    takes exactly one unit from the resource it names; a call never
    removes or changes a request, and the free capacity of all resources
    plus the number of requests is the same after the call as before. *)
Theorem bookings_match_reservations `{Runtime} (self : USSDMenuHandler.t)
    (w : world) :
  NoDup (Resource.id <$> resources w) ->
  let w' := snd (USSDMenuHandler.process_request self w) in
  ((requests w' = requests w /\ resources w' = resources w)
   \/ books_one w w')
  /\ (exists added,
         requests w' = requests w ++ added /\ (length added <= 1)%nat)
  /\ Resource.id <$> resources w' = Resource.id <$> resources w
  /\ free_capacity (resources w') + Z.of_nat (length (requests w'))
     = free_capacity (resources w) + Z.of_nat (length (requests w)).
Proof.
  intros Hkeys w'.
  pose proof (process_request_books self w) as Hbooks.
  unfold wp in Hbooks. fold w' in Hbooks.
  split; [exact Hbooks |].
  destruct Hbooks as [[Hq Hr] | (rid & r & q & Hget & Hfree & Hres & Hreq & _)].
  - rewrite Hq, Hr. split; [| split; reflexivity].
    exists []. split; [now rewrite app_nil_r | simpl; lia].
  - split; [exists [q]; split; [exact Hreq | simpl; lia] |].
    rewrite Hres, Hreq. split; [apply Resource_flush_ids |].
    assert (Hid : Resource.id r = rid).
    { apply Resource_get_some in Hget as [_ Hid]. exact Hid. }
    rewrite (Resource_flush_free_capacity r).
    + rewrite length_app. cbn [length Resource.available_capacity
                                 Resource.set_available_capacity]. lia.
    + exact Hkeys.
    + cbn [Resource.id Resource.set_available_capacity]. now rewrite Hid.
Qed.

Lemma bookings_match_reservations_witness :
  let w := after_fourth_call in
  let w' := snd (session_call "1*Lokoja*1*1" w) in
  ((requests w' = requests w /\ resources w' = resources w)
   \/ books_one w w')
  /\ (exists added,
         requests w' = requests w ++ added /\ (length added <= 1)%nat)
  /\ Resource.id <$> resources w' = Resource.id <$> resources w
  /\ free_capacity (resources w') + Z.of_nat (length (requests w'))
     = free_capacity (resources w) + Z.of_nat (length (requests w)).
Proof.
  apply (@bookings_match_reservations first_process).
  repeat constructor. intros Hin. inversion Hin.
Defined.
